(** * Forge adapter: the gym environment and the agent loop

    A shallow embedding of [forge_gym/env.py] (class [ForgeEnv]) and of
    [agent_loop.py] ([forge_request], [policy_request], [run_game]),
    together with the properties of the reward computation, the termination
    and truncation flags, the default observation, the handling of action
    indices and the step ceiling of the agent loop.

    Conventions of the embedding:
    - a Python value that comes out of [json.loads] is a [json] term;
      a [dict] is an association list read by its first binding;
    - Python [float]s are read as exact rationals ([Q]): [0.1] is [1/10];
      where the rounding of binary64 decides, module [Binary64] evaluates
      the same statements on binary64 numbers;
    - a raised exception is the [Raise] case of [result]; methods of
      [ForgeEnv] run in a state-and-exception monad over the instance, so
      that what a method has written before it raises stays written;
    - the engine process and the HTTP peers are oracles: functions from
      what has been sent so far to what comes back. *)

From Stdlib Require Import ZArith QArith Qround String Ascii List Bool Lia Lqa.
From Stdlib Require Import SpecFloat.
Import ListNotations.

Set Warnings "-register-all".

Open Scope string_scope.
Open Scope Z_scope.

(** ** Python values, exceptions and the builtins the sources use *)

Module Py.

Inductive json : Type :=
| JNull
| JBool (b : bool)
| JInt (n : Z)
| JFloat (q : Q)
| JStr (s : string)
| JList (xs : list json)
| JDict (kvs : list (string * json)).

(** Exception classes that the two sources raise, catch or let through. *)
Inductive exn : Type :=
| TypeError
| AttributeError
| KeyError
| IndexError
| ValueError
| JSONDecodeError      (* a subclass of ValueError *)
| OverflowError
| RuntimeError
| URLError
| SocketTimeout
| ConnectionResetError (* an OSError that urlopen lets through unwrapped *)
| SystemExit.

Inductive result (A : Type) : Type :=
| Ok (a : A)
| Raise (e : exn).
Arguments Ok {A} a.
Arguments Raise {A} e.

Definition bind {A B : Type} (m : result A) (k : A -> result B) : result B :=
  match m with
  | Ok a => k a
  | Raise e => Raise e
  end.

Declare Scope py_scope.
Delimit Scope py_scope with py.
Notation "'let*' x ':=' m 'in' k" :=
  (bind m (fun x => k))
  (at level 10, x name, m at level 100, k at level 200) : py_scope.

(** [except (ValueError, TypeError)]: [JSONDecodeError] derives from
    [ValueError]. *)
Definition is_ValueError (e : exn) : bool :=
  match e with
  | ValueError | JSONDecodeError => true
  | _ => false
  end.

Definition is_TypeError (e : exn) : bool :=
  match e with
  | TypeError => true
  | _ => false
  end.

(** Truth value of a Python object ([not x], [if x], [x or y]). *)
Definition truthy (v : json) : bool :=
  match v with
  | JNull => false
  | JBool b => b
  | JInt n => negb (n =? 0)
  | JFloat q => negb (Qeq_bool q 0)
  | JStr s => negb (String.eqb s "")
  | JList xs => match xs with [] => false | _ => true end
  | JDict kvs => match kvs with [] => false | _ => true end
  end.

Fixpoint lookup (k : string) (kvs : list (string * json)) : option json :=
  match kvs with
  | [] => None
  | (k', v) :: rest => if String.eqb k k' then Some v else lookup k rest
  end.

(** [d.get(k, default)]; only a [dict] has the method. *)
Definition get (d : json) (k : string) (default : json) : result json :=
  match d with
  | JDict kvs =>
      Ok (match lookup k kvs with Some v => v | None => default end)
  | _ => Raise AttributeError
  end.

Definition isinstance_dict (v : json) : bool :=
  match v with JDict _ => true | _ => false end.

(** [isinstance(v, int)]: [bool] is a subclass of [int]. *)
Definition isinstance_int (v : json) : bool :=
  match v with JInt _ | JBool _ => true | _ => false end.

Definition is_None (v : json) : bool :=
  match v with JNull => true | _ => false end.

(** [len(x)] *)
Definition len (x : json) : result Z :=
  match x with
  | JStr s => Ok (Z.of_nat (String.length s))
  | JList xs => Ok (Z.of_nat (List.length xs))
  | JDict kvs => Ok (Z.of_nat (List.length kvs))
  | _ => Raise TypeError
  end.

(** Position [i] of a sequence of length [n], with Python's negative
    indices counted from the end. *)
Definition seq_pos (n : nat) (i : Z) : option nat :=
  if (0 <=? i) && (i <? Z.of_nat n) then Some (Z.to_nat i)
  else if (i <? 0) && (- Z.of_nat n <=? i) then Some (Z.to_nat (Z.of_nat n + i))
  else None.

Definition as_index (k : json) : option Z :=
  match k with
  | JInt n => Some n
  | JBool b => Some (if b then 1 else 0)
  | _ => None
  end.

Definition char_at (s : string) (p : nat) : option json :=
  match String.get p s with
  | Some c => Some (JStr (String c EmptyString))
  | None => None
  end.

(** [x[k]] *)
Definition getitem (x k : json) : result json :=
  match x with
  | JList xs =>
      match as_index k with
      | Some i =>
          match seq_pos (List.length xs) i with
          | Some p =>
              match nth_error xs p with
              | Some v => Ok v
              | None => Raise IndexError
              end
          | None => Raise IndexError
          end
      | None => Raise TypeError
      end
  | JStr s =>
      match as_index k with
      | Some i =>
          match seq_pos (String.length s) i with
          | Some p =>
              match char_at s p with
              | Some v => Ok v
              | None => Raise IndexError
              end
          | None => Raise IndexError
          end
      | None => Raise TypeError
      end
  | JDict kvs =>
      match k with
      | JStr key =>
          match lookup key kvs with
          | Some v => Ok v
          | None => Raise KeyError
          end
      | JList _ | JDict _ => Raise TypeError   (* unhashable key *)
      | _ => Raise KeyError                    (* json keys are strings *)
      end
  | _ => Raise TypeError
  end.

(** [for x in v]: the items the loop visits. *)
Definition iter (v : json) : result (list json) :=
  match v with
  | JList xs => Ok xs
  | JDict kvs => Ok (map (fun kv => JStr (fst kv)) kvs)
  | JStr s => Ok (map (fun c => JStr (String c EmptyString)) (list_ascii_of_string s))
  | _ => Raise TypeError
  end.

(** The number a value denotes in arithmetic and in comparisons with
    numbers. *)
Definition as_num (v : json) : option Q :=
  match v with
  | JBool b => Some (if b then 1%Q else 0%Q)
  | JInt n => Some (inject_Z n)
  | JFloat q => Some q
  | _ => None
  end.

Definition Qlt_bool (a b : Q) : bool := negb (Qle_bool b a).

(** Comparisons.  They are defined on numbers; every other pair of
    operands is a [TypeError].  (Python also orders two strings and two
    lists; in the sources such a pair is always followed by a subtraction
    or by a comparison with an [int], which raises the same error.) *)
Definition lt (a b : json) : result bool :=
  match as_num a, as_num b with
  | Some x, Some y => Ok (Qlt_bool x y)
  | _, _ => Raise TypeError
  end.

Definition le (a b : json) : result bool :=
  match as_num a, as_num b with
  | Some x, Some y => Ok (Qle_bool x y)
  | _, _ => Raise TypeError
  end.

Definition ge (a b : json) : result bool := le b a.

(** [a - b] on numbers, as the number it denotes. *)
Definition sub (a b : json) : result Q :=
  match as_num a, as_num b with
  | Some x, Some y => Ok (x - y)%Q
  | _, _ => Raise TypeError
  end.

(** [a == b] *)
Fixpoint eqb (a b : json) {struct a} : bool :=
  match a, b with
  | JNull, JNull => true
  | JStr s, JStr t => String.eqb s t
  | JList xs, JList ys =>
      (fix all2 (xs ys : list json) {struct xs} : bool :=
         match xs, ys with
         | [], [] => true
         | x :: xs', y :: ys' => eqb x y && all2 xs' ys'
         | _, _ => false
         end) xs ys
  | JDict kvs, JDict kws =>
      (List.length kvs =? List.length kws)%nat
      && (fix all_in (kvs : list (string * json)) : bool :=
            match kvs with
            | [] => true
            | (k, v) :: rest =>
                match lookup k kws with
                | Some w => eqb v w
                | None => false
                end && all_in rest
            end) kvs
  | _, _ =>
      match as_num a, as_num b with
      | Some x, Some y => Qeq_bool x y
      | _, _ => false
      end
  end.

(** Rounding towards zero, as [int(x)] does on a [float]. *)
Definition Qtrunc (q : Q) : Z := Z.quot (Qnum q) (Z.pos (Qden q)).

(** *** Code with effects: a state is threaded, and an exception leaves
    the state as it was when it was raised. *)

Definition ST (S A : Type) : Type := S -> result A * S.

Definition ret {S A : Type} (a : A) : ST S A := fun s => (Ok a, s).

Definition raise {S A : Type} (e : exn) : ST S A := fun s => (Raise e, s).

Definition mbind {S A B : Type} (m : ST S A) (k : A -> ST S B) : ST S B :=
  fun s =>
    match m s with
    | (Ok a, s') => k a s'
    | (Raise e, s') => (Raise e, s')
    end.

Definition lift {S A : Type} (r : result A) : ST S A := fun s => (r, s).

Definition read {S A : Type} (f : S -> A) : ST S A := fun s => (Ok (f s), s).

Definition write {S : Type} (f : S -> S) : ST S unit := fun s => (Ok tt, f s).

(** [try: body except E: handler], for the classes [E] that [handles]
    accepts. *)
Definition try_except {S A : Type} (handles : exn -> bool) (body handler : ST S A)
  : ST S A :=
  fun s =>
    match body s with
    | (Raise e, s') => if handles e then handler s' else (Raise e, s')
    | done => done
    end.

Notation "x <- m ;; k" := (mbind m (fun x => k))
  (at level 61, m at next level, right associativity) : py_scope.
Notation "m ;; k" := (mbind m (fun _ => k))
  (at level 61, right associativity) : py_scope.

End Py.

(** ** [forge_gym/env.py]: class [ForgeEnv] *)

Module ForgeEnv.
Import Py.
Local Open Scope py_scope.

(** The command lines of the engine's protocol, as [step] and
    [_update_state] write them to the engine's stdin.  [play_action a]
    is the line [f"play_action {action}\n"]. *)
Inductive command : Type :=
| get_state
| possible_actions
| play_action (action : json)
| pass_priority
| concede.

(** What [_read_response] hands to [json.loads]: the text collected from
    the engine's stdout, kept as what the parser makes of it. *)
Inductive reply : Type :=
| Unparseable               (* empty or malformed text: JSONDecodeError *)
| Parsed (v : json).

Definition json_loads (r : reply) : result json :=
  match r with
  | Unparseable => Raise JSONDecodeError
  | Parsed v => Ok v
  end.

(** The engine subprocess: what has been written to its stdin (oldest
    first) and the text it makes available for the next read, as a
    function of what it has been sent. *)
Record Process : Type := {
  args : list string;
  stdin : list command;
  stdout : list command -> reply
}.

Record Env : Type := {
  jar_path : json;
  java_cmd : json;
  player1_is_human : json;
  player2_is_human : json;
  max_turns : json;
  render_mode : json;
  process : option Process;
  current_state : json;          (* None before the first reset *)
  current_actions : json;
  episode_turns : json;
  game_over : bool
}.

Record Observation : Type := {
  turn : Z;
  phase : Z;
  active_player : json;
  stack_size : Z;
  player_0_life : Z;
  player_1_life : Z;
  player_0_hand_size : Z;
  player_1_hand_size : Z
}.

Record Info : Type := {
  state : json;
  actions : json;
  action_taken : option json
}.

Record StepResult : Type := {
  observation : Observation;
  reward : Q;
  terminated : bool;
  truncated : bool;
  info : Info
}.

(** *** The methods run over the instance. *)

Definition M (A : Type) : Type := ST Env A.

Definition set_process (p : option Process) (self : Env) : Env :=
  {| jar_path := jar_path self; java_cmd := java_cmd self;
     player1_is_human := player1_is_human self;
     player2_is_human := player2_is_human self;
     max_turns := max_turns self; render_mode := render_mode self;
     process := p;
     current_state := current_state self;
     current_actions := current_actions self;
     episode_turns := episode_turns self; game_over := game_over self |}.

Definition set_current_state (v : json) (self : Env) : Env :=
  {| jar_path := jar_path self; java_cmd := java_cmd self;
     player1_is_human := player1_is_human self;
     player2_is_human := player2_is_human self;
     max_turns := max_turns self; render_mode := render_mode self;
     process := process self;
     current_state := v;
     current_actions := current_actions self;
     episode_turns := episode_turns self; game_over := game_over self |}.

Definition set_current_actions (v : json) (self : Env) : Env :=
  {| jar_path := jar_path self; java_cmd := java_cmd self;
     player1_is_human := player1_is_human self;
     player2_is_human := player2_is_human self;
     max_turns := max_turns self; render_mode := render_mode self;
     process := process self;
     current_state := current_state self;
     current_actions := v;
     episode_turns := episode_turns self; game_over := game_over self |}.

Definition set_episode_turns (v : json) (self : Env) : Env :=
  {| jar_path := jar_path self; java_cmd := java_cmd self;
     player1_is_human := player1_is_human self;
     player2_is_human := player2_is_human self;
     max_turns := max_turns self; render_mode := render_mode self;
     process := process self;
     current_state := current_state self;
     current_actions := current_actions self;
     episode_turns := v; game_over := game_over self |}.

Definition set_game_over (b : bool) (self : Env) : Env :=
  {| jar_path := jar_path self; java_cmd := java_cmd self;
     player1_is_human := player1_is_human self;
     player2_is_human := player2_is_human self;
     max_turns := max_turns self; render_mode := render_mode self;
     process := process self;
     current_state := current_state self;
     current_actions := current_actions self;
     episode_turns := episode_turns self; game_over := b |}.

(** *** [__init__] *)

(** The signature of [__init__]: parameter names with their defaults. *)
Definition parameters : list (string * json) :=
  [ ("jar_path", JNull); ("java_home", JNull);
    ("player1_is_human", JBool true); ("player2_is_human", JBool false);
    ("max_turns", JInt 100); ("render_mode", JNull) ].

(** A keyword the signature does not have makes the call itself a
    [TypeError]. *)
Definition unexpected_keyword (kwargs : list (string * json)) : bool :=
  existsb (fun kv => negb (existsb (String.eqb (fst kv)) (map fst parameters))) kwargs.

Definition argument (kwargs : list (string * json)) (name : string) : json :=
  match lookup name kwargs with
  | Some v => v
  | None => match lookup name parameters with Some d => d | None => JNull end
  end.

Fixpoint ends_with_slash (s : string) : bool :=
  match s with
  | EmptyString => false
  | String c EmptyString => Ascii.eqb c "/"%char
  | String _ rest => ends_with_slash rest
  end.

(** [os.path.join(java_home, "bin", "java")] on a POSIX path. *)
Definition _get_java_cmd (java_home : json) : result json :=
  if truthy java_home then
    match java_home with
    | JStr h => Ok (JStr (if ends_with_slash h then h ++ "bin/java" else h ++ "/bin/java"))
    | _ => Raise TypeError
    end
  else Ok (JStr "java").

(** The constructor call, by keywords, up to the last field it sets
    (env.py 45-82).  [found_jar] is what [_find_jar_path] returns on the
    machine at hand.  The gym spaces that the constructor builds after the
    fields play no part in the methods below; [Construction.instantiate]
    goes on to them. *)
Definition __init__ (found_jar : string) (kwargs : list (string * json)) : result Env :=
  if unexpected_keyword kwargs then Raise TypeError
  else
    let jar := argument kwargs "jar_path" in
    let* cmd := _get_java_cmd (argument kwargs "java_home") in
    Ok {| jar_path := if truthy jar then jar else JStr found_jar;
          java_cmd := cmd;
          player1_is_human := argument kwargs "player1_is_human";
          player2_is_human := argument kwargs "player2_is_human";
          max_turns := argument kwargs "max_turns";
          render_mode := argument kwargs "render_mode";
          process := None;
          current_state := JNull;
          current_actions := JList [];
          episode_turns := JInt 0;
          game_over := false |}.

(** *** Talking to the engine *)

Definition _send_command (c : command) : M unit :=
  write (fun self =>
    match process self with
    | Some p =>
        set_process (Some {| args := args p; stdin := stdin p ++ [c]; stdout := stdout p |}) self
    | None => self
    end).

Definition _read_response : M reply :=
  read (fun self =>
    match process self with
    | Some p => stdout p (stdin p)
    | None => Unparseable          (* the empty string *)
    end).

Definition is_JSONDecodeError (e : exn) : bool :=
  match e with JSONDecodeError => true | _ => false end.

Definition _update_state : M unit :=
  _send_command get_state ;;
  state_response <- _read_response ;;
  try_except is_JSONDecodeError
    (v <- lift (json_loads state_response) ;;
     write (set_current_state v) ;;
     t <- lift (get v "turn" (JInt 0)) ;;
     write (set_episode_turns t))
    (write (set_current_state (JDict []))) ;;
  _send_command possible_actions ;;
  actions_response <- _read_response ;;
  try_except is_JSONDecodeError
    (actions_data <- lift (json_loads actions_response) ;;
     a <- lift (get actions_data "actions" (JList [])) ;;
     write (set_current_actions a))
    (write (set_current_actions (JList []))).

Definition _close_process : M unit :=
  p <- read process ;;
  match p with
  | Some _ =>
      _send_command concede ;;
      write (set_process None)
  | None => ret tt
  end.

Definition close : M unit := _close_process.

(** *** Observations *)

Definition int32_range (n : Z) : bool :=
  (-2147483648 <=? n) && (n <=? 2147483647).

(** [np.array([v], dtype=np.int32)], as the entry of the array.  The
    engine puts numbers in the fields that are converted; for the values
    numpy converts in other ways (numeric strings, nested sequences) the
    model has no array and stops with an exception. *)
Definition np_int32 (v : json) : result Z :=
  match v with
  | JInt n => if int32_range n then Ok n else Raise OverflowError
  | JBool b => Ok (if b then 1 else 0)
  | JFloat q => if int32_range (Qtrunc q) then Ok (Qtrunc q) else Raise OverflowError
  | JStr _ => Raise ValueError
  | JNull | JList _ | JDict _ => Raise TypeError
  end.

Definition phase_map : list (string * Z) :=
  [ ("UNTAP", 0); ("UPKEEP", 1); ("DRAW", 2);
    ("MAIN1", 3); ("COMBAT_BEGIN", 4); ("COMBAT_DECLARE_ATTACKERS", 5);
    ("COMBAT_DECLARE_BLOCKERS", 6); ("COMBAT_FIRST_STRIKE_DAMAGE", 7);
    ("COMBAT_DAMAGE", 8); ("COMBAT_END", 9); ("MAIN2", 3); ("END_OF_TURN", 1);
    ("CLEANUP", 1) ].

Fixpoint assoc (k : string) (table : list (string * Z)) : option Z :=
  match table with
  | [] => None
  | (k', v) :: rest => if String.eqb k k' then Some v else assoc k rest
  end.

(** [phase_map.get(key, 0)]: a key that is a list or a dict cannot be
    hashed. *)
Definition phase_map_get (key : json) : result Z :=
  match key with
  | JStr s => Ok (match assoc s phase_map with Some c => c | None => 0 end)
  | JList _ | JDict _ => Raise TypeError
  | _ => Ok 0
  end.

Definition default_observation : Observation :=
  {| turn := 0; phase := 0; active_player := JInt 0; stack_size := 0;
     player_0_life := 20; player_1_life := 20;
     player_0_hand_size := 0; player_1_hand_size := 0 |}.

(** [players[i].get('life', 20) if len(players) > i else 20] *)
Definition life_at (players : json) (i : Z) : result json :=
  let* n := len players in
  if i <? n then
    let* p := getitem players (JInt i) in
    get p "life" (JInt 20)
  else Ok (JInt 20).

(** [len(players[i].get('hand', [])) if len(players) > i else 0] *)
Definition hand_size_at (players : json) (i : Z) : result json :=
  let* n := len players in
  if i <? n then
    let* p := getitem players (JInt i) in
    let* hand := get p "hand" (JList []) in
    let* k := len hand in
    Ok (JInt k)
  else Ok (JInt 0).

Definition _get_observation : M Observation :=
  st <- read current_state ;;
  if negb (truthy st) then ret default_observation
  else lift (
    let* players := get st "players" (JList [JDict []; JDict []]) in
    let* t := get st "turn" (JInt 0) in
    let* turn_ := np_int32 t in
    let* ph := get st "phase" (JStr "UNTAP") in
    let* phase_ := phase_map_get ph in
    let* active := get st "activePlayerId" (JInt 0) in
    let* ss := get st "stack_size" (JInt 0) in
    let* stack_ := np_int32 ss in
    let* l0 := life_at players 0 in
    let* life0 := np_int32 l0 in
    let* l1 := life_at players 1 in
    let* life1 := np_int32 l1 in
    let* h0 := hand_size_at players 0 in
    let* hand0 := np_int32 h0 in
    let* h1 := hand_size_at players 1 in
    let* hand1 := np_int32 h1 in
    Ok {| turn := turn_; phase := phase_; active_player := active;
          stack_size := stack_;
          player_0_life := life0; player_1_life := life1;
          player_0_hand_size := hand0; player_1_hand_size := hand1 |}).

(** *** Reward and termination *)

(** [previous_state] is [JNull] on the very first call.  The floats are
    exact rationals here; [Binary64.accumulated] has the statements that
    compute the reward on binary64 numbers. *)
Definition _calculate_reward (previous_state current_state : json) : result Q :=
  if negb (truthy previous_state) || negb (truthy current_state) then Ok 0.0%Q
  else
    let reward := 0.0%Q in
    let* prev_players := get previous_state "players" (JList [JDict []; JDict []]) in
    let* curr_players := get current_state "players" (JList [JDict []; JDict []]) in
    let* n_prev := len prev_players in
    let* both :=
      if 2 <=? n_prev then (let* n_curr := len curr_players in Ok (2 <=? n_curr))
      else Ok false in
    if both then
      let* prev_p0 := getitem prev_players (JInt 0) in
      let* prev_p0_life := get prev_p0 "life" (JInt 20) in
      let* curr_p0 := getitem curr_players (JInt 0) in
      let* curr_p0_life := get curr_p0 "life" (JInt 20) in
      let* prev_p1 := getitem prev_players (JInt 1) in
      let* prev_p1_life := get prev_p1 "life" (JInt 20) in
      let* curr_p1 := getitem curr_players (JInt 1) in
      let* curr_p1_life := get curr_p1 "life" (JInt 20) in
      (* Reward for opponent losing life *)
      let* opp_lost := lt curr_p1_life prev_p1_life in
      let* reward :=
        if opp_lost then
          (let* d := sub prev_p1_life curr_p1_life in Ok (reward + d * 0.1)%Q)
        else Ok reward in
      (* Penalty for losing life *)
      let* self_lost := lt curr_p0_life prev_p0_life in
      let* reward :=
        if self_lost then
          (let* d := sub prev_p0_life curr_p0_life in Ok (reward - d * 0.1)%Q)
        else Ok reward in
      (* Large reward/penalty for game ending *)
      let* win := le curr_p1_life (JInt 0) in
      if win then Ok (reward + 10.0)%Q
      else
        let* lose := le curr_p0_life (JInt 0) in
        if lose then Ok (reward - 10.0)%Q else Ok reward
    else Ok reward.

(** The loop of [_is_terminated] over the players, with its early
    [return True]. *)
Fixpoint any_player_dead (players : list json) : result bool :=
  match players with
  | [] => Ok false
  | player :: rest =>
      let* life := get player "life" (JInt 20) in
      let* dead := le life (JInt 0) in
      if dead then Ok true else any_player_dead rest
  end.

Definition _is_terminated : M bool :=
  st <- read current_state ;;
  if negb (truthy st) then ret true
  else lift (
    let* players := get st "players" (JList []) in
    let* ps := iter players in
    any_player_dead ps).

(** *** [reset] and [step] *)

Definition as_str (v : json) : result string :=
  match v with
  | JStr s => Ok s
  | _ => Raise TypeError
  end.

Definition player_flags (p1 p2 : json) : list string :=
  if negb (truthy p1) && negb (truthy p2) then ["--both-ai"]
  else if truthy p1 && truthy p2 then ["--both-human"]
  else (if negb (truthy p1) then ["--p1-ai"] else [])
       ++ (if truthy p2 then ["--p2-human"] else []).

(** [engine] is the behaviour of the process that [subprocess.Popen]
    starts. *)
Definition reset (engine : list command -> reply) : M (Observation * Info) :=
  p <- read process ;;
  match p with Some _ => _close_process | None => ret tt end ;;
  cmd <- read java_cmd ;;
  jar <- read jar_path ;;
  cmd_s <- lift (as_str cmd) ;;
  jar_s <- lift (as_str jar) ;;
  p1 <- read player1_is_human ;;
  p2 <- read player2_is_human ;;
  write (set_process (Some
    {| args := [cmd_s; "-Xmx4096m"; "-cp"; jar_s; "forge.view.ForgeHeadless"]
               ++ player_flags p1 p2;
       stdin := [];
       stdout := engine |})) ;;
  write (set_episode_turns (JInt 0)) ;;
  write (set_game_over false) ;;
  _update_state ;;
  obs <- _get_observation ;;
  st <- read current_state ;;
  acts <- read current_actions ;;
  ret (obs, {| state := st; actions := acts; action_taken := None |}).

(** [self.current_state.copy()] *)
Definition copy (v : json) : result json :=
  match v with
  | JDict _ | JList _ => Ok v
  | _ => Raise AttributeError
  end.

Definition step (action : json) : M StepResult :=
  p <- read process ;;
  match p with
  | None => raise RuntimeError
  | Some _ =>
      (* Execute the action *)
      acts <- read current_actions ;;
      n <- lift (len acts) ;;
      in_range <- lift (lt action (JInt n)) ;;
      _send_command (if in_range then play_action action else pass_priority) ;;
      (* Update state *)
      st <- read current_state ;;
      previous_state <- lift (if truthy st then copy st else Ok JNull) ;;
      _update_state ;;
      (* Calculate reward *)
      st' <- read current_state ;;
      reward_ <- lift (_calculate_reward previous_state st') ;;
      (* Check if game is over *)
      terminated_ <- _is_terminated ;;
      turns <- read episode_turns ;;
      limit <- read max_turns ;;
      truncated_ <- lift (ge turns limit) ;;
      obs <- _get_observation ;;
      st'' <- read current_state ;;
      acts' <- read current_actions ;;
      ret {| observation := obs; reward := reward_;
             terminated := terminated_; truncated := truncated_;
             info := {| state := st''; actions := acts';
                        action_taken := Some action |} |}
  end.

End ForgeEnv.

(** ** [agent_loop.py] *)

Module AgentLoop.
Import Py.
Local Open Scope py_scope.

(** The [data] argument of [forge_request]: a Python value, or the
    formatted line of the step request. *)
Inductive data : Type :=
| value (v : json)
| play_action (action_index : json).  (* the str f"play_action {action_index}" *)

Inductive event : Type :=
| forge_call (endpoint : string) (body : data)
| policy_call (payload : json)
| prompt.                             (* input(...) of the operator *)

(** How [urlopen] followed by [json.load] ends. *)
Inductive outcome : Type :=
| Responded (v : json)
| Failed (e : exn).

(** What the operator types at the prompt of [local_debug_policy]. *)
Inductive operator_line : Type :=
| typed_q
| typed_j
| typed_number (n : Z)
| typed_other (s : string).

Inductive log_line : Type :=
| turn_header (turn : json)                       (* "=== Turn {turn} ===" *)
| no_actions                                      (* "No actions available!" *)
| pass_line (phase : json)                        (* "[{phase}] Pass priority" *)
| action_line (phase action_type card_name : json)
| step_failed.                                    (* "ERROR: Failed to get state after action!" *)

(** The lines the loop prints (the [DEBUG] lines of [policy_request] and
    the screens of [local_debug_policy] are left out). *)
Inductive message : Type :=
| msg_starting
| msg_forge_failed
| msg_failed_to_start
| msg_turn (turn : json)
| msg_no_actions
| msg_invalid_index (action_index : json)
| msg_entry (entry : log_line)
| msg_failed_after_action
| msg_safety_limit
| msg_game_over (winner p1_name p1_life p2_name p2_life : json)
| msg_log_saved (entries : list log_line)
| msg_fallback_none
| msg_fallback_failed
| msg_fallback_timeout
| msg_fallback_parse
| msg_invalid_choice
| msg_not_a_number
| msg_raw_json (game_state : json)
| msg_quitting
| msg_eof_quitting.

(** What the program runs against: the two builtins whose result is a
    matter of Python's text formats, the two HTTP peers as functions of
    the calls made so far (the last one being the call to answer), and the
    global flag. *)
Record World : Type := {
  str : json -> string;
  int_of_str : string -> option Z;     (* [None]: ValueError *)
  forge : list event -> outcome;
  policy : list event -> outcome;
  LOCAL_DEBUG_MODE : bool
}.

Record Run : Type := {
  trace : list event;
  printed : list message;
  keyboard : list operator_line        (* what is left on stdin *)
}.

Definition N (A : Type) : Type := ST Run A.

Definition emit (ev : event) : N unit :=
  write (fun r => {| trace := trace r ++ [ev]; printed := printed r;
                     keyboard := keyboard r |}).

Definition print (m : message) : N unit :=
  write (fun r => {| trace := trace r; printed := printed r ++ [m];
                     keyboard := keyboard r |}).

Definition is_URLError (e : exn) : bool :=
  match e with URLError => true | _ => false end.

Definition is_SocketTimeout (e : exn) : bool :=
  match e with SocketTimeout => true | _ => false end.

Definition answer (o : outcome) : result json :=
  match o with
  | Responded v => Ok v
  | Failed e => Raise e
  end.

Definition max_steps : Z := 500.

Section Program.

Variable w : World.

(** [None] sends no body, a dict is sent as JSON and a str as it is;
    nothing else has [encode]. *)
Definition sendable (d : data) : bool :=
  match d with
  | value (JNull | JDict _ | JStr _) => true
  | value _ => false
  | play_action _ => true
  end.

Definition forge_request (endpoint : string) (d : data) : N json :=
  if sendable d then
    emit (forge_call endpoint d) ;;
    try_except is_URLError
      (t <- read trace ;; lift (answer (forge w t)))
      (print msg_forge_failed ;; ret JNull)
  else raise AttributeError.

(** One entry of the hand, as a display name. *)
Definition hand_entry (card : json) : result json :=
  match card with
  | JStr _ => Ok card
  | JDict _ => get card "name" (JStr (str w card))
  | _ => Ok (JStr (str w card))
  end.

Fixpoint map_result {A B : Type} (f : A -> result B) (xs : list A) : result (list B) :=
  match xs with
  | [] => Ok []
  | x :: rest =>
      let* y := f x in
      let* ys := map_result f rest in
      Ok (y :: ys)
  end.

Fixpoint enumerate {A : Type} (i : Z) (xs : list A) : list (Z * A) :=
  match xs with
  | [] => []
  | x :: rest => (i, x) :: enumerate (i + 1) rest
  end.

Definition action_descriptor (ia : Z * json) : result json :=
  let (i, action) := ia in
  let* type_ := get action "type" (JStr "unknown") in
  let* card := get action "card_name" (JStr "") in
  let* cost := get action "mana_cost" (JStr "") in
  let* targets := get action "requires_targets" (JBool false) in
  Ok (JDict [ ("index", JInt i); ("type", type_); ("card", card);
              ("mana_cost", cost); ("requires_targets", targets) ]).

Definition structured_payload (game_state : json) : result json :=
  let* raw_hand := get game_state "hand" (JList []) in
  let* cards := iter raw_hand in
  let* hand := map_result hand_entry cards in
  let* game_id := get game_state "game_id" (JStr "") in
  let* turn := get game_state "turn" (JInt 0) in
  let* phase := get game_state "phase" (JStr "UNKNOWN") in
  let* game_over := get game_state "game_over" (JBool false) in
  let* library_count := get game_state "library_count" (JInt 0) in
  let* battlefield := get game_state "battlefield" (JDict []) in
  let* player1 := get game_state "player1" (JDict []) in
  let* player2 := get game_state "player2" (JDict []) in
  let* combat := get game_state "combat" (JDict []) in
  let* possible := get game_state "possible_actions" (JDict []) in
  let* actions := get possible "actions" (JList []) in
  let* items := iter actions in
  let* descriptors := map_result action_descriptor (enumerate 0 items) in
  Ok (JDict
        [ ("gameState", JDict
             [ ("game_id", game_id); ("turn", turn); ("phase", phase);
               ("game_over", game_over); ("hand", JList hand);
               ("library_count", library_count); ("battlefield", battlefield);
               ("player1", player1); ("player2", player2); ("combat", combat) ]);
          ("actionState", JDict [ ("possible_actions", JList descriptors) ]) ]).

(** [int(x)], on the values that [json] holds: a float there is a
    finite number.  (Of the floats that Python's parser makes of Infinity
    and NaN, which are not among them, [int] is an OverflowError and a
    ValueError.) *)
Definition int (x : json) : result json :=
  match x with
  | JInt n => Ok (JInt n)
  | JBool b => Ok (JInt (if b then 1 else 0))
  | JFloat q => Ok (JInt (Qtrunc q))
  | JStr s => match int_of_str w s with
              | Some n => Ok (JInt n)
              | None => Raise ValueError
              end
  | JNull | JList _ | JDict _ => Raise TypeError
  end.

Definition policy_request (game_state : json) : N json :=
  payload <- lift (structured_payload game_state) ;;
  try_except is_URLError
    (try_except is_SocketTimeout
       (try_except (fun e => is_ValueError e || is_TypeError e)
          (emit (policy_call payload) ;;
           t <- read trace ;;
           result_ <- lift (answer (policy w t)) ;;
           (* Handle various response formats *)
           if isinstance_dict result_ then
             fallback <- lift (get result_ "index" (JInt 0)) ;;
             idx <- lift (get result_ "action_index" fallback) ;;
             if is_None idx then print msg_fallback_none ;; ret (JInt 0)
             else ret idx
           else if isinstance_int result_ then ret result_
           else lift (int result_))
          (print msg_fallback_parse ;; ret (JInt 0)))
       (print msg_fallback_timeout ;; ret (JInt 0)))
    (print msg_fallback_failed ;; ret (JInt 0)).

(** The payload that [local_debug_policy] shows to the operator. *)
Definition debug_descriptor (ia : Z * json) : result json :=
  let (i, action) := ia in
  let* type_ := get action "type" (JStr "unknown") in
  let* card := get action "card_name" (JStr "") in
  let* description := get action "description" (JStr "") in
  let* cost := get action "mana_cost" (JStr "") in
  let* instant := get action "is_instant" (JBool false) in
  let* targets := get action "requires_targets" (JBool false) in
  Ok (JDict [ ("index", JInt i); ("type", type_); ("card", card);
              ("description", description); ("mana_cost", cost);
              ("is_instant", instant); ("requires_targets", targets) ]).

Definition debug_actions (game_state : json) : result (list json) :=
  let* raw_hand := get game_state "hand" (JList []) in
  let* cards := iter raw_hand in
  let* _ := map_result hand_entry cards in
  let* possible := get game_state "possible_actions" (JDict []) in
  let* actions := get possible "actions" (JList []) in
  let* items := iter actions in
  map_result debug_descriptor (enumerate 0 items).

Definition take_line (rest : list operator_line) : N unit :=
  emit prompt ;;
  write (fun r => {| trace := trace r; printed := printed r; keyboard := rest |}).

(** The prompt loop, along what is left on stdin; at the end of the
    input, [input] raises EOFError and the program exits. *)
Fixpoint prompt_loop (game_state : json) (count : Z) (lines : list operator_line)
  : N json :=
  match lines with
  | [] => emit prompt ;; print msg_eof_quitting ;; raise SystemExit
  | line :: rest =>
      take_line rest ;;
      match line with
      | typed_q => print msg_quitting ;; raise SystemExit
      | typed_j => print (msg_raw_json game_state) ;; prompt_loop game_state count rest
      | typed_number idx =>
          if (0 <=? idx) && (idx <? count) then ret (JInt idx)
          else print msg_invalid_choice ;; prompt_loop game_state count rest
      | typed_other _ => print msg_not_a_number ;; prompt_loop game_state count rest
      end
  end.

Definition local_debug_policy (game_state : json) : N json :=
  actions <- lift (debug_actions game_state) ;;
  lines <- read keyboard ;;
  prompt_loop game_state (Z.of_nat (List.length actions)) lines.

(** *** [run_game] *)

Record Locals : Type := {
  state : json;
  turn : json;
  step : Z;
  game_log : list log_line
}.

Inductive control : Type :=
| next (l : Locals)       (* back to the test of the while *)
| break (l : Locals).

(** The body of the while loop. *)
Definition iteration (l : Locals) : N control :=
  let step_ := step l + 1 in
  current_turn <- lift (get (state l) "turn" (JInt 0)) ;;
  phase <- lift (get (state l) "phase" (JStr "?")) ;;
  new_turn <- ret (negb (eqb current_turn (turn l))) ;;
  (if new_turn then print (msg_turn current_turn) else ret tt) ;;
  let turn_ := if new_turn then current_turn else turn l in
  let log_ := if new_turn then (game_log l ++ [turn_header current_turn])%list
              else game_log l in
  possible <- lift (get (state l) "possible_actions" (JDict [])) ;;
  actions <- lift (get possible "actions" (JList [])) ;;
  action_count <- lift (len actions) ;;
  if action_count =? 0 then
    print msg_no_actions ;;
    ret (break {| state := state l; turn := turn_; step := step_;
                  game_log := (log_ ++ [no_actions])%list |})
  else
    (* Get action from policy *)
    action_index <- (if LOCAL_DEBUG_MODE w then local_debug_policy (state l)
                     else policy_request (state l)) ;;
    (* Validate action index *)
    negative <- lift (lt action_index (JInt 0)) ;;
    invalid <- (if negative then ret true
                else lift (ge action_index (JInt action_count))) ;;
    (if invalid then print (msg_invalid_index action_index) else ret tt) ;;
    let action_index := if invalid then JInt 0 else action_index in
    (* Log the action *)
    chosen_action <- lift (getitem actions action_index) ;;
    action_type <- lift (get chosen_action "type" (JStr "unknown")) ;;
    card_name <- lift (get chosen_action "card_name" (JStr "")) ;;
    let log_entry :=
      if eqb action_type (JStr "pass_priority") then pass_line phase
      else action_line phase action_type card_name in
    print (msg_entry log_entry) ;;
    (* Execute the action *)
    state_ <- forge_request "/api/step" (play_action action_index) ;;
    if negb (truthy state_) then
      print msg_failed_after_action ;;
      ret (break {| state := state_; turn := turn_; step := step_;
                    game_log := (log_ ++ [log_entry; step_failed])%list |})
    else
      ret (next {| state := state_; turn := turn_; step := step_;
                   game_log := (log_ ++ [log_entry])%list |}).

(** [not state.get("game_over") and step < max_steps] *)
Definition loop_test (l : Locals) : result bool :=
  let* over := get (state l) "game_over" JNull in
  Ok (negb (truthy over) && (step l <? max_steps)).

(** The while loop, run for at most [fuel] passes; [None] when the
    passes are used up before the loop is left. *)
Fixpoint while (fuel : nat) (l : Locals) : N (option Locals) :=
  match fuel with
  | O => ret None
  | S fuel' =>
      go <- lift (loop_test l) ;;
      if go then
        c <- iteration l ;;
        match c with
        | next l' => while fuel' l'
        | break l' => ret (Some l')
        end
      else ret (Some l)
  end.

(** What follows the loop. *)
Definition epilogue (l : Locals) : N json :=
  (if max_steps <=? step l then print msg_safety_limit else ret tt) ;;
  over <- (if truthy (state l)
           then (g <- lift (get (state l) "game_over" JNull) ;; ret (truthy g))
           else ret false) ;;
  (if over then
     winner <- lift (get (state l) "winner" (JStr "Unknown")) ;;
     p1 <- lift (get (state l) "player1" (JDict [])) ;;
     p2 <- lift (get (state l) "player2" (JDict [])) ;;
     p1_name <- lift (get p1 "name" (JStr "Player 1")) ;;
     p2_name <- lift (get p2 "name" (JStr "Player 2")) ;;
     p1_life <- lift (get p1 "life" (JStr "?")) ;;
     p2_life <- lift (get p2 "life" (JStr "?")) ;;
     print (msg_game_over winner p1_name p1_life p2_name p2_life)
   else ret tt) ;;
  (match game_log l with
   | [] => ret tt
   | entries => print (msg_log_saved entries)
   end) ;;
  ret (state l).

(** [run_game(scenario)], its loop given [fuel] passes.  The value is
    [None] only when the passes do not suffice; Python's [None] is
    [Some JNull]. *)
Definition run_game (fuel : nat) (scenario : json) : N (option json) :=
  print msg_starting ;;
  let reset_options := if truthy scenario then scenario else JDict [] in
  state_ <- forge_request "/api/reset" (value reset_options) ;;
  if negb (truthy state_) then
    print msg_failed_to_start ;; ret (Some JNull)
  else
    left <- while fuel {| state := state_; turn := JInt 0; step := 0; game_log := [] |} ;;
    match left with
    | None => ret None
    | Some l => final <- epilogue l ;; ret (Some final)
    end.

End Program.

End AgentLoop.

(** ** Engines, states and the quantities the properties speak of *)

Module Scenarios.
Import Py.

(** A state with two players at the given life totals. *)
Definition two_players (turn_ life0 life1 : Z) : json :=
  JDict [ ("turn", JInt turn_); ("phase", JStr "MAIN1");
          ("players", JList [ JDict [("id", JInt 0); ("life", JInt life0)];
                              JDict [("id", JInt 1); ("life", JInt life1)] ]) ].

Definition some_actions : json :=
  JList [ JDict [("type", JStr "play_land"); ("card_name", JStr "Forest")];
          JDict [("type", JStr "pass_priority")] ].

Definition is_move (c : ForgeEnv.command) : bool :=
  match c with
  | ForgeEnv.play_action _ | ForgeEnv.pass_priority => true
  | _ => false
  end.

(** An engine that walks through [states], one per action it is sent
    (staying on the last one), and always offers [actions]. *)
Definition scripted (states : list json) (actions : json)
    (sent : list ForgeEnv.command) : ForgeEnv.reply :=
  match last sent ForgeEnv.concede with
  | ForgeEnv.get_state =>
      ForgeEnv.Parsed
        (nth (List.length (filter is_move sent)) states (last states (JDict [])))
  | ForgeEnv.possible_actions =>
      ForgeEnv.Parsed (JDict [("actions", actions)])
  | _ => ForgeEnv.Unparseable
  end.

(** An engine that returns the same state whatever it is sent. *)
Definition stuck (st actions : json) (sent : list ForgeEnv.command) : ForgeEnv.reply :=
  match last sent ForgeEnv.concede with
  | ForgeEnv.get_state => ForgeEnv.Parsed st
  | ForgeEnv.possible_actions => ForgeEnv.Parsed (JDict [("actions", actions)])
  | _ => ForgeEnv.Unparseable
  end.

(** A state in which the engine reports the end of the game while both
    players are at 20. *)
Definition game_over_state : json :=
  JDict [ ("turn", JInt 7); ("phase", JStr "CLEANUP"); ("game_over", JBool true);
          ("players", JList [ JDict [("id", JInt 0); ("life", JInt 20)];
                              JDict [("id", JInt 1); ("life", JInt 20)] ]) ].

(** An engine whose output never parses. *)
Definition garbled (sent : list ForgeEnv.command) : ForgeEnv.reply :=
  ForgeEnv.Unparseable.

(** The constructor call of [test_forge_gym.py]. *)
Definition test_kwargs : list (string * json) :=
  [ ("player1_is_human", JBool true); ("player2_is_human", JBool false);
    ("max_turns", JInt 5); ("render_mode", JNull) ].

(** The constructor call of [examples/sparse_rewards_example.py]. *)
Definition sparse_example_kwargs : list (string * json) :=
  [ ("player1_is_human", JBool true); ("player2_is_human", JBool false);
    ("max_turns", JInt 30); ("render_mode", JStr "human");
    ("reward_mode", JStr "sparse") ].

(** The same call without the keyword for the reward mode. *)
Definition example_kwargs : list (string * json) :=
  [ ("player1_is_human", JBool true); ("player2_is_human", JBool false);
    ("max_turns", JInt 30); ("render_mode", JStr "human") ].

Definition the_jar : string := "forge-gui-desktop-2.0.07-SNAPSHOT-jar-with-dependencies.jar".

(** An instance in the middle of an episode: launched, holding [st] and
    [actions], against [engine]. *)
Definition running (engine : list ForgeEnv.command -> ForgeEnv.reply)
    (st actions : json) (limit : Z) : ForgeEnv.Env :=
  {| ForgeEnv.jar_path := JStr the_jar; ForgeEnv.java_cmd := JStr "java";
     ForgeEnv.player1_is_human := JBool true;
     ForgeEnv.player2_is_human := JBool false;
     ForgeEnv.max_turns := JInt limit; ForgeEnv.render_mode := JNull;
     ForgeEnv.process :=
       Some {| ForgeEnv.args := []; ForgeEnv.stdin := []; ForgeEnv.stdout := engine |};
     ForgeEnv.current_state := st;
     ForgeEnv.current_actions := actions;
     ForgeEnv.episode_turns := JInt 1;
     ForgeEnv.game_over := false |}.

(** The instance that faces the stuck engine, having written
    [written] to it. *)
Definition stuck_state : json := two_players 1 20 20.

Definition stuck_env (written : list ForgeEnv.command) : ForgeEnv.Env :=
  {| ForgeEnv.jar_path := JStr the_jar; ForgeEnv.java_cmd := JStr "java";
     ForgeEnv.player1_is_human := JBool true;
     ForgeEnv.player2_is_human := JBool false;
     ForgeEnv.max_turns := JInt 100; ForgeEnv.render_mode := JNull;
     ForgeEnv.process :=
       Some {| ForgeEnv.args := []; ForgeEnv.stdin := written;
               ForgeEnv.stdout := stuck stuck_state some_actions |};
     ForgeEnv.current_state := stuck_state;
     ForgeEnv.current_actions := some_actions;
     ForgeEnv.episode_turns := JInt 1;
     ForgeEnv.game_over := false |}.

(** [n] calls of [step] with the same action; the result of the last
    one. *)
Fixpoint steps (n : nat) (action : json) (self : ForgeEnv.Env)
  : result (option ForgeEnv.StepResult) * ForgeEnv.Env :=
  match n with
  | O => (Ok None, self)
  | S O =>
      match ForgeEnv.step action self with
      | (Ok r, self') => (Ok (Some r), self')
      | (Raise e, self') => (Raise e, self')
      end
  | S n' =>
      match ForgeEnv.step action self with
      | (Ok _, self') => steps n' action self'
      | (Raise e, self') => (Raise e, self')
      end
  end.

(** *** The quantities of the reward *)

(** The life of a player entry, as the reward and the termination check
    read it. *)
Definition life_of (player : json) : option Q :=
  match get player "life" (JInt 20) with
  | Ok v => as_num v
  | Raise _ => None
  end.

(** Life lost over a step: what the total went down by, if it did. *)
Definition life_lost (prev curr : Q) : Q :=
  if Qlt_bool curr prev then (prev - curr)%Q else 0%Q.

Definition at_or_below_zero (life : Q) : bool := Qle_bool life 0.

(** The four components of the dense reward, each from its own
    quantity: [a] is a life total before the step, [b] after it. *)
Definition opponent_component (a1 b1 : Q) : Q := (0.1 * life_lost a1 b1)%Q.
Definition self_component (a0 b0 : Q) : Q := (- (0.1 * life_lost a0 b0))%Q.
Definition win_bonus (b1 : Q) : Q := if at_or_below_zero b1 then 10.0%Q else 0%Q.
Definition loss_penalty (b0 : Q) : Q := if at_or_below_zero b0 then (- 10.0)%Q else 0%Q.

(** The dense reward as the sum of the four components taken one by
    one. *)
Definition dense_sum (a0 b0 a1 b1 : Q) : Q :=
  (opponent_component a1 b1 + self_component a0 b0 + win_bonus b1 + loss_penalty b0)%Q.

(** The penalty as the source applies it: only when the bonus is not. *)
Definition loss_penalty_unless_win (b0 b1 : Q) : Q :=
  if at_or_below_zero b1 then 0%Q else loss_penalty b0.

Definition Qsum (xs : list Q) : Q := fold_right Qplus 0%Q xs.

(** A state that holds at least two players, the first two with the
    life totals [l0] and [l1] (a missing total counts as 20). *)
Definition lives (st : json) (l0 l1 : Q) : Prop :=
  truthy st = true /\
  exists p0 p1 rest,
    get st "players" (JList [JDict []; JDict []]) = Ok (JList (p0 :: p1 :: rest))
    /\ life_of p0 = Some l0 /\ life_of p1 = Some l1.

(** The reward as [_calculate_reward] accumulates it from four life
    totals. *)
Definition accumulated (a0 b0 a1 b1 : Q) : Q :=
  let reward := 0.0%Q in
  let reward := if Qlt_bool b1 a1 then (reward + (a1 - b1) * 0.1)%Q else reward in
  let reward := if Qlt_bool b0 a0 then (reward - (a0 - b0) * 0.1)%Q else reward in
  if Qle_bool b1 0 then (reward + 10.0)%Q
  else if Qle_bool b0 0 then (reward - 10.0)%Q else reward.

(** *** The quantities of the termination check *)

(** A player entry whose life is at or below zero. *)
Definition dead (player : json) : Prop :=
  exists life, life_of player = Some life /\ (life <= 0)%Q.

(** The players the check goes through. *)
Definition tracked_players (st : json) : result (list json) :=
  bind (get st "players" (JList [])) iter.

(** The engine's own flag. *)
Definition reports_game_over (st : json) : bool :=
  match get st "game_over" (JBool false) with
  | Ok v => truthy v
  | Raise _ => false
  end.

(** The reply of the engine to the [get_state] that [_update_state]
    is about to send, and to the [possible_actions] after it. *)
Definition state_reply (self : ForgeEnv.Env) : ForgeEnv.reply :=
  match ForgeEnv.process self with
  | Some p => ForgeEnv.stdout p (ForgeEnv.stdin p ++ [ForgeEnv.get_state])%list
  | None => ForgeEnv.Unparseable
  end.

Definition actions_reply (self : ForgeEnv.Env) : ForgeEnv.reply :=
  match ForgeEnv.process self with
  | Some p =>
      ForgeEnv.stdout p
        (ForgeEnv.stdin p ++ [ForgeEnv.get_state; ForgeEnv.possible_actions])%list
  | None => ForgeEnv.Unparseable
  end.

(** The two queries of [_update_state]. *)
Definition is_query (c : ForgeEnv.command) : bool :=
  match c with
  | ForgeEnv.get_state | ForgeEnv.possible_actions => true
  | _ => false
  end.

(** What the instance has written to the engine. *)
Definition sent (self : ForgeEnv.Env) : list ForgeEnv.command :=
  match ForgeEnv.process self with
  | Some p => ForgeEnv.stdin p
  | None => []
  end.

End Scenarios.

(** ** Peers of the agent loop and the quantities its properties speak of *)

Module Worlds.
Import Py AgentLoop.

(** The run after [ev] has been recorded. *)
Definition after (ev : event) (r : Run) : Run :=
  {| trace := trace r ++ [ev]; printed := printed r; keyboard := keyboard r |}.

(** The exception classes for which [policy_request] has a handler. *)
Definition handled (e : exn) : bool :=
  is_URLError e || is_SocketTimeout e || is_ValueError e || is_TypeError e.

(** The index a dict response carries: [action_index], else [index],
    else 0. *)
Definition carried_index (kvs : list (string * json)) : json :=
  match lookup "action_index" kvs with
  | Some v => v
  | None => match lookup "index" kvs with Some v => v | None => JInt 0 end
  end.

(** The run after [m] has been printed. *)
Definition say (m : message) (r : Run) : Run :=
  {| trace := trace r; printed := printed r ++ [m]; keyboard := keyboard r |}.

(** The action list a state offers:
    [state.get("possible_actions", {}).get("actions", [])]. *)
Definition offered (st : json) : result json :=
  bind (get st "possible_actions" (JDict [])) (fun possible =>
  get possible "actions" (JList [])).

(** The decision source [run_game] asks, by the global flag. *)
Definition decide (w : World) (st : json) : N json :=
  if LOCAL_DEBUG_MODE w then local_debug_policy w st else policy_request w st.

(** The turn of a dict state, as the loop reads it, and the run after
    the banner of a new turn. *)
Definition turn_of (st : json) : json :=
  match get st "turn" (JInt 0) with Ok t => t | Raise _ => JInt 0 end.

Definition phase_of (st : json) : json :=
  match get st "phase" (JStr "?") with Ok t => t | Raise _ => JStr "?" end.

Definition new_turn (l : Locals) : bool :=
  negb (eqb (turn_of (state l)) (turn l)).

Definition with_banner (l : Locals) (r : Run) : Run :=
  if new_turn l then say (msg_turn (turn_of (state l))) r else r.

Definition turn_after (l : Locals) : json :=
  if new_turn l then turn_of (state l) else turn l.

Definition log_after (l : Locals) : list log_line :=
  if new_turn l then game_log l ++ [turn_header (turn_of (state l))]
  else game_log l.

(** The log entry of an action taken in a phase. *)
Definition entry_for (phase action : json) : log_line :=
  match get action "type" (JStr "unknown"), get action "card_name" (JStr "") with
  | Ok action_type, Ok card_name =>
      if eqb action_type (JStr "pass_priority") then pass_line phase
      else action_line phase action_type card_name
  | _, _ => step_failed
  end.

(** How many step requests a trace holds. *)
Definition is_step_call (ev : event) : bool :=
  match ev with
  | forge_call endpoint (play_action _) => String.eqb endpoint "/api/step"
  | _ => false
  end.

Definition step_calls (t : list event) : nat := List.length (filter is_step_call t).

(** A game state as ForgeHeadlessServer returns it. *)
Definition server_state (turn_ : Z) (over : bool) (actions : json) : json :=
  JDict [ ("game_id", JStr "g1"); ("turn", JInt turn_); ("phase", JStr "MAIN1");
          ("game_over", JBool over);
          ("hand", JList [ JStr "Forest"; JDict [("name", JStr "Llanowar Elves")] ]);
          ("player1", JDict [("name", JStr "Agent"); ("life", JInt 20)]);
          ("player2", JDict [("name", JStr "AI"); ("life", JInt 20)]);
          ("possible_actions", JDict [("actions", actions)]) ].

Definition two_actions : json :=
  JList [ JDict [("type", JStr "play_land"); ("card_name", JStr "Forest")];
          JDict [("type", JStr "pass_priority")] ].

(** A world whose server always answers [reply_] and whose policy always
    answers [choice]. *)
Definition constant_world (reply_ choice : outcome) : World :=
  {| str := fun _ => "?"; int_of_str := fun _ => None;
     forge := fun _ => reply_; policy := fun _ => choice;
     LOCAL_DEBUG_MODE := false |}.

(** The locals a pass ends with. *)
Definition locals_of (c : control) : Locals :=
  match c with next l => l | break l => l end.

(** The locals of [run_game] when its loop is entered with [st]. *)
Definition entering (st : json) : Locals :=
  {| state := st; turn := JInt 0; step := 0; game_log := [] |}.

Definition fresh_run : Run := {| trace := []; printed := []; keyboard := [] |}.

End Worlds.

(** ** The line reading of [_read_response] *)

Module Framing.
Import Py.

(** [c.isspace()] for a character of a [str] whose code points are below
    256. *)
Definition isspace (c : ascii) : bool :=
  let n := nat_of_ascii c in
  ((9 <=? n) && (n <=? 13) || (28 <=? n) && (n <=? 32)
   || (n =? 133) || (n =? 160))%nat.

Fixpoint lstrip (cs : list ascii) : list ascii :=
  match cs with
  | [] => []
  | c :: rest => if isspace c then lstrip rest else cs
  end.

(** [line.strip()] *)
Definition strip (line : string) : string :=
  string_of_list_ascii
    (rev (lstrip (rev (lstrip (list_ascii_of_string line))))).

(** [line.strip() in ["}", "]"]] *)
Definition is_end_marker (line : string) : bool :=
  String.eqb (strip line) "}" || String.eqb (strip line) "]".

(** One pass of the loop of [_read_response] before the timeout: nothing
    to read yet, a line read ([""] at the end of the stream), or an
    exception out of the read. *)
Inductive poll : Type :=
| not_ready
| readline (line : string)
| failed (e : exn).

(** The loop, along the passes that fit before the timeout; with the
    lines collected it returns the passes it has not made.  Only the
    branch for Windows has a handler around the read. *)
Fixpoint read_loop (win32 : bool) (passes : list poll) (response_lines : list string)
  : result (list string * list poll) :=
  match passes with
  | [] => Ok (response_lines, [])
  | not_ready :: rest => read_loop win32 rest response_lines
  | readline line :: rest =>
      if String.eqb line "" then read_loop win32 rest response_lines
      else if is_end_marker line then Ok ((response_lines ++ [line])%list, rest)
      else read_loop win32 rest (response_lines ++ [line])%list
  | failed e :: rest =>
      if win32 then Ok (response_lines, rest) else Raise e
  end.

(** [_read_response], given whether there is a process with a stdout:
    the text returned and the passes not made. *)
Definition _read_response (win32 has_stdout : bool) (passes : list poll)
  : result (string * list poll) :=
  if has_stdout then
    match read_loop win32 passes [] with
    | Ok (response_lines, rest) => Ok (String.concat "" response_lines, rest)
    | Raise e => Raise e
    end
  else Ok ("", passes).

(** The lines that a run of passes delivers. *)
Fixpoint delivered (passes : list poll) : list string :=
  match passes with
  | [] => []
  | readline line :: rest =>
      if String.eqb line "" then delivered rest else line :: delivered rest
  | _ :: rest => delivered rest
  end.

(** Passes that neither fail nor read an end marker. *)
Definition quiet (p : poll) : bool :=
  match p with
  | not_ready => true
  | readline line => negb (is_end_marker line)
  | failed _ => false
  end.

(** Whitespace only. *)
Definition blank (cs : list ascii) : bool := forallb isspace cs.

End Framing.

(** ** Further quantities: episodes, payloads, traces *)

Module Coverage.
Import Py.

(** Two instances built with the same arguments. *)
Definition same_config (a b : ForgeEnv.Env) : Prop :=
  ForgeEnv.jar_path a = ForgeEnv.jar_path b
  /\ ForgeEnv.java_cmd a = ForgeEnv.java_cmd b
  /\ ForgeEnv.player1_is_human a = ForgeEnv.player1_is_human b
  /\ ForgeEnv.player2_is_human a = ForgeEnv.player2_is_human b
  /\ ForgeEnv.max_turns a = ForgeEnv.max_turns b
  /\ ForgeEnv.render_mode a = ForgeEnv.render_mode b.

(** The action list and the hand inside a payload. *)
Definition payload_actions (payload : json) : result json :=
  bind (get payload "actionState" JNull) (fun a => get a "possible_actions" JNull).

Definition payload_hand (payload : json) : result json :=
  bind (get payload "gameState" JNull) (fun g => get g "hand" JNull).

(** What a key of an action is, with its default. *)
Definition field (action : json) (key : string) (default : json) : json :=
  match get action key default with Ok v => v | Raise _ => default end.

Definition is_policy_call (ev : AgentLoop.event) : bool :=
  match ev with AgentLoop.policy_call _ => true | _ => false end.

Definition policy_calls (t : list AgentLoop.event) : nat :=
  List.length (filter is_policy_call t).

(** The four warnings of [policy_request]. *)
Definition is_fallback (m : AgentLoop.message) : bool :=
  match m with
  | AgentLoop.msg_fallback_none | AgentLoop.msg_fallback_failed
  | AgentLoop.msg_fallback_timeout | AgentLoop.msg_fallback_parse => true
  | _ => false
  end.

(** The request with which [run_game] starts. *)
Definition reset_call (scenario : json) : AgentLoop.event :=
  AgentLoop.forge_call "/api/reset"
    (AgentLoop.value (if truthy scenario then scenario else JDict [])).

End Coverage.

(** ** [ForgeEnv.render] *)

Module Rendering.
Import Py ForgeEnv.
Local Open Scope py_scope.

(** The lines that [render] prints, by the values formatted into
    them. *)
Inductive line : Type :=
| rule_above                                     (* "\n" + "="*60 *)
| turn_line (turn_ phase_ : json)                (* "Turn {..} - Phase: {..}" *)
| active_line (player : json)                    (* "Active Player: {..}" *)
| stack_line (size : json)                       (* "Stack Size: {..}" *)
| player_line (name id : json)                   (* "\n{name} (ID: {id}):" *)
| life_line (life : json)                        (* "  Life: {..}" *)
| hand_line (cards : Z)                          (* "  Hand: {..} cards" *)
| library_line (cards : json)                    (* "  Library: {..} cards" *)
| battlefield_line (cards : Z)                   (* "  Battlefield: {..} cards" *)
| actions_header                                 (* "\nAvailable Actions:" *)
| action_line (i : Z) (action_type card_name : json)
| rule_below.                                    (* "="*60 + "\n" *)

(** Printing: the state threaded is what has been printed so far. *)
Definition Out (A : Type) : Type := ST (list line) A.

Definition print (l : line) : Out unit := write (fun out => (out ++ [l])%list).

Fixpoint for_each {A : Type} (body : A -> Out unit) (xs : list A) : Out unit :=
  match xs with
  | [] => ret tt
  | x :: rest => body x ;; for_each body rest
  end.

(** The body of the loop over the players. *)
Definition render_player (player : json) : Out unit :=
  name <- lift (getitem player (JStr "name")) ;;
  id <- lift (getitem player (JStr "id")) ;;
  print (player_line name id) ;;
  life <- lift (getitem player (JStr "life")) ;;
  print (life_line life) ;;
  hand <- lift (get player "hand" (JList [])) ;;
  n <- lift (len hand) ;;
  print (hand_line n) ;;
  library <- lift (getitem player (JStr "libraryCount")) ;;
  print (library_line library) ;;
  battlefield <- lift (get player "battlefield" (JList [])) ;;
  m <- lift (len battlefield) ;;
  print (battlefield_line m).

(** The body of the loop over the actions. *)
Definition render_action (ia : Z * json) : Out unit :=
  let (i, action) := ia in
  action_type <- lift (get action "type" (JStr "unknown")) ;;
  card_name <- lift (get action "card_name" (JStr "")) ;;
  print (action_line i action_type card_name).

Definition render (self : Env) : Out unit :=
  if eqb (render_mode self) (JStr "human") || eqb (render_mode self) (JStr "ansi") then
    if truthy (current_state self) then
      print rule_above ;;
      t <- lift (get (current_state self) "turn" (JInt 0)) ;;
      ph <- lift (get (current_state self) "phase" (JStr "Unknown")) ;;
      print (turn_line t ph) ;;
      active <- lift (get (current_state self) "activePlayerId" (JInt 0)) ;;
      print (active_line active) ;;
      size <- lift (get (current_state self) "stack_size" (JInt 0)) ;;
      print (stack_line size) ;;
      players <- lift (get (current_state self) "players" (JList [])) ;;
      ps <- lift (iter players) ;;
      for_each render_player ps ;;
      print actions_header ;;
      acts <- lift (iter (current_actions self)) ;;
      for_each render_action (AgentLoop.enumerate 0 acts) ;;
      print rule_below
    else ret tt
  else ret tt.

(** The render modes in which [render] prints. *)
Definition shown_mode (mode : json) : bool :=
  eqb mode (JStr "human") || eqb mode (JStr "ansi").

(** A player entry with everything [render] reads: the four keys it
    indexes, and a hand and a battlefield that have a length. *)
Definition has_key (key : string) (player : json) : bool :=
  match getitem player (JStr key) with Ok _ => true | Raise _ => false end.

Definition sized (key : string) (player : json) : bool :=
  match bind (get player key (JList [])) len with Ok _ => true | Raise _ => false end.

Definition complete_player (player : json) : bool :=
  has_key "name" player && has_key "id" player && has_key "life" player
  && has_key "libraryCount" player
  && sized "hand" player && sized "battlefield" player.

(** The instance at hand with another render mode, state and
    actions. *)
Definition showing (mode st acts : json) : Env :=
  {| jar_path := JStr Scenarios.the_jar; java_cmd := JStr "java";
     player1_is_human := JBool true; player2_is_human := JBool false;
     max_turns := JInt 20; render_mode := mode;
     process := None; current_state := st; current_actions := acts;
     episode_turns := JInt 0; game_over := false |}.

(** A player as the engine lists it. *)
Definition full_player (name : string) (life : Z) : json :=
  JDict [ ("id", JInt 0); ("name", JStr name); ("life", JInt life);
          ("libraryCount", JInt 53); ("hand", JList [JStr "Forest"]) ].

End Rendering.

(** ** [agent_loop.py]: [main] *)

Module Entry.
Import Py AgentLoop.
Local Open Scope py_scope.

(** What [parser.parse_args()] returns: the flag [--local-debug] and
    the optional puzzle path (None or a str). *)
Record Args : Type := {
  local_debug : bool;
  puzzle : json
}.

(** [global LOCAL_DEBUG_MODE; LOCAL_DEBUG_MODE = args.local_debug] *)
Definition with_mode (w : World) (flag : bool) : World :=
  {| str := str w; int_of_str := int_of_str w; forge := forge w;
     policy := policy w; LOCAL_DEBUG_MODE := flag |}.

Definition scenario_of (args : Args) : json :=
  if truthy (puzzle args) then JDict [("puzzle_file", puzzle args)] else JNull.

(** [main()].  [parsed] is how [parser.parse_args()] ends on the
    command line at hand: with the arguments, or with the SystemExit of
    argparse (an unknown option, [--help]).  The prints of [main] itself
    are not part of [message]; the value is the turn and the game-over
    flag that the final summary shows, [None] when there is no summary
    (the outer [option] is that of [run_game]). *)
Definition main (w : World) (parsed : result Args) (fuel : nat)
  : N (option (option (json * json))) :=
  args <- lift parsed ;;
  final_state <- run_game (with_mode w (local_debug args)) fuel (scenario_of args) ;;
  match final_state with
  | None => ret None
  | Some final =>
      if truthy final then
        t <- lift (get final "turn" JNull) ;;
        g <- lift (get final "game_over" JNull) ;;
        ret (Some (Some (t, g)))
      else ret (Some None)
  end.

End Entry.

(** ** [examples/forge_gym_example.py]: one pass of the random agent *)

Module Examples.
Import Py ForgeEnv.
Local Open Scope py_scope.

(** [env.action_space.sample() % max(num_actions, 1)] when there are
    actions, else 0; [sample] is what the space has drawn. *)
Definition choose (sample num_actions : Z) : Z :=
  if 0 <? num_actions then sample mod (Z.max num_actions 1) else 0.

(** The body of the loop of [random_agent_example] up to the call of
    [step]; [info] is the dict that [reset] or the last [step]
    returned. *)
Definition random_agent_step (sample : Z) (info_ : Info) : M StepResult :=
  num_actions <- lift (len (actions info_)) ;;
  step (JInt (choose sample num_actions)).

End Examples.

(** ** The reward's arithmetic in binary64 *)

Module Binary64.

(** Python's [float]: IEEE 754 binary64, rounded to nearest, ties to
    even. *)
Definition prec : Z := 53.
Definition emax : Z := 1024.

Definition float : Type := spec_float.

(** [float(n)], which is what [n * 0.1] makes of an int [n]. *)
Definition of_int (n : Z) : float := binary_normalize prec emax n 0 false.

Definition add : float -> float -> float := SFadd prec emax.
Definition sub : float -> float -> float := SFsub prec emax.
Definition mul : float -> float -> float := SFmul prec emax.
Definition neg : float -> float := SFopp.

(** The literals [0.0], [0.1] and [10.0]. *)
Definition zero : float := S754_zero false.
Definition tenth : float := SFdiv prec emax (of_int 1) (of_int 10).
Definition ten : float := of_int 10.

(** The statements of [_calculate_reward] that compute the reward, on
    integer life totals within the range of [float]: [a] is a total
    before the step, [b] after it. *)
Definition accumulated (a0 b0 a1 b1 : Z) : float :=
  let reward := zero in
  let reward :=
    if b1 <? a1 then add reward (mul (of_int (a1 - b1)) tenth) else reward in
  let reward :=
    if b0 <? a0 then sub reward (mul (of_int (a0 - b0)) tenth) else reward in
  if b1 <=? 0 then add reward ten
  else if b0 <=? 0 then sub reward ten else reward.

(** The four components, the penalty as the source applies it. *)
Definition opponent_component (a1 b1 : Z) : float :=
  if b1 <? a1 then mul (of_int (a1 - b1)) tenth else zero.

Definition self_component (a0 b0 : Z) : float :=
  if b0 <? a0 then neg (mul (of_int (a0 - b0)) tenth) else zero.

Definition win_bonus (b1 : Z) : float := if b1 <=? 0 then ten else zero.

Definition loss_penalty_unless_win (b0 b1 : Z) : float :=
  if b1 <=? 0 then zero else if b0 <=? 0 then neg ten else zero.

(** Terms added one after the other, from [0.0]. *)
Definition sum (terms : list float) : float := fold_left add terms zero.

End Binary64.

(** ** The constructor to its end *)

Module Construction.
Import Py ForgeEnv.
Local Open Scope py_scope.



End Construction.

(** Case analysis on what the goal branches on. *)
Ltac case_match :=
  match goal with
  | |- context [match ?x with _ => _ end] =>
      lazymatch x with
      | context [match _ with _ => _ end] => fail
      | _ => destruct x eqn:?
      end
  end.

(** ** Facts about the builtins *)

Module PyFacts.
Import Py.

Lemma two_or_more :
  forall (x y : json) rest, (2 <=? Z.of_nat (List.length (x :: y :: rest))) = true.
Proof.
  intros x y rest. apply Z.leb_le. simpl List.length. lia.
Qed.

Lemma getitem_first :
  forall (x : json) rest, getitem (JList (x :: rest)) (JInt 0) = Ok x.
Proof.
  intros x rest. unfold getitem, as_index, seq_pos.
  replace ((0 <=? 0) && (0 <? Z.of_nat (List.length (x :: rest)))) with true.
  - reflexivity.
  - symmetry. apply andb_true_iff. split; [reflexivity|].
    apply Z.ltb_lt. simpl List.length. lia.
Qed.

Lemma getitem_second :
  forall (x y : json) rest, getitem (JList (x :: y :: rest)) (JInt 1) = Ok y.
Proof.
  intros x y rest. unfold getitem, as_index, seq_pos.
  replace ((0 <=? 1) && (1 <? Z.of_nat (List.length (x :: y :: rest)))) with true.
  - reflexivity.
  - symmetry. apply andb_true_iff. split; [reflexivity|].
    apply Z.ltb_lt. simpl List.length. lia.
Qed.

Lemma Qle_bool_false : forall x y, Qle_bool x y = false -> ~ (x <= y)%Q.
Proof.
  intros x y H L. apply Qle_bool_iff in L. congruence.
Qed.

End PyFacts.

(** ** Properties of [ForgeEnv] *)

Module EnvFacts.
Import Py PyFacts ForgeEnv Scenarios.
Local Open Scope py_scope.

Lemma fresh_instance_has_no_process :
  forall found kwargs self,
    __init__ found kwargs = Ok self ->
    process self = None /\ current_state self = JNull.
Proof.
  intros found kwargs self. unfold __init__.
  destruct (unexpected_keyword kwargs); [discriminate|].
  destruct (_get_java_cmd _); simpl; [|discriminate].
  intros H. injection H as <-. split; reflexivity.
Qed.

(** C10.  [step] on an instance that has no engine process (none was
    launched yet, or it was closed) raises RuntimeError at once: the
    instance is left as it was, so nothing was written to an engine, no
    state was read and there is no step result. *)
Theorem step_without_process_raises :
  forall (self : Env) (action : json),
    process self = None ->
    step action self = (Raise RuntimeError, self).
Proof.
  intros self action H.
  unfold step, mbind, read, raise. rewrite H. reflexivity.
Qed.

Lemma step_without_process_raises_witness :
  exists self,
    __init__ the_jar test_kwargs = Ok self /\
    step (JInt 0) self = (Raise RuntimeError, self).
Proof.
  destruct (__init__ the_jar test_kwargs) as [self|] eqn:E; [|discriminate E].
  exists self. split; [reflexivity|].
  apply (step_without_process_raises self (JInt 0)).
  apply (fresh_instance_has_no_process _ _ _ E).
Defined.

(** What [_update_state] leaves in [current_state] when the text read for
    the state does not parse. *)
Lemma update_state_unparseable :
  forall self r self',
    state_reply self = Unparseable ->
    _update_state self = (r, self') ->
    current_state self' = JDict [].
Proof.
  intros self r self' Hreply.
  unfold _update_state, state_reply in *.
  unfold mbind, _send_command, _read_response, try_except, write, read, lift in *.
  destruct self as [jp jc p1 p2 mt rm pr cs ca et go]; simpl in *.
  destruct pr as [p|]; simpl in *.
  - rewrite Hreply. simpl.
    repeat case_match; simpl; intros H; injection H as _ <-; reflexivity.
  - intros H. injection H as _ <-. reflexivity.
Qed.

Lemma update_state_both_unparseable :
  forall self,
    state_reply self = Unparseable ->
    actions_reply self = Unparseable ->
    exists self',
      _update_state self = (Ok tt, self') /\ current_actions self' = JList [].
Proof.
  intros self Hs Ha.
  unfold _update_state, state_reply, actions_reply in *.
  unfold mbind, _send_command, _read_response, try_except, write, read, lift in *.
  destruct self as [jp jc p1 p2 mt rm pr cs ca et go]; simpl in *.
  destruct pr as [p|]; simpl in *.
  - rewrite Hs. simpl. rewrite <- app_assoc. simpl. rewrite Ha. simpl.
    eexists; split; reflexivity.
  - eexists; split; reflexivity.
Qed.

Lemma observation_of_falsy_state :
  forall self,
    truthy (current_state self) = false ->
    _get_observation self = (Ok default_observation, self).
Proof.
  intros self H. unfold _get_observation, mbind, read, ret. rewrite H. reflexivity.
Qed.

(** C7.  When the text read for the state does not parse (a malformed
    or an empty response; with no process the text is empty),
    [_update_state] leaves the empty state and [_get_observation] returns
    the default observation, turn 0, phase code 0, both lives 20 and both
    hand sizes 0, without raising; when the text read for the actions does
    not parse either, [_update_state] itself returns normally. *)
Theorem malformed_response_default_observation :
  forall (self : Env) r self',
    state_reply self = Unparseable ->
    _update_state self = (r, self') ->
    current_state self' = JDict []
    /\ _get_observation self' = (Ok default_observation, self')
    /\ turn default_observation = 0
    /\ phase default_observation = 0
    /\ player_0_life default_observation = 20
    /\ player_1_life default_observation = 20
    /\ player_0_hand_size default_observation = 0
    /\ player_1_hand_size default_observation = 0
    /\ (actions_reply self = Unparseable ->
        r = Ok tt /\ current_actions self' = JList []).
Proof.
  intros self r self' Hs Hu.
  pose proof (update_state_unparseable self r self' Hs Hu) as Hcs.
  split; [exact Hcs|].
  split; [apply observation_of_falsy_state; rewrite Hcs; reflexivity|].
  repeat (split; [reflexivity|]).
  intros Ha.
  destruct (update_state_both_unparseable self Hs Ha) as [self'' [E Hca]].
  rewrite E in Hu. injection Hu as <- <-. split; [reflexivity|exact Hca].
Qed.

Lemma malformed_response_default_observation_witness :
  let self := running garbled (two_players 3 20 20) some_actions 100 in
  let self' := snd (_update_state self) in
  current_state self' = JDict []
  /\ _get_observation self' = (Ok default_observation, self')
  /\ fst (_update_state self) = Ok tt.
Proof.
  intros self self'.
  destruct (malformed_response_default_observation self
              (fst (_update_state self)) self' eq_refl eq_refl)
    as [H1 [H2 [_ [_ [_ [_ [_ [_ H3]]]]]]]].
  split; [exact H1|]. split; [exact H2|]. exact (proj1 (H3 eq_refl)).
Defined.

(** *** The dense reward *)

Lemma life_of_get :
  forall p l, life_of p = Some l ->
    exists v, get p "life" (JInt 20) = Ok v /\ as_num v = Some l.
Proof.
  intros p l. unfold life_of.
  destruct (get p "life" (JInt 20)) as [v|]; [|discriminate].
  intros H. exists v. split; [reflexivity|exact H].
Qed.

Lemma reward_accumulated :
  forall prev curr a0 a1 b0 b1,
    lives prev a0 a1 -> lives curr b0 b1 ->
    _calculate_reward prev curr = Ok (accumulated a0 b0 a1 b1).
Proof.
  intros prev curr a0 a1 b0 b1
    [Tp [p0 [p1 [pps [Gp [Hp0 Hp1]]]]]] [Tc [c0 [c1 [cps [Gc [Hc0 Hc1]]]]]].
  destruct (life_of_get _ _ Hp0) as [vp0 [Ep0 Np0]].
  destruct (life_of_get _ _ Hp1) as [vp1 [Ep1 Np1]].
  destruct (life_of_get _ _ Hc0) as [vc0 [Ec0 Nc0]].
  destruct (life_of_get _ _ Hc1) as [vc1 [Ec1 Nc1]].
  unfold _calculate_reward. rewrite Tp, Tc. cbn [negb orb].
  rewrite Gp, Gc. cbn [bind len].
  rewrite !two_or_more. cbn [bind].
  rewrite !getitem_first, !getitem_second. cbn [bind].
  rewrite Ep0, Ec0, Ep1, Ec1. cbn [bind].
  unfold lt, le, sub. rewrite Np0, Np1, Nc0, Nc1. cbn [as_num].
  unfold accumulated.
  destruct (Qlt_bool b1 a1); destruct (Qlt_bool b0 a0); simpl;
    destruct (Qle_bool b1 (inject_Z 0)) eqn:E1; simpl;
    change (Qle_bool b1 0) with (Qle_bool b1 (inject_Z 0)); rewrite E1;
    try reflexivity;
    destruct (Qle_bool b0 (inject_Z 0)) eqn:E0; simpl;
    change (Qle_bool b0 0) with (Qle_bool b0 (inject_Z 0)); rewrite E0;
    reflexivity.
Qed.

(** Turns the tests of the reward into facts for [lra]. *)
Ltac reward_cases :=
  unfold accumulated, opponent_component, self_component, win_bonus,
    loss_penalty_unless_win, loss_penalty, life_lost, at_or_below_zero, Qlt_bool;
  repeat match goal with
         | |- context [Qle_bool ?x ?y] =>
             let E := fresh "E" in
             destruct (Qle_bool x y) eqn:E;
             [apply Qle_bool_iff in E | apply Qle_bool_false in E]
         end;
  simpl.

Lemma accumulated_formula :
  forall a0 b0 a1 b1,
    (accumulated a0 b0 a1 b1 ==
       0.1 * life_lost a1 b1 - 0.1 * life_lost a0 b0
       + (if at_or_below_zero b1 then 10.0
          else if at_or_below_zero b0 then - 10.0 else 0))%Q.
Proof.
  intros a0 b0 a1 b1. reward_cases; lra.
Qed.

(** C2, as the source has it.  For a previous and a current state that
    each hold at least two players, the reward is 0.1 times the life the
    opponent (player 1) lost over the step, minus 0.1 times the life self
    (player 0) lost, plus 10.0 when the opponent's life is now at or below
    0, and otherwise minus 10.0 when self's life is now at or below 0: the
    penalty is not applied together with the bonus.  With no previous
    state the reward is 0.0. *)
Theorem dense_reward_formula :
  forall prev curr a0 a1 b0 b1,
    lives prev a0 a1 -> lives curr b0 b1 ->
    (exists r, _calculate_reward prev curr = Ok r /\
       (r == 0.1 * life_lost a1 b1 - 0.1 * life_lost a0 b0
             + (if at_or_below_zero b1 then 10.0
                else if at_or_below_zero b0 then - 10.0 else 0))%Q)
    /\ (forall first, _calculate_reward JNull first = Ok 0.0%Q).
Proof.
  intros prev curr a0 a1 b0 b1 Hp Hc. split.
  - exists (accumulated a0 b0 a1 b1). split.
    + apply reward_accumulated; assumption.
    + apply accumulated_formula.
  - intros first. reflexivity.
Qed.

Lemma lives_two_players :
  forall t l0 l1, lives (two_players t l0 l1) (inject_Z l0) (inject_Z l1).
Proof.
  intros t l0 l1. split; [reflexivity|].
  do 3 eexists. split; [reflexivity|]. split; reflexivity.
Defined.

Lemma dense_reward_formula_witness :
  exists r,
    _calculate_reward (two_players 1 20 20) (two_players 1 18 15) = Ok r
    /\ (r == 0.3)%Q.
Proof.
  destruct (dense_reward_formula (two_players 1 20 20) (two_players 1 18 15)
              20 20 18 15 (lives_two_players 1 20 20) (lives_two_players 1 18 15))
    as [[r [E H]] _].
  exists r. split; [exact E|].
  rewrite H. vm_compute. reflexivity.
Defined.

(** C2, as the spec states it, fails when both life totals reach 0 in
    one step: the source adds the bonus and skips the penalty, so the
    reward is 10.0 and not the sum of the four terms, which is 0. *)
Lemma dense_reward_double_ko :
  exists r,
    _calculate_reward (two_players 1 20 20) (two_players 2 0 0) = Ok r
    /\ (r == 10.0)%Q
    /\ ~ (r == dense_sum 20 0 20 0)%Q.
Proof.
  eexists. split; [reflexivity|]. split.
  - vm_compute. reflexivity.
  - vm_compute. discriminate.
Qed.

Lemma accumulated_components :
  forall a0 b0 a1 b1,
    (accumulated a0 b0 a1 b1 ==
       opponent_component a1 b1 + self_component a0 b0
       + win_bonus b1 + loss_penalty_unless_win b0 b1)%Q.
Proof.
  intros a0 b0 a1 b1. reward_cases; lra.
Qed.

Lemma accumulated_unchanged :
  forall a0 b0 a1 b1,
    (a0 == b0)%Q -> (a1 == b1)%Q ->
    at_or_below_zero b0 = false -> at_or_below_zero b1 = false ->
    accumulated a0 b0 a1 b1 = 0.0%Q.
Proof.
  intros a0 b0 a1 b1 H0 H1 Z0 Z1.
  unfold at_or_below_zero in *. unfold accumulated, Qlt_bool.
  rewrite Z0, Z1.
  assert (L1 : Qle_bool a1 b1 = true)
    by (apply Qle_bool_iff; rewrite H1; apply Qle_refl).
  assert (L0 : Qle_bool a0 b0 = true)
    by (apply Qle_bool_iff; rewrite H0; apply Qle_refl).
  rewrite L1, L0. reflexivity.
Qed.

(** C6, as the source has it.  The dense reward is the sum of four
    components added in the order of the source: 0.1 per life the opponent
    lost, minus 0.1 per life self lost, the win bonus of 10.0, and the
    loss penalty of 10.0, where the penalty is the one the source applies,
    only when the bonus is not.  When no life total has changed and
    neither is at or below 0, the reward is exactly 0.0. *)
Theorem dense_reward_additive :
  forall prev curr a0 a1 b0 b1,
    lives prev a0 a1 -> lives curr b0 b1 ->
    exists r, _calculate_reward prev curr = Ok r
      /\ (r == opponent_component a1 b1 + self_component a0 b0
               + win_bonus b1 + loss_penalty_unless_win b0 b1)%Q
      /\ ((a0 == b0)%Q -> (a1 == b1)%Q ->
          at_or_below_zero b0 = false -> at_or_below_zero b1 = false ->
          r = 0.0%Q).
Proof.
  intros prev curr a0 a1 b0 b1 Hp Hc.
  exists (accumulated a0 b0 a1 b1). split; [|split].
  - apply reward_accumulated; assumption.
  - apply accumulated_components.
  - apply accumulated_unchanged.
Qed.

Lemma dense_reward_additive_witness :
  exists r,
    _calculate_reward (two_players 1 20 20) (two_players 1 17 12) = Ok r
    /\ (r == opponent_component 20 12 + self_component 20 17
             + win_bonus 12 + loss_penalty_unless_win 17 12)%Q
    /\ (r == 0.5)%Q
    /\ _calculate_reward (two_players 1 17 12) (two_players 1 17 12) = Ok 0.0%Q.
Proof.
  destruct (dense_reward_additive (two_players 1 20 20) (two_players 1 17 12)
              20 20 17 12 (lives_two_players 1 20 20) (lives_two_players 1 17 12))
    as [r [E [P _]]].
  exists r. split; [exact E|]. split; [exact P|]. split.
  - rewrite P. vm_compute. reflexivity.
  - destruct (dense_reward_additive (two_players 1 17 12) (two_players 1 17 12)
                17 12 17 12 (lives_two_players 1 17 12) (lives_two_players 1 17 12))
      as [r' [E' [_ Z]]].
    rewrite E'. f_equal. apply Z; reflexivity.
Defined.

(** C6, as the spec states it, fails in three ways.  When both life
    totals cross 0 in one step, the four components taken each from its
    own quantity sum to -0.3, and the source returns 9.7.  When nothing
    changes between two states in which the opponent is already at 0,
    there is no transition, and the source returns 10.0, not 0.0.  And
    the sum is not commutative in the arithmetic of the source: for
    5/3 -> 4/0 the source returns the binary64 number 10.2, which is the
    four components added in its order, while the same components added
    in the opposite order give 10.200000000000001. *)
Lemma dense_reward_not_additive :
  (exists r,
     _calculate_reward (two_players 4 5 3) (two_players 4 (-1) 0) = Ok r
     /\ (r == 9.7)%Q
     /\ ~ (r == Qsum [ opponent_component 3 0; self_component 5 (-1);
                       win_bonus 0; loss_penalty (-1) ])%Q)
  /\ (exists r,
        _calculate_reward (two_players 4 20 0) (two_players 4 20 0) = Ok r
        /\ (r == 10.0)%Q /\ ~ (r == 0.0)%Q)
  /\ Binary64.accumulated 5 4 3 0
     = S754_finite false 5742089524897382 (-49)
  /\ Binary64.sum [ Binary64.opponent_component 3 0;
                    Binary64.self_component 5 4;
                    Binary64.win_bonus 0;
                    Binary64.loss_penalty_unless_win 4 0 ]
     = Binary64.accumulated 5 4 3 0
  /\ Binary64.sum [ Binary64.loss_penalty_unless_win 4 0;
                    Binary64.win_bonus 0;
                    Binary64.self_component 5 4;
                    Binary64.opponent_component 3 0 ]
     = S754_finite false 5742089524897383 (-49).
Proof.
  split; [|split; [|split; [|split]]].
  - eexists. split; [reflexivity|]. split.
    + vm_compute. reflexivity.
    + vm_compute. discriminate.
  - eexists. split; [reflexivity|]. split.
    + vm_compute. reflexivity.
    + vm_compute. discriminate.
  - vm_compute. reflexivity.
  - vm_compute. reflexivity.
  - vm_compute. reflexivity.
Qed.

(** *** The flags of [step] *)

Lemma is_terminated_reads :
  forall self x self', _is_terminated self = (x, self') -> self' = self.
Proof.
  intros self x self'. unfold _is_terminated, mbind, read, ret, lift.
  destruct (negb (truthy (current_state self)));
    intros H; injection H as _ <-; reflexivity.
Qed.

Lemma get_observation_reads :
  forall self x self', _get_observation self = (x, self') -> self' = self.
Proof.
  intros self x self'. unfold _get_observation, mbind, read, ret, lift.
  destruct (negb (truthy (current_state self)));
    intros H; injection H as _ <-; reflexivity.
Qed.

Lemma not_dead :
  forall player v q,
    get player "life" (JInt 20) = Ok v -> as_num v = Some q ->
    Qle_bool q 0 = false -> ~ dead player.
Proof.
  intros player v q G N L [life [H Hle]].
  unfold life_of in H. rewrite G, N in H. injection H as <-.
  apply Qle_bool_iff in Hle. congruence.
Qed.

Lemma any_player_dead_spec :
  forall ps b, any_player_dead ps = Ok b -> (b = true <-> Exists dead ps).
Proof.
  induction ps as [|player rest IH]; intros b; simpl.
  - intros H. injection H as <-. split; [discriminate|].
    intros E. inversion E.
  - destruct (get player "life" (JInt 20)) as [v|] eqn:G; simpl; [|discriminate].
    unfold le. destruct (as_num v) as [q|] eqn:N; simpl; [|discriminate].
    change (inject_Z 0) with 0%Q.
    destruct (Qle_bool q 0) eqn:L.
    + intros H. injection H as <-. split; [|reflexivity].
      intros _. apply Exists_cons_hd. exists q. split.
      * unfold life_of. rewrite G. exact N.
      * apply Qle_bool_iff. exact L.
    + intros H. specialize (IH b H). split.
      * intros Hb. apply Exists_cons_tl. apply IH. exact Hb.
      * intros E. inversion E as [? ? Hd|? ? Hr]; subst.
        -- exfalso. exact (not_dead _ _ _ G N L Hd).
        -- apply IH. exact Hr.
Qed.

Lemma is_terminated_spec :
  forall self b,
    fst (_is_terminated self) = Ok b ->
    (b = true <->
     truthy (current_state self) = false
     \/ exists ps, tracked_players (current_state self) = Ok ps /\ Exists dead ps).
Proof.
  intros self b. unfold _is_terminated, mbind, read, ret, lift. simpl.
  destruct (truthy (current_state self)) eqn:T; simpl.
  - unfold tracked_players.
    destruct (get (current_state self) "players" (JList [])) as [players|];
      simpl; [|discriminate].
    destruct (iter players) as [ps|]; simpl; [|discriminate].
    intros H. pose proof (any_player_dead_spec ps b H) as S. split.
    + intros Hb. right. exists ps. split; [reflexivity|]. apply S. exact Hb.
    + intros [F|[ps' [E D]]]; [discriminate|].
      injection E as <-. apply S. exact D.
  - intros H. injection H as <-. split; [|reflexivity].
    intros _. left. reflexivity.
Qed.

Lemma send_command_keeps :
  forall c self,
    exists self1,
      _send_command c self = (Ok tt, self1)
      /\ current_state self1 = current_state self
      /\ current_actions self1 = current_actions self
      /\ episode_turns self1 = episode_turns self
      /\ max_turns self1 = max_turns self.
Proof.
  intros c self. unfold _send_command, write.
  eexists. split; [reflexivity|].
  destruct (process self); repeat split; reflexivity.
Qed.

(** What a [step] that returns has computed, in terms of the instance it
    started from and the instance it leaves. *)
Lemma step_returns :
  forall action self r self',
    step action self = (Ok r, self') ->
    exists n in_range previous_state,
      len (current_actions self) = Ok n
      /\ lt action (JInt n) = Ok in_range
      /\ (if truthy (current_state self) then copy (current_state self)
          else Ok JNull) = Ok previous_state
      /\ _update_state
           (snd (_send_command
                   (if in_range then play_action action else pass_priority) self))
         = (Ok tt, self')
      /\ _calculate_reward previous_state (current_state self') = Ok (reward r)
      /\ _is_terminated self' = (Ok (terminated r), self')
      /\ ge (episode_turns self') (max_turns self') = Ok (truncated r)
      /\ _get_observation self' = (Ok (observation r), self')
      /\ state (info r) = current_state self'
      /\ actions (info r) = current_actions self'.
Proof.
  intros action self r self'.
  unfold step, mbind, read, lift, ret, raise.
  destruct (process self); [|discriminate].
  destruct (len (current_actions self)) as [n|] eqn:En; [|discriminate].
  destruct (lt action (JInt n)) as [in_range|] eqn:El; [|discriminate].
  destruct (send_command_keeps
              (if in_range then play_action action else pass_priority) self)
    as [self1 [Es [Ks _]]].
  rewrite Es. rewrite Ks.
  destruct (if truthy (current_state self) then copy (current_state self)
            else Ok JNull) as [previous_state|] eqn:Ep; [|discriminate].
  destruct (_update_state self1) as [[[]|] self2] eqn:Eu; [|discriminate].
  destruct (_calculate_reward previous_state (current_state self2))
    as [reward_|] eqn:Er; [|discriminate].
  destruct (_is_terminated self2) as [[terminated_|] self3] eqn:Et; [|discriminate].
  pose proof (is_terminated_reads _ _ _ Et); subst self3.
  destruct (ge (episode_turns self2) (max_turns self2)) as [truncated_|] eqn:Eg;
    [|discriminate].
  destruct (_get_observation self2) as [[obs|] self3] eqn:Eo; [|discriminate].
  pose proof (get_observation_reads _ _ _ Eo); subst self3.
  intros H. injection H as <- <-.
  exists n, in_range, previous_state. rewrite Es. simpl.
  repeat split; reflexivity || assumption.
Qed.

Lemma terminated_of_step :
  forall action self r self',
    step action self = (Ok r, self') ->
    fst (_is_terminated self') = Ok (terminated r).
Proof.
  intros action self r self' H.
  destruct (step_returns _ _ _ _ H) as [n [b [pv [_ [_ [_ [_ [_ [T _]]]]]]]]].
  rewrite T. reflexivity.
Qed.

Lemma update_state_keeps :
  forall self x self',
    _update_state self = (x, self') ->
    max_turns self' = max_turns self
    /\ (exists suffix,
          sent self' = (sent self ++ suffix)%list /\ forallb is_query suffix = true)
    /\ (x = Ok tt -> truthy (current_state self') = true ->
        get (current_state self') "turn" (JInt 0) = Ok (episode_turns self')).
Proof.
  intros self x self'.
  unfold _update_state.
  unfold mbind, _send_command, _read_response, try_except, write, read, lift.
  destruct self as [jp jc p1 p2 mt rm pr cs ca et go]; simpl.
  destruct pr as [p|]; simpl.
  - repeat (simpl; case_match); simpl; intros H; injection H as <- <-;
      unfold sent; simpl;
      (split; [reflexivity|]);
      (split;
       [ first [ exists [get_state; possible_actions];
                 rewrite <- app_assoc; split; reflexivity
               | exists [get_state]; split; reflexivity ]
       | ]);
      try (intros _ F; discriminate F);
      try (intros F; discriminate F);
      intros _ _; assumption.
  - repeat (simpl; case_match); simpl; intros H; injection H as <- <-;
      unfold sent; simpl;
      (split; [reflexivity|]);
      (split; [exists []; split; reflexivity|]);
      intros _ F; discriminate F.
Qed.

Lemma step_sent :
  forall action self p n in_range,
    process self = Some p ->
    len (current_actions self) = Ok n ->
    lt action (JInt n) = Ok in_range ->
    exists suffix,
      sent (snd (step action self))
      = (stdin p ++ (if in_range then play_action action else pass_priority)
                    :: suffix)%list
      /\ forallb is_query suffix = true.
Proof.
  intros action self p n in_range Hp Hn Hl.
  unfold step, mbind, read, lift, ret, raise.
  rewrite Hp, Hn, Hl.
  set (c := if in_range then play_action action else pass_priority).
  assert (Es : _send_command c self
               = (Ok tt, set_process
                           (Some {| args := args p; stdin := stdin p ++ [c];
                                    stdout := stdout p |}) self)).
  { unfold _send_command, write. rewrite Hp. reflexivity. }
  rewrite Es.
  set (self1 := set_process _ self).
  assert (S1 : sent self1 = (stdin p ++ [c])%list) by reflexivity.
  destruct (if truthy (current_state self1) then copy (current_state self1)
            else Ok JNull) as [previous_state|].
  2:{ exists []. split; [exact S1|reflexivity]. }
  destruct (_update_state self1) as [x self2] eqn:Eu.
  destruct (update_state_keeps _ _ _ Eu) as [_ [[suffix [S2 Q]] _]].
  assert (G : sent self2 = (stdin p ++ c :: suffix)%list).
  { rewrite S2, S1, <- app_assoc. reflexivity. }
  destruct x as [[]|e]; [|exists suffix; split; assumption].
  destruct (_calculate_reward previous_state (current_state self2));
    [|exists suffix; split; assumption].
  destruct (_is_terminated self2) as [y self3] eqn:Et.
  pose proof (is_terminated_reads _ _ _ Et); subst self3.
  destruct y; [|exists suffix; split; assumption].
  destruct (ge (episode_turns self2) (max_turns self2));
    [|exists suffix; split; assumption].
  destruct (_get_observation self2) as [z self3] eqn:Eo.
  pose proof (get_observation_reads _ _ _ Eo); subst self3.
  destruct z; exists suffix; split; assumption.
Qed.

(** The truncated flag is the comparison of the turn the engine last
    reported with [max_turns]. *)
Lemma truncated_by_turn :
  forall action self r self',
    step action self = (Ok r, self') ->
    ge (episode_turns self') (max_turns self) = Ok (truncated r)
    /\ (truthy (state (info r)) = true ->
        get (state (info r)) "turn" (JInt 0) = Ok (episode_turns self')).
Proof.
  intros action self r self' H.
  destruct (step_returns _ _ _ _ H)
    as [n [b [pv [_ [_ [_ [U [_ [_ [G [_ [S _]]]]]]]]]]]].
  destruct (update_state_keeps _ _ _ U) as [M [_ T]].
  destruct (send_command_keeps (if b then play_action action else pass_priority) self)
    as [self1 [Es [_ [_ [_ Km]]]]].
  rewrite Es in M. simpl in M. rewrite Km in M.
  split.
  - rewrite <- M. exact G.
  - rewrite S. apply T. reflexivity.
Qed.

(** The terminated flag is decided by the emptiness of the state and by
    the life totals. *)
Lemma terminated_by_lives :
  forall action self r self',
    step action self = (Ok r, self') ->
    (terminated r = true <->
     truthy (state (info r)) = false
     \/ exists ps, tracked_players (state (info r)) = Ok ps /\ Exists dead ps).
Proof.
  intros action self r self' H.
  pose proof (terminated_of_step _ _ _ _ H) as T.
  destruct (step_returns _ _ _ _ H)
    as [n [b [pv [_ [_ [_ [_ [_ [_ [_ [_ [S _]]]]]]]]]]]].
  rewrite S. apply is_terminated_spec. exact T.
Qed.

(** *** The stuck engine *)

Lemma stuck_answers :
  forall st acts written,
    stuck st acts (written ++ [get_state]) = Parsed st
    /\ stuck st acts (written ++ [possible_actions])
       = Parsed (JDict [("actions", acts)]).
Proof.
  intros st acts written. unfold stuck. rewrite !last_last. split; reflexivity.
Qed.

Lemma flags_on_stuck_state :
  forall self,
    current_state self = stuck_state ->
    _is_terminated self = (Ok false, self)
    /\ exists obs, _get_observation self = (Ok obs, self).
Proof.
  intros self H.
  unfold _is_terminated, _get_observation, mbind, read, ret, lift. rewrite H.
  split; [reflexivity|]. eexists. reflexivity.
Qed.

Lemma stuck_step :
  forall written,
    exists r,
      step (JInt 0) (stuck_env written)
      = (Ok r, stuck_env (written ++ [play_action (JInt 0); get_state;
                                      possible_actions]))
      /\ terminated r = false /\ truncated r = false.
Proof.
  intros written.
  unfold step, _update_state, mbind, read, lift, ret, _send_command,
    _read_response, try_except, write.
  cbn [stuck_env process current_actions current_state some_actions len lt
       as_num List.length Z.of_nat].
  cbn -[stuck _calculate_reward _is_terminated _get_observation app].
  rewrite (proj1 (stuck_answers _ _ _)).
  cbn -[stuck _calculate_reward _is_terminated _get_observation app].
  rewrite (proj2 (stuck_answers _ _ _)).
  cbn [json_loads get lookup String.eqb Ascii.eqb Bool.eqb].
  cbv beta iota delta
    [set_current_actions set_process set_episode_turns set_current_state stuck_env
     jar_path java_cmd player1_is_human player2_is_human max_turns render_mode
     process current_state current_actions episode_turns game_over].
  change (truthy stuck_state) with true. cbn [copy stuck_state two_players].
  change (_calculate_reward (two_players 1 20 20) (two_players 1 20 20))
    with (Ok 0.0%Q : result Q).
  cbv beta iota.
  match goal with
  | |- context [_is_terminated ?e] =>
      destruct (flags_on_stuck_state e eq_refl) as [T [obs O]]; rewrite T
  end.
  change (ge (JInt 1) (JInt 100)) with (Ok false : result bool).
  cbv beta iota. rewrite O.
  eexists. split; [rewrite <- !app_assoc; reflexivity|split; reflexivity].
Qed.

Lemma stuck_steps :
  forall n written,
    exists r written',
      steps (S n) (JInt 0) (stuck_env written) = (Ok (Some r), stuck_env written')
      /\ terminated r = false /\ truncated r = false.
Proof.
  induction n as [|n IH]; intros written.
  - destruct (stuck_step written) as [r [E [T U]]].
    exists r. eexists. simpl. rewrite E. split; [reflexivity|]. split; assumption.
  - destruct (stuck_step written) as [r0 [E _]].
    destruct (IH (written ++ [play_action (JInt 0); get_state; possible_actions])%list)
      as [r [written' [E' [T U]]]].
    exists r, written'.
    change (steps (S (S n)) (JInt 0) (stuck_env written))
      with (match step (JInt 0) (stuck_env written) with
            | (Ok _, self') => steps (S n) (JInt 0) self'
            | (Raise e, self') => (Raise e, self')
            end).
    rewrite E. split; [exact E'|]. split; assumption.
Qed.

(** C5, as the source has it.  The terminated flag that [step]
    returns is true exactly when the state it has just read is empty (as
    after a response that did not parse) or some player in its list of
    players has a life at or below 0; the engine's [game_over] entry is
    not looked at. *)
Theorem terminated_flag :
  forall action self r self',
    step action self = (Ok r, self') ->
    (terminated r = true <->
     truthy (state (info r)) = false
     \/ exists ps, tracked_players (state (info r)) = Ok ps /\ Exists dead ps).
Proof.
  intros action self r self' H.
  exact (terminated_by_lives action self r self' H).
Qed.

Lemma terminated_flag_witness :
  let self := running (stuck (two_players 2 20 0) some_actions)
                (two_players 1 20 5) some_actions 100 in
  exists r, fst (step (JInt 0) self) = Ok r /\ terminated r = true.
Proof.
  intros self.
  eassert (E : step (JInt 0) self = (Ok _, _)) by (vm_compute; reflexivity).
  eexists. split.
  - rewrite E. reflexivity.
  - apply (proj2 (terminated_flag _ _ _ _ E)).
    right. eexists. split; [reflexivity|].
    apply Exists_cons_tl. apply Exists_cons_hd.
    exists 0%Q. split; [reflexivity|]. apply Qle_refl.
Defined.

(** C5, as the spec states it, fails in both directions.  An engine
    that reports [game_over] with both players at 20 leaves the flag
    false; a response that does not parse sets it although no life is at
    or below 0 and nothing reports the end of the game. *)
Lemma terminated_ignores_game_over :
  (exists r,
     fst (step (JInt 0)
            (running (stuck game_over_state some_actions)
               (two_players 6 20 20) some_actions 100)) = Ok r
     /\ reports_game_over (state (info r)) = true
     /\ tracked_players (state (info r))
        = Ok [ JDict [("id", JInt 0); ("life", JInt 20)];
               JDict [("id", JInt 1); ("life", JInt 20)] ]
     /\ terminated r = false)
  /\ (exists r,
        fst (step (JInt 0)
               (running garbled (two_players 6 20 20) some_actions 100)) = Ok r
        /\ reports_game_over (state (info r)) = false
        /\ tracked_players (state (info r)) = Ok []
        /\ terminated r = true).
Proof.
  split; eexists; (split; [vm_compute; reflexivity|]);
    repeat split; reflexivity.
Qed.

(** C1.  The constructor has no parameter for a reward mode: the call
    of the sparse-reward example, with [reward_mode="sparse"], is a
    TypeError.  Without the keyword the instance is built, and the reward
    of an ordinary step in which the opponent goes from 20 to 15 is 0.5:
    the only reward there is, is the dense one. *)
Theorem sparse_mode_not_offered :
  __init__ the_jar sparse_example_kwargs = Raise TypeError
  /\ exists self,
       __init__ the_jar example_kwargs = Ok self
       /\ exists r,
            fst (step (JInt 0)
                   (snd (reset (scripted [ two_players 1 20 20; two_players 1 20 15 ]
                                  some_actions) self))) = Ok r
            /\ terminated r = false
            /\ (reward r == 0.5)%Q.
Proof.
  split; [reflexivity|].
  eexists. split; [reflexivity|].
  eexists. split; [vm_compute; reflexivity|].
  split; reflexivity.
Qed.

End EnvFacts.

(** ** Properties of the agent loop *)

Module LoopFacts.
Import Py PyFacts AgentLoop Worlds.
Local Open Scope py_scope.

Lemma policy_request_unfold :
  forall w game_state payload r,
    structured_payload w game_state = Ok payload ->
    policy_request w game_state r =
    match policy w (trace r ++ [policy_call payload]) with
    | Responded result_ =>
        match result_ with
        | JDict kvs =>
            if is_None (carried_index kvs)
            then (Ok (JInt 0),
                  {| trace := trace r ++ [policy_call payload];
                     printed := printed r ++ [msg_fallback_none];
                     keyboard := keyboard r |})
            else (Ok (carried_index kvs), after (policy_call payload) r)
        | JInt _ | JBool _ => (Ok result_, after (policy_call payload) r)
        | _ =>
            match int w result_ with
            | Ok n => (Ok n, after (policy_call payload) r)
            | Raise e =>
                if is_ValueError e || is_TypeError e
                then (Ok (JInt 0),
                      {| trace := trace r ++ [policy_call payload];
                         printed := printed r ++ [msg_fallback_parse];
                         keyboard := keyboard r |})
                else (Raise e, after (policy_call payload) r)
            end
        end
    | Failed e =>
        if handled e
        then (Ok (JInt 0),
              {| trace := trace r ++ [policy_call payload];
                 printed :=
                   printed r ++
                   [ if is_ValueError e || is_TypeError e then msg_fallback_parse
                     else if is_SocketTimeout e then msg_fallback_timeout
                     else msg_fallback_failed ];
                 keyboard := keyboard r |})
        else (Raise e, after (policy_call payload) r)
    end.
Proof.
  intros w game_state payload r Hp.
  unfold policy_request, mbind, lift. rewrite Hp.
  unfold try_except, emit, print, write, read, ret, mbind, lift, after, handled. simpl.
  destruct (policy w (trace r ++ [policy_call payload])) as [v|e]; simpl.
  - destruct v as [|b|n|q|s|xs|kvs]; simpl; try reflexivity.
    + destruct (int_of_str w s); reflexivity.
    + unfold carried_index.
      destruct (lookup "action_index" kvs) as [v|]; simpl.
      * destruct (is_None v); reflexivity.
      * destruct (lookup "index" kvs) as [v|]; simpl.
        -- destruct (is_None v); reflexivity.
        -- reflexivity.
  - destruct e; reflexivity.
Qed.

Lemma int_raises_handled :
  forall w v e, int w v = Raise e -> is_ValueError e || is_TypeError e = true.
Proof.
  intros w v e. destruct v as [|b|n|q|s|xs|kvs]; simpl; try discriminate;
    try (intros H; injection H as <-; reflexivity).
  destruct (int_of_str w s); [discriminate|].
  intros H; injection H as <-; reflexivity.
Qed.




(** *** One pass of the loop *)

Lemma get_turn_of :
  forall st, isinstance_dict st = true -> get st "turn" (JInt 0) = Ok (turn_of st).
Proof.
  intros st H. destruct st; try discriminate. reflexivity.
Qed.

Lemma get_phase_of :
  forall st, isinstance_dict st = true -> get st "phase" (JStr "?") = Ok (phase_of st).
Proof.
  intros st H. destruct st; try discriminate. reflexivity.
Qed.

(** The pass up to the point where the action list has been counted. *)
Lemma iteration_prefix :
  forall w l r actions n,
    isinstance_dict (state l) = true ->
    offered (state l) = Ok actions ->
    len actions = Ok n ->
    iteration w l r =
    (if n =? 0 then
       (Ok (break {| state := state l; turn := turn_after l; step := step l + 1;
                     game_log := log_after l ++ [no_actions] |}),
        say msg_no_actions (with_banner l r))
     else
       match decide w (state l) (with_banner l r) with
       | (Raise e, r1) => (Raise e, r1)
       | (Ok chosen, r1) =>
           mbind (lift (lt chosen (JInt 0))) (fun negative =>
           mbind (if negative then ret true else lift (ge chosen (JInt n)))
             (fun invalid =>
           mbind (if invalid then print (msg_invalid_index chosen) else ret tt)
             (fun _ =>
           let action_index := if invalid then JInt 0 else chosen in
           mbind (lift (getitem actions action_index)) (fun chosen_action =>
           mbind (lift (get chosen_action "type" (JStr "unknown")))
             (fun action_type =>
           mbind (lift (get chosen_action "card_name" (JStr "")))
             (fun card_name =>
           let log_entry :=
             if eqb action_type (JStr "pass_priority")
             then pass_line (phase_of (state l))
             else action_line (phase_of (state l)) action_type card_name in
           mbind (print (msg_entry log_entry)) (fun _ =>
           mbind (forge_request w "/api/step" (play_action action_index))
             (fun state_ =>
           if negb (truthy state_) then
             mbind (print msg_failed_after_action) (fun _ =>
             ret (break {| state := state_; turn := turn_after l;
                           step := step l + 1;
                           game_log := log_after l ++ [log_entry; step_failed] |}))
           else
             ret (next {| state := state_; turn := turn_after l;
                          step := step l + 1;
                          game_log := log_after l ++ [log_entry] |}))))))))) r1
       end)%list.
Proof.
  intros w l r actions n D O L.
  unfold iteration.
  unfold mbind at 1. unfold lift at 1. rewrite (get_turn_of _ D).
  unfold mbind at 1. unfold lift at 1. rewrite (get_phase_of _ D).
  unfold offered in O.
  destruct (get (state l) "possible_actions" (JDict [])) as [possible|] eqn:P;
    simpl in O; [|discriminate].
  unfold decide, with_banner, turn_after, log_after, new_turn.
  destruct (negb (eqb (turn_of (state l)) (turn l))) eqn:NT;
    unfold mbind, lift, ret, print, write, say; simpl;
    rewrite O, L; destruct (n =? 0); try reflexivity;
    destruct (LOCAL_DEBUG_MODE w); reflexivity.
Qed.

Lemma forge_request_step :
  forall w action_index r,
    let r1 := after (forge_call "/api/step" (play_action action_index)) r in
    forge_request w "/api/step" (play_action action_index) r =
    match forge w (trace r1) with
    | Responded v => (Ok v, r1)
    | Failed e =>
        if is_URLError e then (Ok JNull, say msg_forge_failed r1)
        else (Raise e, r1)
    end.
Proof.
  intros w action_index r r1.
  unfold forge_request, sendable, mbind, emit, try_except, write, read, lift,
    print, ret.
  subst r1. unfold after, say. simpl.
  destruct (forge w _) as [v|e]; simpl; [reflexivity|].
  destruct (is_URLError e); reflexivity.
Qed.

(** A pass that finds no action leaves the loop without asking the
    decision source and without a request to the engine. *)
Lemma iteration_no_actions :
  forall w l r actions,
    isinstance_dict (state l) = true ->
    offered (state l) = Ok actions ->
    len actions = Ok 0 ->
    iteration w l r =
    (Ok (break {| state := state l; turn := turn_after l; step := step l + 1;
                  game_log := log_after l ++ [no_actions] |}),
     say msg_no_actions (with_banner l r)).
Proof.
  intros w l r actions D O L.
  rewrite (iteration_prefix w l r actions 0 D O L). reflexivity.
Qed.

(** A pass in which the decision source returns a number outside
    [0, count): index 0 is validated in its place, the first action is
    logged and [play_action 0] is what is posted. *)
Lemma iteration_invalid_index :
  forall w l r first rest chosen q r1,
    isinstance_dict (state l) = true ->
    offered (state l) = Ok (JList (first :: rest)) ->
    isinstance_dict first = true ->
    decide w (state l) (with_banner l r) = (Ok chosen, r1) ->
    as_num chosen = Some q ->
    (q < 0 \/ inject_Z (Z.of_nat (List.length (first :: rest))) <= q)%Q ->
    let entry := entry_for (phase_of (state l)) first in
    let r2 := after (forge_call "/api/step" (play_action (JInt 0)))
                (say (msg_entry entry) (say (msg_invalid_index chosen) r1)) in
    iteration w l r =
    match forge w (trace r2) with
    | Responded state_ =>
        if truthy state_ then
          (Ok (next {| state := state_; turn := turn_after l; step := step l + 1;
                       game_log := log_after l ++ [entry] |}), r2)
        else
          (Ok (break {| state := state_; turn := turn_after l; step := step l + 1;
                        game_log := log_after l ++ [entry; step_failed] |}),
           say msg_failed_after_action r2)
    | Failed e =>
        if is_URLError e then
          (Ok (break {| state := JNull; turn := turn_after l; step := step l + 1;
                        game_log := log_after l ++ [entry; step_failed] |}),
           say msg_failed_after_action (say msg_forge_failed r2))
        else (Raise e, r2)
    end%list.
Proof.
  intros w l r first rest chosen q r1 D O F C N Q entry r2.
  assert (L : len (JList (first :: rest))
              = Ok (Z.of_nat (List.length (first :: rest)))) by reflexivity.
  rewrite (iteration_prefix w l r _ _ D O L).
  replace (Z.of_nat (List.length (first :: rest)) =? 0) with false
    by (symmetry; apply Z.eqb_neq; simpl List.length; lia).
  rewrite C.
  assert (V : mbind (lift (lt chosen (JInt 0))) (fun negative =>
              if negative then ret true
              else lift (ge chosen (JInt (Z.of_nat (List.length (first :: rest))))))
              r1 = (Ok true, r1)).
  { unfold mbind, lift, lt, ge, le, ret. rewrite N. cbn [as_num].
    change (inject_Z 0) with 0%Q.
    unfold Qlt_bool. destruct (Qle_bool 0 q) eqn:E0; cbn [negb]; [|reflexivity].
    destruct Q as [Q|Q].
    - apply Qle_bool_iff in E0. exfalso. lra.
    - apply Qle_bool_iff in Q. rewrite Q. reflexivity. }
  unfold mbind at 1 2. unfold mbind in V.
  destruct (lift (lt chosen (JInt 0)) r1) as [[negative|e] r1'] eqn:EL.
  2:{ discriminate V. }
  unfold lift in EL. injection EL as EL <-.
  rewrite V.
  destruct first as [| | | | | |fkvs]; try discriminate F.
  unfold mbind, print, write, lift, ret. cbn [fst snd].
  rewrite getitem_first.
  cbn [get].
  rewrite (forge_request_step w (JInt 0)).
  fold entry. unfold entry, entry_for. cbn [get].
  set (e1 := if eqb _ _ then _ else _).
  unfold after, say in *. cbn [trace printed keyboard] in *.
  subst r2. cbn [trace].
  destruct (forge w _) as [state_|e]; [|destruct (is_URLError e)];
    try reflexivity.
  destruct (truthy state_); reflexivity.
Qed.

(** *** The step counter *)

(** Every pass that comes back has counted one step. *)
Lemma iteration_counts :
  forall w l r c r',
    iteration w l r = (Ok c, r') -> step (locals_of c) = step l + 1.
Proof.
  intros w l r c r'.
  unfold iteration, mbind, lift, ret, print, write.
  repeat case_match; try discriminate;
    intros H; injection H as <- _; reflexivity.
Qed.

Lemma loop_test_true :
  forall l, loop_test l = Ok true -> step l < max_steps.
Proof.
  intros l. unfold loop_test.
  destruct (get (state l) "game_over" JNull) as [over|]; simpl; [|discriminate].
  intros H. injection H as H. apply andb_true_iff in H.
  apply Z.ltb_lt. exact (proj2 H).
Qed.

(** With more passes allowed than there are steps left under the
    ceiling, the loop is left, in the same way whatever the allowance, and
    the counter has not gone past the ceiling. *)
Lemma while_leaves :
  forall w m l r,
    (Z.to_nat (max_steps - step l) <= m)%nat ->
    exists out r',
      (forall fuel, (m < fuel)%nat -> while w fuel l r = (out, r'))
      /\ out <> Ok None
      /\ (forall l', out = Ok (Some l') -> step l' <= Z.max (step l) max_steps).
Proof.
  intros w m. induction m as [|m IH]; intros l r Hm.
  - (* no step left: the test of the loop fails *)
    destruct (loop_test l) as [[|]|e] eqn:T.
    + apply loop_test_true in T. lia.
    + exists (Ok (Some l)), r. split; [|split].
      * intros [|fuel] Hf; [lia|]. simpl. unfold mbind, lift, ret. rewrite T.
        reflexivity.
      * discriminate.
      * intros l' H. injection H as <-. lia.
    + exists (Raise e), r. split; [|split].
      * intros [|fuel] Hf; [lia|]. simpl. unfold mbind, lift. rewrite T.
        reflexivity.
      * discriminate.
      * discriminate.
  - destruct (loop_test l) as [[|]|e] eqn:T.
    + pose proof (loop_test_true _ T) as Hlt.
      destruct (iteration w l r) as [[[l1|l1]|e] r1] eqn:I.
      * (* next: one step fewer is left *)
        pose proof (iteration_counts _ _ _ _ _ I) as Hc. simpl in Hc.
        destruct (IH l1 r1) as [out [r' [Hw [Hn Hb]]]]; [lia|].
        exists out, r'. split; [|split].
        -- intros [|fuel] Hf; [lia|]. simpl. unfold mbind, lift. rewrite T, I.
           apply Hw. lia.
        -- exact Hn.
        -- intros l' H. specialize (Hb l' H). lia.
      * (* break *)
        pose proof (iteration_counts _ _ _ _ _ I) as Hc. simpl in Hc.
        exists (Ok (Some l1)), r1. split; [|split].
        -- intros [|fuel] Hf; [lia|]. simpl. unfold mbind, lift, ret.
           rewrite T, I. reflexivity.
        -- discriminate.
        -- intros l' H. injection H as <-. lia.
      * exists (Raise e), r1. split; [|split].
        -- intros [|fuel] Hf; [lia|]. simpl. unfold mbind, lift. rewrite T, I.
           reflexivity.
        -- discriminate.
        -- discriminate.
    + exists (Ok (Some l)), r. split; [|split].
      * intros [|fuel] Hf; [lia|]. simpl. unfold mbind, lift, ret. rewrite T.
        reflexivity.
      * discriminate.
      * intros l' H. injection H as <-. lia.
    + exists (Raise e), r. split; [|split].
      * intros [|fuel] Hf; [lia|]. simpl. unfold mbind, lift. rewrite T.
        reflexivity.
      * discriminate.
      * discriminate.
Qed.

Lemma epilogue_not_none :
  forall l r x r', mbind (epilogue l) (fun final => ret (Some final)) r = (x, r') ->
    x <> Ok None.
Proof.
  intros l r x r'. unfold mbind, ret.
  destruct (epilogue l r) as [[final|e] r1]; intros H; injection H as <- _;
    discriminate.
Qed.

(** [run_game] comes to an end: with any allowance above the ceiling of
    500 it ends in the same way, and never for want of passes. *)
Lemma run_game_ends :
  forall w scenario r,
    exists out r',
      (forall fuel, (Z.to_nat max_steps < fuel)%nat ->
         run_game w fuel scenario r = (out, r'))
      /\ out <> Ok None.
Proof.
  intros w scenario r.
  unfold run_game.
  set (reset_options := if truthy scenario then scenario else JDict []).
  unfold mbind at 1. unfold print at 1, write.
  set (r0 := {| trace := trace r; printed := printed r ++ [msg_starting];
                keyboard := keyboard r |}).
  unfold mbind at 1.
  destruct (forge_request w "/api/reset" (value reset_options) r0)
    as [[state_|e] r1] eqn:F.
  - destruct (negb (truthy state_)).
    + eexists. eexists. split; [intros fuel _; reflexivity|].
      unfold mbind, print, write, ret. simpl. discriminate.
    + set (l0 := {| state := state_; turn := JInt 0; step := 0; game_log := [] |}).
      destruct (while_leaves w (Z.to_nat max_steps) l0 r1) as [out [r' [Hw [Hn _]]]].
      { simpl. lia. }
      destruct out as [[l'|]|e].
      * destruct (mbind (epilogue l') (fun final => ret (Some final)) r')
          as [x r''] eqn:E.
        exists x, r''. split.
        -- intros fuel Hf. unfold mbind at 1. rewrite (Hw fuel Hf). exact E.
        -- exact (epilogue_not_none _ _ _ _ E).
      * exfalso. apply Hn. reflexivity.
      * exists (Raise e), r'. split; [|discriminate].
        intros fuel Hf. unfold mbind at 1. rewrite (Hw fuel Hf). reflexivity.
  - exists (Raise e), r1. split; [|discriminate].
    intros fuel _. reflexivity.
Qed.

(** A state that offers an action list is a dict, and a decision source
    that returns has found every offered action to be a dict. *)
Lemma offered_dict :
  forall st actions, offered st = Ok actions -> isinstance_dict st = true.
Proof.
  intros st actions. unfold offered.
  destruct st; simpl; try discriminate. reflexivity.
Qed.

Lemma decide_first_dict :
  forall w st r chosen r1 first rest,
    decide w st r = (Ok chosen, r1) ->
    offered st = Ok (JList (first :: rest)) ->
    isinstance_dict first = true.
Proof.
  intros w st r chosen r1 first rest H O.
  unfold offered in O.
  destruct (get st "possible_actions" (JDict [])) as [possible|] eqn:P;
    simpl in O; [|discriminate].
  unfold decide in H. destruct (LOCAL_DEBUG_MODE w).
  - unfold local_debug_policy, mbind, lift in H.
    destruct (debug_actions w st) as [acts|] eqn:A; [|discriminate].
    unfold debug_actions in A.
    destruct (get st "hand" (JList [])) as [raw|]; simpl in A; [|discriminate].
    destruct (iter raw) as [cards|]; simpl in A; [|discriminate].
    destruct (map_result (hand_entry w) cards); simpl in A; [|discriminate].
    rewrite P in A. simpl in A. rewrite O in A. simpl in A.
    destruct first; try reflexivity; simpl in A; discriminate A.
  - unfold policy_request, mbind, lift in H.
    destruct (structured_payload w st) as [payload|] eqn:A; [|discriminate].
    unfold structured_payload in A.
    destruct (get st "hand" (JList [])) as [raw|]; simpl in A; [|discriminate].
    destruct (iter raw) as [cards|]; simpl in A; [|discriminate].
    destruct (map_result (hand_entry w) cards); simpl in A; [|discriminate].
    repeat match type of A with
           | context [get st ?k ?d] =>
               let E := fresh "E" in
               destruct (get st k d) eqn:E; simpl in A; [|discriminate]
           end.
    injection P as <-. rewrite O in A. simpl in A.
    destruct first; try reflexivity; simpl in A; discriminate A.
Qed.

Lemma while_counter :
  forall w fuel l r l' r',
    while w fuel l r = (Ok (Some l'), r') ->
    step l' <= Z.max (step l) max_steps.
Proof.
  intros w fuel. induction fuel as [|fuel IH]; intros l r l' r'; simpl.
  - unfold ret. discriminate.
  - unfold mbind, lift, ret.
    destruct (loop_test l) as [[|]|e] eqn:T; try discriminate.
    + pose proof (loop_test_true _ T) as Hlt.
      destruct (iteration w l r) as [[[l1|l1]|e] r1] eqn:I; try discriminate.
      * pose proof (iteration_counts _ _ _ _ _ I) as Hc. simpl in Hc.
        intros H. specialize (IH _ _ _ _ H). lia.
      * pose proof (iteration_counts _ _ _ _ _ I) as Hc. simpl in Hc.
        intros H. injection H as <- _. lia.
    + intros H. injection H as <- _. lia.
Qed.

(** While the engine does not report the end of the game, the test of
    the loop reads a falsy [game_over]. *)
Lemma loop_test_not_over :
  forall l, loop_test l = Ok true ->
    exists over, get (state l) "game_over" JNull = Ok over /\ truthy over = false.
Proof.
  intros l. unfold loop_test.
  destruct (get (state l) "game_over" JNull) as [over|]; simpl; [|discriminate].
  intros H. injection H as H. apply andb_true_iff in H. destruct H as [H _].
  exists over. split; [reflexivity|]. apply negb_true_iff. exact H.
Qed.

(** What follows the loop when the game is not reported over: no report
    of a game over; the log, which is not empty, is saved. *)
Lemma epilogue_not_over :
  forall l r over first rest,
    get (state l) "game_over" JNull = Ok over -> truthy over = false ->
    game_log l = first :: rest ->
    epilogue l r =
    (Ok (state l),
     {| trace := trace r;
        printed := (printed r
                    ++ (if max_steps <=? step l then [msg_safety_limit] else []))
                    ++ [msg_log_saved (game_log l)];
        keyboard := keyboard r |}).
Proof.
  intros l r over first rest G T L.
  unfold epilogue, mbind, lift, ret, print, write.
  rewrite G, T, L.
  destruct (max_steps <=? step l); destruct (truthy (state l)); simpl;
    rewrite ?app_nil_r; reflexivity.
Qed.

End LoopFacts.

(** ** The control loop: action indices, the step ceiling, empty action
    lists *)

Module ControlLoop.
Import Py PyFacts Worlds.

(** C3, as the source has it.  In [run_game], when the decision source
    returns a number that is negative or not below the number of available
    actions, index 0 is taken in its place, [play_action 0] is what is
    posted to the engine, and when the engine answers with a state the
    loop goes on to its next pass.  In [ForgeEnv.step], an index that is
    not below the number of available actions makes the instance write
    [pass_priority] to the engine, and no [play_action]. *)
Theorem out_of_range_index :
  (forall w l r first rest chosen q r1 state_,
     offered (AgentLoop.state l) = Ok (JList (first :: rest)) ->
     decide w (AgentLoop.state l) (with_banner l r) = (Ok chosen, r1) ->
     as_num chosen = Some q ->
     (q < 0 \/ inject_Z (Z.of_nat (List.length (first :: rest))) <= q)%Q ->
     let entry := entry_for (phase_of (AgentLoop.state l)) first in
     let r2 := after (AgentLoop.forge_call "/api/step" (AgentLoop.play_action (JInt 0)))
                 (say (AgentLoop.msg_entry entry)
                    (say (AgentLoop.msg_invalid_index chosen) r1)) in
     AgentLoop.forge w (AgentLoop.trace r2) = AgentLoop.Responded state_ ->
     truthy state_ = true ->
     AgentLoop.iteration w l r
     = (Ok (AgentLoop.next
              {| AgentLoop.state := state_; AgentLoop.turn := turn_after l;
                 AgentLoop.step := AgentLoop.step l + 1;
                 AgentLoop.game_log := (log_after l ++ [entry])%list |}), r2))
  /\ (forall action self p n q,
        ForgeEnv.process self = Some p ->
        len (ForgeEnv.current_actions self) = Ok n ->
        as_num action = Some q ->
        (inject_Z n <= q)%Q ->
        exists suffix,
          Scenarios.sent (snd (ForgeEnv.step action self))
          = (ForgeEnv.stdin p ++ ForgeEnv.pass_priority :: suffix)%list
          /\ forallb Scenarios.is_query suffix = true).
Proof.
  split.
  - intros w l r first rest chosen q r1 state_ O C N Q entry r2 E T.
    pose proof (LoopFacts.offered_dict _ _ O) as D.
    pose proof (LoopFacts.decide_first_dict _ _ _ _ _ _ _ C O) as F.
    rewrite (LoopFacts.iteration_invalid_index w l r first rest chosen q r1 D O F C N Q).
    fold entry. fold r2. rewrite E, T. reflexivity.
  - intros action self p n q Hp Hn Na Q.
    assert (L : lt action (JInt n) = Ok false).
    { unfold lt. rewrite Na. cbn [as_num]. unfold Qlt_bool.
      apply Qle_bool_iff in Q. rewrite Q. reflexivity. }
    exact (EnvFacts.step_sent action self p n false Hp Hn L).
Qed.

Lemma out_of_range_index_witness :
  let st := server_state 1 false two_actions in
  let w := constant_world (AgentLoop.Responded st) (AgentLoop.Responded (JInt 7)) in
  (exists l' r',
     AgentLoop.iteration w (entering st) fresh_run = (Ok (AgentLoop.next l'), r')
     /\ last (AgentLoop.trace r') AgentLoop.prompt
        = AgentLoop.forge_call "/api/step" (AgentLoop.play_action (JInt 0)))
  /\ exists suffix,
       Scenarios.sent
         (snd (ForgeEnv.step (JInt 5)
                 (Scenarios.running
                    (Scenarios.stuck Scenarios.stuck_state Scenarios.some_actions)
                    Scenarios.stuck_state Scenarios.some_actions 100)))
       = ForgeEnv.pass_priority :: suffix.
Proof.
  intros st w. split.
  - eassert (C : decide w (AgentLoop.state (entering st))
                   (with_banner (entering st) fresh_run) = (Ok (JInt 7), _))
      by (vm_compute; reflexivity).
    eexists. eexists. split.
    + apply (proj1 out_of_range_index w (entering st) fresh_run
               (JDict [("type", JStr "play_land"); ("card_name", JStr "Forest")])
               [JDict [("type", JStr "pass_priority")]]
               (JInt 7) 7%Q _ st eq_refl C eq_refl).
      * right. vm_compute. discriminate.
      * reflexivity.
      * reflexivity.
    + reflexivity.
  - destruct (proj2 out_of_range_index (JInt 5)
                (Scenarios.running
                   (Scenarios.stuck Scenarios.stuck_state Scenarios.some_actions)
                   Scenarios.stuck_state Scenarios.some_actions 100)
                _ 2 5%Q eq_refl eq_refl eq_refl)
      as [suffix [E _]].
    + vm_compute. discriminate.
    + exists suffix. exact E.
Defined.

(** C3, as the spec states it, fails in [ForgeEnv.step]: with two
    actions available, the index 5 is not replaced by 0; what is written
    to the engine is [pass_priority], and the step returns normally. *)
Lemma out_of_range_passes_priority :
  let out := ForgeEnv.step (JInt 5)
               (Scenarios.running
                  (Scenarios.stuck Scenarios.stuck_state Scenarios.some_actions)
                  Scenarios.stuck_state Scenarios.some_actions 100) in
  (exists r, fst out = Ok r)
  /\ Scenarios.sent (snd out)
     = [ForgeEnv.pass_priority; ForgeEnv.get_state; ForgeEnv.possible_actions]
  /\ ~ In (ForgeEnv.play_action (JInt 0)) (Scenarios.sent (snd out)).
Proof.
  intros out. split; [|split].
  - eexists. vm_compute. reflexivity.
  - vm_compute. reflexivity.
  - vm_compute. intros [H|[H|[H|[]]]]; discriminate H.
Qed.

(** C9, as the source has it.  In [run_game], when the state offers
    no action while the game is not reported over, the pass leaves the
    loop: neither the decision source nor the engine is contacted, the log
    gets the line "No actions available!", and what follows the loop
    prints no game-over report and saves the log.  [ForgeEnv.step] does
    not end the episode on an empty action list: for any index from 0 up
    it writes [pass_priority] to the engine and no [play_action]. *)
Theorem empty_action_list :
  (forall w fuel l r actions,
     AgentLoop.loop_test l = Ok true ->
     offered (AgentLoop.state l) = Ok actions ->
     len actions = Ok 0 ->
     let l' := {| AgentLoop.state := AgentLoop.state l;
                  AgentLoop.turn := turn_after l;
                  AgentLoop.step := AgentLoop.step l + 1;
                  AgentLoop.game_log := (log_after l ++ [AgentLoop.no_actions])%list |} in
     let r' := say AgentLoop.msg_no_actions (with_banner l r) in
     AgentLoop.while w (S fuel) l r = (Ok (Some l'), r')
     /\ AgentLoop.trace r' = AgentLoop.trace r
     /\ AgentLoop.epilogue l' r'
        = (Ok (AgentLoop.state l),
           {| AgentLoop.trace := AgentLoop.trace r;
              AgentLoop.printed :=
                ((AgentLoop.printed r'
                  ++ (if AgentLoop.max_steps <=? AgentLoop.step l + 1
                      then [AgentLoop.msg_safety_limit] else []))
                 ++ [AgentLoop.msg_log_saved (AgentLoop.game_log l')])%list;
              AgentLoop.keyboard := AgentLoop.keyboard r |}))
  /\ (forall action self p q,
        ForgeEnv.process self = Some p ->
        ForgeEnv.current_actions self = JList [] ->
        as_num action = Some q ->
        (0 <= q)%Q ->
        exists suffix,
          Scenarios.sent (snd (ForgeEnv.step action self))
          = (ForgeEnv.stdin p ++ ForgeEnv.pass_priority :: suffix)%list
          /\ forallb Scenarios.is_query suffix = true).
Proof.
  split.
  - intros w fuel l r actions T O L l' r'.
    pose proof (LoopFacts.offered_dict _ _ O) as D.
    pose proof (LoopFacts.iteration_no_actions w l r actions D O L) as I.
    fold l' in I. fold r' in I.
    assert (Tr : AgentLoop.trace r' = AgentLoop.trace r).
    { subst r'. unfold say, with_banner. destruct (new_turn l); reflexivity. }
    assert (Kb : AgentLoop.keyboard r' = AgentLoop.keyboard r).
    { subst r'. unfold say, with_banner. destruct (new_turn l); reflexivity. }
    split; [|split].
    + simpl. unfold mbind, lift, ret. rewrite T, I. reflexivity.
    + exact Tr.
    + destruct (LoopFacts.loop_test_not_over l T) as [over [G F]].
      assert (NE : exists first rest, AgentLoop.game_log l' = first :: rest).
      { subst l'. simpl. destruct (log_after l) as [|x xs]; simpl; eauto. }
      destruct NE as [first [rest E]].
      rewrite (LoopFacts.epilogue_not_over l' r' over first rest G F E).
      rewrite Tr, Kb. reflexivity.
  - intros action self p q Hp Hc Na Q.
    assert (Hn : len (ForgeEnv.current_actions self) = Ok 0)
      by (rewrite Hc; reflexivity).
    assert (L : lt action (JInt 0) = Ok false).
    { unfold lt. rewrite Na. cbn [as_num]. unfold Qlt_bool.
      change (inject_Z 0) with 0%Q.
      apply Qle_bool_iff in Q. rewrite Q. reflexivity. }
    exact (EnvFacts.step_sent action self p 0 false Hp Hn L).
Qed.

Lemma empty_action_list_witness :
  let st := server_state 3 false (JList []) in
  let w := constant_world (AgentLoop.Responded st) (AgentLoop.Responded (JInt 0)) in
  (exists l' r',
     AgentLoop.while w 501 (entering st) fresh_run = (Ok (Some l'), r')
     /\ AgentLoop.game_log l'
        = [AgentLoop.turn_header (JInt 3); AgentLoop.no_actions]
     /\ AgentLoop.trace r' = [])
  /\ exists suffix,
       Scenarios.sent
         (snd (ForgeEnv.step (JInt 0)
                 (Scenarios.running
                    (Scenarios.stuck Scenarios.stuck_state (JList []))
                    Scenarios.stuck_state (JList []) 100)))
       = ForgeEnv.pass_priority :: suffix.
Proof.
  intros st w. split.
  - destruct (proj1 empty_action_list w 500%nat (entering st) fresh_run (JList [])
                eq_refl eq_refl eq_refl) as [W [T _]].
    eexists. eexists. split; [exact W|]. split; [reflexivity|exact T].
  - destruct (proj2 empty_action_list (JInt 0)
                (Scenarios.running
                   (Scenarios.stuck Scenarios.stuck_state (JList []))
                   Scenarios.stuck_state (JList []) 100)
                _ 0%Q eq_refl eq_refl eq_refl (Qle_refl 0))
      as [suffix [E _]].
    exists suffix. exact E.
Defined.

(** C9, as the spec states it, fails in [ForgeEnv.step]: with no action
    available and the game not over, the step writes [pass_priority],
    returns with both flags false, and the episode goes on. *)
Lemma empty_actions_episode_goes_on :
  let out := ForgeEnv.step (JInt 0)
               (Scenarios.running
                  (Scenarios.stuck Scenarios.stuck_state (JList []))
                  Scenarios.stuck_state (JList []) 100) in
  (exists r,
     fst out = Ok r
     /\ ForgeEnv.actions (ForgeEnv.info r) = JList []
     /\ Scenarios.reports_game_over (ForgeEnv.state (ForgeEnv.info r)) = false
     /\ ForgeEnv.terminated r = false
     /\ ForgeEnv.truncated r = false)
  /\ Scenarios.sent (snd out)
     = [ForgeEnv.pass_priority; ForgeEnv.get_state; ForgeEnv.possible_actions].
Proof.
  intros out. split.
  - eexists. split; [vm_compute; reflexivity|]. repeat split; reflexivity.
  - vm_compute. reflexivity.
Qed.

(** C4, as the source has it.  [run_game] comes to an end against every
    engine and every decision source that answers: with any allowance of
    passes above the ceiling of 500 it ends in the same way, never for
    want of passes, and the step counter with which the loop is left is at
    most 500.  [ForgeEnv.step] has no step counter: its truncated flag is
    the comparison of the turn number in the state the engine last
    returned with [max_turns]. *)
Theorem step_ceiling :
  (forall w scenario r,
     exists out r',
       (forall fuel, (Z.to_nat AgentLoop.max_steps < fuel)%nat ->
          AgentLoop.run_game w fuel scenario r = (out, r'))
       /\ out <> Ok None)
  /\ (forall w fuel st r l' r',
        AgentLoop.while w fuel (entering st) r = (Ok (Some l'), r') ->
        AgentLoop.step l' <= AgentLoop.max_steps)
  /\ AgentLoop.max_steps = 500
  /\ (forall action self res self',
        ForgeEnv.step action self = (Ok res, self') ->
        ge (ForgeEnv.episode_turns self') (ForgeEnv.max_turns self)
        = Ok (ForgeEnv.truncated res)
        /\ (truthy (ForgeEnv.state (ForgeEnv.info res)) = true ->
            get (ForgeEnv.state (ForgeEnv.info res)) "turn" (JInt 0)
            = Ok (ForgeEnv.episode_turns self'))).
Proof.
  split; [|split; [|split]].
  - exact LoopFacts.run_game_ends.
  - intros w fuel st r l' r' H.
    pose proof (LoopFacts.while_counter w fuel (entering st) r l' r' H) as B.
    simpl in B. unfold AgentLoop.max_steps in *. lia.
  - reflexivity.
  - exact EnvFacts.truncated_by_turn.
Qed.

Lemma step_ceiling_witness :
  let st := server_state 1 false two_actions in
  let w := constant_world (AgentLoop.Responded st) (AgentLoop.Responded (JInt 0)) in
  (forall fuel, (500 < fuel)%nat ->
     AgentLoop.run_game w fuel JNull fresh_run
     = AgentLoop.run_game w 501 JNull fresh_run)
  /\ fst (AgentLoop.run_game w 501 JNull fresh_run) = Ok (Some st)
  /\ step_calls (AgentLoop.trace (snd (AgentLoop.run_game w 501 JNull fresh_run)))
     = 500%nat
  /\ nth_error (AgentLoop.printed (snd (AgentLoop.run_game w 501 JNull fresh_run)))
       502
     = Some AgentLoop.msg_safety_limit
  /\ ge (ForgeEnv.episode_turns
           (snd (ForgeEnv.step (JInt 0) (Scenarios.stuck_env []))))
        (JInt 100)
     = Ok false.
Proof.
  intros st w.
  destruct step_ceiling as [Ends [_ [_ Trunc]]].
  split; [|split; [|split; [|split]]].
  - intros fuel Hf.
    destruct (Ends w JNull fresh_run) as [out [r' [H _]]].
    rewrite (H fuel), (H 501%nat); [reflexivity| |];
      unfold AgentLoop.max_steps; simpl; lia.
  - vm_compute. reflexivity.
  - vm_compute. reflexivity.
  - vm_compute. reflexivity.
  - destruct (EnvFacts.stuck_step []) as [res [E [_ U]]].
    destruct (Trunc _ _ _ _ E) as [G _].
    rewrite E. cbn [snd]. etransitivity; [exact G|]. rewrite U. reflexivity.
Defined.

(** C4, as the spec states it, fails in [ForgeEnv]: against an engine
    that returns the same state, at turn 1 with both players at 20,
    whatever it is sent, with [max_turns] 100, the 600th step still
    returns with both flags false, and so does every step. *)
Lemma truncation_never_comes :
  let self := Scenarios.running
                (Scenarios.stuck Scenarios.stuck_state Scenarios.some_actions)
                Scenarios.stuck_state Scenarios.some_actions 100 in
  (exists r,
     fst (Scenarios.steps 600 (JInt 0) self) = Ok (Some r)
     /\ ForgeEnv.terminated r = false /\ ForgeEnv.truncated r = false)
  /\ ~ (exists n r,
          fst (Scenarios.steps n (JInt 0) self) = Ok (Some r)
          /\ (ForgeEnv.terminated r = true \/ ForgeEnv.truncated r = true)).
Proof.
  intros self.
  change self with (Scenarios.stuck_env []).
  split.
  - destruct (EnvFacts.stuck_steps 599 []) as [r [written' [E [T U]]]].
    exists r. rewrite E. split; [reflexivity|]. split; assumption.
  - intros [n [r [E F]]]. destruct n as [|n].
    + discriminate E.
    + destruct (EnvFacts.stuck_steps n []) as [r0 [written' [E0 [T U]]]].
      rewrite E0 in E. injection E as <-.
      destruct F as [F|F]; congruence.
Qed.

End ControlLoop.

(** ** Further properties of [ForgeEnv] *)

Module EnvMore.
Import Py PyFacts ForgeEnv Scenarios Coverage.
Local Open Scope py_scope.

(** *** The constructor and [close] *)







Lemma close_result :
  forall self,
    exists self',
      close self = (Ok tt, self')
      /\ process self' = None
      /\ current_state self' = current_state self
      /\ current_actions self' = current_actions self
      /\ episode_turns self' = episode_turns self
      /\ max_turns self' = max_turns self.
Proof.
  intros self. unfold close, _close_process, mbind, read, ret, _send_command, write.
  destruct (process self) as [p|] eqn:P; simpl.
  - rewrite P. eexists. split; [reflexivity|]. repeat split; reflexivity.
  - exists self. repeat split; try reflexivity. exact P.
Qed.

Lemma close_without_process :
  forall self, process self = None -> close self = (Ok tt, self).
Proof.
  intros self P. unfold close, _close_process, mbind, read, ret. rewrite P.
  reflexivity.
Qed.

(** X2.  [close] never raises and leaves the instance without a
    process, everything else as it was; closing again changes nothing,
    and a [step] after it raises RuntimeError. *)
Theorem close_releases :
  forall self,
    exists self',
      close self = (Ok tt, self')
      /\ process self' = None
      /\ current_state self' = current_state self
      /\ current_actions self' = current_actions self
      /\ episode_turns self' = episode_turns self
      /\ max_turns self' = max_turns self
      /\ close self' = (Ok tt, self')
      /\ forall action, step action self' = (Raise RuntimeError, self').
Proof.
  intros self.
  destruct (close_result self) as [self' [C [P [S [A [T M]]]]]].
  exists self'. repeat split; try assumption.
  - apply close_without_process. exact P.
  - intros action. unfold step, mbind, read, raise. rewrite P. reflexivity.
Qed.

(** *** What [step] writes and returns *)

(** X3.  [step] has no lower bound on the index: for every number below
    the count of available actions, the negative ones included, it writes
    [play_action] with that very index, followed by nothing but the two
    queries of [_update_state]. *)
Theorem step_plays_index :
  forall action self p n q,
    process self = Some p ->
    len (current_actions self) = Ok n ->
    as_num action = Some q ->
    (q < inject_Z n)%Q ->
    exists suffix,
      sent (snd (step action self))
      = (stdin p ++ play_action action :: suffix)%list
      /\ forallb is_query suffix = true.
Proof.
  intros action self p n q Hp Hn Na Q.
  assert (L : lt action (JInt n) = Ok true).
  { unfold lt. rewrite Na. cbn [as_num]. unfold Qlt_bool.
    destruct (Qle_bool (inject_Z n) q) eqn:E; [|reflexivity].
    apply Qle_bool_iff in E. exfalso. lra. }
  exact (EnvFacts.step_sent action self p n true Hp Hn L).
Qed.

Lemma step_plays_index_witness :
  exists suffix,
    sent (snd (step (JInt (-1)) (stuck_env [])))
    = play_action (JInt (-1)) :: suffix.
Proof.
  destruct (step_plays_index (JInt (-1)) (stuck_env []) _ 2 (-1)%Q
              eq_refl eq_refl eq_refl) as [suffix [E _]].
  - vm_compute. reflexivity.
  - exists suffix. exact E.
Defined.

(** X4.  Whenever the state that a [step] has read is empty (the
    response did not parse, or it was an empty object), the step returns
    the default observation, a reward of exactly 0.0 and terminated =
    true. *)
Theorem step_on_empty_state :
  forall action self r self',
    step action self = (Ok r, self') ->
    truthy (state (info r)) = false ->
    observation r = default_observation
    /\ reward r = 0.0%Q
    /\ terminated r = true.
Proof.
  intros action self r self' H T.
  destruct (EnvFacts.step_returns _ _ _ _ H)
    as [n [b [pv [_ [_ [_ [_ [R [Te [_ [O [S _]]]]]]]]]]]].
  rewrite S in T.
  split; [|split].
  - rewrite (EnvFacts.observation_of_falsy_state self' T) in O.
    injection O as <-. reflexivity.
  - unfold _calculate_reward in R. rewrite T in R.
    rewrite orb_true_r in R. injection R as <-. reflexivity.
  - unfold _is_terminated, mbind, read, ret in Te. rewrite T in Te.
    simpl in Te. injection Te as <-. reflexivity.
Qed.

Lemma step_on_empty_state_witness :
  exists r,
    fst (step (JInt 0) (running garbled stuck_state some_actions 100)) = Ok r
    /\ observation r = default_observation
    /\ reward r = 0.0%Q /\ terminated r = true.
Proof.
  eassert (E : step (JInt 0) (running garbled stuck_state some_actions 100)
               = (Ok _, _)) by (vm_compute; reflexivity).
  eexists. split; [rewrite E; reflexivity|].
  exact (step_on_empty_state _ _ _ _ E eq_refl).
Defined.

(** *** [reset] *)

(** Runs the monad of the methods on a record given by its fields. *)
Ltac run_methods :=
  cbv beta iota delta
    [reset _close_process _update_state close
     mbind _send_command _read_response try_except write read lift ret raise
     set_process set_current_state set_current_actions set_episode_turns
     set_game_over
     jar_path java_cmd player1_is_human player2_is_human max_turns render_mode
     process current_state current_actions episode_turns game_over
     args stdin stdout].

Lemma reset_same_config :
  forall engine a b x s',
    same_config a b ->
    reset engine a = (Ok x, s') ->
    reset engine b = (Ok x, s').
Proof.
  intros engine a b x s'.
  destruct a as [jp jc p1 p2 mt rm pa csa caa eta goa].
  destruct b as [jp' jc' p1' p2' mt' rm' pb csb cab etb gob].
  unfold same_config. simpl.
  intros [<- [<- [<- [<- [<- <-]]]]].
  destruct pa as [[aa ia oa]|]; destruct pb as [[ab ib ob]|];
    run_methods;
    repeat (case_match; run_methods);
    intros H; try discriminate H; exact H.
Qed.

Lemma reset_returns :
  forall engine self obs info_ self',
    reset engine self = (Ok (obs, info_), self') ->
    sent self' = [get_state; possible_actions]
    /\ state info_ = current_state self'
    /\ actions info_ = current_actions self'
    /\ _get_observation self' = (Ok obs, self')
    /\ max_turns self' = max_turns self
    /\ get (current_state self') "turn" (JInt 0) = Ok (episode_turns self').
Proof.
  intros engine self obs info_ self'.
  destruct self as [jp jc p1 p2 mt rm pa csa caa eta goa].
  destruct pa as [[aa ia oa]|];
    run_methods;
    repeat (case_match; run_methods);
    intros H; try discriminate H;
    match goal with
    | G : _get_observation _ = _ |- _ =>
        pose proof (EnvFacts.get_observation_reads _ _ _ G) as Same
    end;
    inversion Same; subst; inversion H; subst;
    repeat split; try reflexivity; try assumption.
Qed.

(** X5.  A [reset] that returns has launched a fresh process and asked
    it exactly [get_state] and [possible_actions]; what it returns is the
    observation and the state and actions the instance now holds, the
    turn counter is the turn of that state, and nothing of what the
    instance held before plays a part: an instance built with the same
    arguments gives the same result and ends in the same state. *)
Theorem reset_starts_afresh :
  forall engine self obs info_ self',
    reset engine self = (Ok (obs, info_), self') ->
    sent self' = [get_state; possible_actions]
    /\ state info_ = current_state self'
    /\ actions info_ = current_actions self'
    /\ _get_observation self' = (Ok obs, self')
    /\ get (current_state self') "turn" (JInt 0) = Ok (episode_turns self')
    /\ forall other,
         same_config self other ->
         reset engine other = (Ok (obs, info_), self').
Proof.
  intros engine self obs info_ self' H.
  destruct (reset_returns _ _ _ _ _ H) as [S [St [A [O [_ T]]]]].
  repeat split; try assumption.
  intros other C. exact (reset_same_config engine self other _ _ C H).
Qed.

Lemma reset_starts_afresh_witness :
  exists obs info_ self',
    reset (stuck stuck_state some_actions)
      (running garbled (two_players 9 3 4) (JList []) 100)
    = (Ok (obs, info_), self')
    /\ reset (stuck stuck_state some_actions) (stuck_env [pass_priority])
       = (Ok (obs, info_), self')
    /\ state info_ = stuck_state.
Proof.
  eassert (E : reset (stuck stuck_state some_actions)
                 (running garbled (two_players 9 3 4) (JList []) 100)
               = (Ok (_, _), _)) by (vm_compute; reflexivity).
  eexists. eexists. eexists. split; [exact E|]. split.
  - apply (proj2 (proj2 (proj2 (proj2 (proj2
             (reset_starts_afresh _ _ _ _ _ E)))))).
    repeat split.
  - reflexivity.
Defined.


(** *** A state that is not an object *)

Lemma update_state_non_object :
  forall self p v,
    process self = Some p ->
    stdout p (stdin p ++ [get_state])%list = Parsed v ->
    isinstance_dict v = false ->
    exists self',
      _update_state self = (Raise AttributeError, self')
      /\ current_state self' = v
      /\ current_actions self' = current_actions self
      /\ sent self' = (stdin p ++ [get_state])%list.
Proof.
  intros self p v.
  destruct self as [jp jc p1 p2 mt rm pr cs ca et go]. simpl.
  intros -> R D. destruct p as [a i o]. simpl in R.
  run_methods. rewrite R. unfold json_loads. run_methods.
  destruct v; try discriminate D; simpl;
    eexists; (split; [reflexivity|]); repeat split; reflexivity.
Qed.

(** X6.  When the engine answers [get_state] with JSON that is not an
    object (a list, a number, a string), [step] raises AttributeError out
    of [_update_state]: only JSONDecodeError is handled there.  The value
    stays in [current_state], the action list is not refreshed and
    [possible_actions] is not asked. *)
Theorem step_on_non_object_state :
  forall action self p n in_range previous_state v,
    process self = Some p ->
    len (current_actions self) = Ok n ->
    lt action (JInt n) = Ok in_range ->
    (if truthy (current_state self) then copy (current_state self) else Ok JNull)
    = Ok previous_state ->
    stdout p (stdin p ++ [if in_range then play_action action else pass_priority;
                          get_state])%list = Parsed v ->
    isinstance_dict v = false ->
    exists self',
      step action self = (Raise AttributeError, self')
      /\ current_state self' = v
      /\ current_actions self' = current_actions self
      /\ sent self'
         = (stdin p ++ [if in_range then play_action action else pass_priority;
                        get_state])%list.
Proof.
  intros action self p n in_range previous_state v Hp Hn Hl Hc R D.
  unfold step, mbind, read, lift, ret, raise.
  rewrite Hp, Hn, Hl.
  set (c := if in_range then play_action action else pass_priority) in *.
  assert (Es : _send_command c self
               = (Ok tt, set_process
                           (Some {| args := args p; stdin := (stdin p ++ [c])%list;
                                    stdout := stdout p |}) self)).
  { unfold _send_command, write. rewrite Hp. reflexivity. }
  rewrite Es.
  set (self1 := set_process _ self).
  change (current_state self1) with (current_state self). rewrite Hc.
  destruct (update_state_non_object self1 _ v eq_refl) as [self' [U [S [A G]]]].
  - simpl. rewrite <- app_assoc. exact R.
  - exact D.
  - exists self'. rewrite U. split; [reflexivity|]. split; [exact S|].
    split; [exact A|]. rewrite G. simpl. rewrite <- app_assoc. reflexivity.
Qed.

Lemma step_on_non_object_state_witness :
  exists self',
    step (JInt 0) (running (stuck (JList [JInt 1]) some_actions)
                     stuck_state some_actions 100)
    = (Raise AttributeError, self')
    /\ current_state self' = JList [JInt 1].
Proof.
  destruct (step_on_non_object_state (JInt 0)
              (running (stuck (JList [JInt 1]) some_actions)
                 stuck_state some_actions 100)
              _ 2 true stuck_state (JList [JInt 1])
              eq_refl eq_refl eq_refl eq_refl eq_refl eq_refl)
    as [self' [E [S _]]].
  exists self'. split; assumption.
Defined.

(** *** Rewards *)

(** X7.  The reward is exactly 0.0 whenever one of the two states is
    empty, and whenever one of them lists fewer than two players, whatever
    the life totals in it: a lone player at 0 life earns neither bonus nor
    penalty. *)
Theorem reward_needs_two_players :
  forall prev curr,
    (truthy prev = false \/ truthy curr = false
     \/ exists pp cp,
          get prev "players" (JList [JDict []; JDict []]) = Ok (JList pp)
          /\ get curr "players" (JList [JDict []; JDict []]) = Ok (JList cp)
          /\ (List.length pp < 2 \/ List.length cp < 2)%nat) ->
    _calculate_reward prev curr = Ok 0.0%Q.
Proof.
  intros prev curr H. unfold _calculate_reward.
  destruct (truthy prev) eqn:Tp; [|reflexivity].
  destruct (truthy curr) eqn:Tc; [|reflexivity].
  destruct H as [F|[F|[pp [cp [Gp [Gc L]]]]]]; try discriminate F.
  cbn [negb orb]. rewrite Gp, Gc. cbn [bind len].
  destruct (2 <=? Z.of_nat (List.length pp)) eqn:Ep; cbn [bind]; [|reflexivity].
  destruct (2 <=? Z.of_nat (List.length cp)) eqn:Ec; cbn [bind]; [|reflexivity].
  apply Z.leb_le in Ep, Ec. exfalso. lia.
Qed.

Lemma reward_needs_two_players_witness :
  _calculate_reward (two_players 1 20 20)
    (JDict [("players", JList [JDict [("life", JInt 0)]])]) = Ok 0.0%Q.
Proof.
  apply reward_needs_two_players. right. right.
  exists [JDict [("id", JInt 0); ("life", JInt 20)];
          JDict [("id", JInt 1); ("life", JInt 20)]],
         [JDict [("life", JInt 0)]].
  split; [reflexivity|]. split; [reflexivity|]. right. simpl. lia.
Defined.

(** *** Observations *)

Lemma bind_ok :
  forall (A B : Type) (m : result A) (k : A -> result B) b,
    bind m k = Ok b -> exists a, m = Ok a /\ k a = Ok b.
Proof.
  intros A B m k b. destruct m as [a|e]; simpl; [|discriminate].
  intros H. exists a. split; [reflexivity|exact H].
Qed.

(** Takes a chain of binds that returned apart, step by step. *)
Ltac bind_inv H :=
  repeat (let a := fresh "v" in
          let E := fresh "E" in
          apply bind_ok in H; destruct H as [a [E H]]).

Lemma phase_map_get_range :
  forall key c, phase_map_get key = Ok c -> (0 <= c <= 9)%Z.
Proof.
  intros key c. destruct key; simpl; intros H; try discriminate H;
    injection H as <-; try lia.
  repeat (destruct (String.eqb s _); [lia|]). lia.
Qed.

Lemma np_int32_of_int :
  forall n z, np_int32 (JInt n) = Ok z -> z = n.
Proof.
  intros n z. simpl. destruct (int32_range n); [|discriminate].
  intros H. injection H as <-. reflexivity.
Qed.

Lemma len_nonneg : forall x n, len x = Ok n -> (0 <= n)%Z.
Proof.
  intros x n. destruct x; simpl; intros H; try discriminate H;
    injection H as <-; lia.
Qed.

Lemma hand_size_at_value :
  forall players i h,
    hand_size_at players i = Ok h ->
    exists k, h = JInt k /\ (0 <= k)%Z
      /\ forall n, len players = Ok n -> (n <= i)%Z -> k = 0%Z.
Proof.
  intros players i h. unfold hand_size_at. intros H.
  apply bind_ok in H. destruct H as [n [En H]].
  destruct (i <? n) eqn:C.
  - bind_inv H. injection H as <-. exists v1. split; [reflexivity|].
    split; [exact (len_nonneg _ _ E1)|].
    intros n' En' L. rewrite En in En'. injection En' as <-.
    apply Z.ltb_lt in C. lia.
  - injection H as <-. exists 0%Z. split; [reflexivity|]. split; [lia|].
    intros _ _ _. reflexivity.
Qed.

Lemma life_at_missing :
  forall players i n l,
    len players = Ok n -> (n <= i)%Z ->
    life_at players i = Ok l -> l = JInt 20.
Proof.
  intros players i n l En L. unfold life_at. rewrite En. cbn [bind].
  destruct (i <? n) eqn:C.
  - apply Z.ltb_lt in C. lia.
  - intros H. injection H as <-. reflexivity.
Qed.

Lemma observation_fields :
  forall self obs,
    truthy (current_state self) = true ->
    fst (_get_observation self) = Ok obs ->
    exists players l0 l1 h0 h1,
      get (current_state self) "players" (JList [JDict []; JDict []]) = Ok players
      /\ life_at players 0 = Ok l0 /\ np_int32 l0 = Ok (player_0_life obs)
      /\ life_at players 1 = Ok l1 /\ np_int32 l1 = Ok (player_1_life obs)
      /\ hand_size_at players 0 = Ok h0 /\ np_int32 h0 = Ok (player_0_hand_size obs)
      /\ hand_size_at players 1 = Ok h1 /\ np_int32 h1 = Ok (player_1_hand_size obs)
      /\ (0 <= phase obs <= 9)%Z.
Proof.
  intros self obs T. unfold _get_observation, mbind, read, lift, ret.
  rewrite T. cbn [negb fst]. intros H.
  bind_inv H. injection H as <-. cbn.
  exists v, v7, v9, v11, v13.
  repeat split; try assumption; apply (phase_map_get_range _ _ E3).
Qed.

(** X9.  Every observation that [_get_observation] returns has its phase
    among the ten codes 0..9 and hand sizes that are not negative, and
    getting it leaves the instance as it was. *)
Theorem observation_within_space :
  forall self obs self',
    _get_observation self = (Ok obs, self') ->
    self' = self
    /\ (0 <= phase obs <= 9)%Z
    /\ (0 <= player_0_hand_size obs)%Z
    /\ (0 <= player_1_hand_size obs)%Z.
Proof.
  intros self obs self' H.
  split; [exact (EnvFacts.get_observation_reads _ _ _ H)|].
  destruct (truthy (current_state self)) eqn:T.
  - assert (F : fst (_get_observation self) = Ok obs) by (rewrite H; reflexivity).
    destruct (observation_fields self obs T F)
      as [players [l0 [l1 [h0 [h1 [_ [_ [_ [_ [_ [H0 [N0 [H1 [N1 P]]]]]]]]]]]]]].
    destruct (hand_size_at_value _ _ _ H0) as [k0 [-> [K0 _]]].
    destruct (hand_size_at_value _ _ _ H1) as [k1 [-> [K1 _]]].
    apply np_int32_of_int in N0, N1. rewrite N0, N1.
    repeat split; try assumption; apply P.
  - rewrite (EnvFacts.observation_of_falsy_state self T) in H.
    injection H as <- _. simpl. lia.
Qed.

Lemma observation_within_space_witness :
  exists obs,
    _get_observation (stuck_env []) = (Ok obs, stuck_env [])
    /\ (0 <= phase obs <= 9)%Z
    /\ (0 <= player_0_hand_size obs)%Z.
Proof.
  eassert (E : _get_observation (stuck_env []) = (Ok _, stuck_env []))
    by (vm_compute; reflexivity).
  eexists. split; [exact E|].
  destruct (observation_within_space _ _ _ E) as [_ [P [H0 _]]].
  split; assumption.
Defined.

(** X10.  In the observation of a state that is not empty, a player the
    state does not list is shown with 20 life and an empty hand: player 1
    when fewer than two players are listed, player 0 as well when none
    is. *)
Theorem observation_of_missing_players :
  forall self obs ps,
    truthy (current_state self) = true ->
    get (current_state self) "players" (JList [JDict []; JDict []])
    = Ok (JList ps) ->
    fst (_get_observation self) = Ok obs ->
    ((List.length ps <= 1)%nat ->
     player_1_life obs = 20%Z /\ player_1_hand_size obs = 0%Z)
    /\ (ps = [] ->
        player_0_life obs = 20%Z /\ player_0_hand_size obs = 0%Z).
Proof.
  intros self obs ps T G F.
  destruct (observation_fields self obs T F)
    as [players [l0 [l1 [h0 [h1 [G' [L0 [M0 [L1 [M1 [H0 [N0 [H1 [N1 _]]]]]]]]]]]]]].
  rewrite G in G'. injection G' as <-.
  assert (En : len (JList ps) = Ok (Z.of_nat (List.length ps))) by reflexivity.
  split.
  - intros Short.
    assert (Le : (Z.of_nat (List.length ps) <= 1)%Z) by lia.
    rewrite (life_at_missing _ _ _ _ En Le L1) in M1.
    destruct (hand_size_at_value _ _ _ H1) as [k [-> [_ K]]].
    rewrite (K _ En Le) in N1.
    injection M1 as <-. injection N1 as <-. split; reflexivity.
  - intros ->.
    assert (Le : (Z.of_nat (@List.length json []) <= 0)%Z) by (simpl; lia).
    rewrite (life_at_missing _ _ _ _ En Le L0) in M0.
    destruct (hand_size_at_value _ _ _ H0) as [k [-> [_ K]]].
    rewrite (K _ En Le) in N0.
    injection M0 as <-. injection N0 as <-. split; reflexivity.
Qed.

Lemma observation_of_missing_players_witness :
  exists obs,
    fst (_get_observation
           (running garbled
              (JDict [("turn", JInt 2);
                      ("players", JList [JDict [("life", JInt 7)]])])
              some_actions 100)) = Ok obs
    /\ player_0_life obs = 7%Z
    /\ player_1_life obs = 20%Z /\ player_1_hand_size obs = 0%Z.
Proof.
  eassert (E : fst (_get_observation
                      (running garbled
                         (JDict [("turn", JInt 2);
                                 ("players", JList [JDict [("life", JInt 7)]])])
                         some_actions 100)) = Ok _)
    by (vm_compute; reflexivity).
  eexists. split; [exact E|]. split; [reflexivity|].
  apply (proj1 (observation_of_missing_players
                  (running garbled
                     (JDict [("turn", JInt 2);
                             ("players", JList [JDict [("life", JInt 7)]])])
                     some_actions 100)
                  _ [JDict [("life", JInt 7)]] eq_refl eq_refl E)).
  simpl. lia.
Defined.

End EnvMore.


(** ** The line reading of [_read_response] *)

Module FramingFacts.
Import Py Framing.

Lemma marker_not_empty : forall m, is_end_marker m = true -> String.eqb m "" = false.
Proof.
  intros m H. destruct m; [discriminate H|reflexivity].
Qed.

Lemma read_loop_quiet :
  forall win32 pre tail acc,
    forallb quiet pre = true ->
    read_loop win32 (pre ++ tail) acc
    = read_loop win32 tail (acc ++ delivered pre).
Proof.
  intros win32 pre. induction pre as [|p pre IH]; intros tail acc Q.
  - simpl. rewrite app_nil_r. reflexivity.
  - simpl in Q. apply andb_true_iff in Q. destruct Q as [Qp Q].
    destruct p as [|line|e]; simpl in *; try discriminate Qp.
    + apply IH. exact Q.
    + destruct (String.eqb line ""); [apply IH; exact Q|].
      apply negb_true_iff in Qp. rewrite Qp.
      rewrite IH by exact Q. rewrite <- app_assoc. reflexivity.
Qed.

(** X11.  With a stdout to read, the response is the text of the lines
    read up to and including the first line that is an end marker, and no
    pass is made after that line; when no such line comes before the
    timeout, it is the text of all the lines read. *)
Theorem read_response_frames :
  forall win32 pre,
    forallb quiet pre = true ->
    (forall m rest,
       is_end_marker m = true ->
       _read_response win32 true (pre ++ readline m :: rest)
       = Ok (String.concat "" (delivered pre ++ [m]), rest))
    /\ _read_response win32 true pre = Ok (String.concat "" (delivered pre), []).
Proof.
  intros win32 pre Q. split.
  - intros m rest M. unfold _read_response.
    rewrite (read_loop_quiet win32 pre _ [] Q). simpl.
    rewrite (marker_not_empty m M), M. reflexivity.
  - unfold _read_response.
    rewrite <- (app_nil_r pre) at 1.
    rewrite (read_loop_quiet win32 pre [] [] Q). reflexivity.
Qed.

Lemma read_response_frames_witness :
  _read_response false true
    [not_ready; readline "{"; readline "  x"; not_ready; readline " } ";
     readline "more"]
  = Ok ("{  x } ", [readline "more"]).
Proof.
  exact (proj1 (read_response_frames false
                  [not_ready; readline "{"; readline "  x"; not_ready] eq_refl)
           " } " [readline "more"] eq_refl).
Defined.

(** X12.  An exception out of the read ends the loop on Windows, where
    the response is then what was collected so far; on the other
    platforms the exception leaves [_read_response].  Without a stdout
    nothing is read and the response is the empty text. *)
Theorem read_response_failure :
  forall pre e rest,
    forallb quiet pre = true ->
    _read_response true true (pre ++ failed e :: rest)
    = Ok (String.concat "" (delivered pre), rest)
    /\ _read_response false true (pre ++ failed e :: rest) = Raise e
    /\ forall win32, _read_response win32 false (pre ++ failed e :: rest)
                     = Ok ("", (pre ++ failed e :: rest)%list).
Proof.
  intros pre e rest Q. unfold _read_response.
  rewrite !(read_loop_quiet _ pre _ [] Q). simpl.
  repeat split; reflexivity.
Qed.

Lemma read_response_failure_witness :
  _read_response true true [readline "{"; failed ValueError; readline "}"]
  = Ok ("{", [readline "}"])
  /\ _read_response false true [readline "{"; failed ValueError; readline "}"]
     = Raise ValueError.
Proof.
  destruct (read_response_failure [readline "{"] ValueError [readline "}"] eq_refl)
    as [W [U _]].
  split; assumption.
Defined.


Lemma lstrip_split :
  forall cs, exists pre, cs = (pre ++ lstrip cs)%list /\ blank pre = true.
Proof.
  induction cs as [|c cs [pre [E B]]].
  - exists []. split; reflexivity.
  - simpl. destruct (isspace c) eqn:S.
    + exists (c :: pre). split.
      * simpl. rewrite <- E. reflexivity.
      * simpl. rewrite S. exact B.
    + exists []. split; reflexivity.
Qed.

Lemma lstrip_blank_app :
  forall l rest, blank l = true -> lstrip (l ++ rest) = lstrip rest.
Proof.
  induction l as [|c l IH]; intros rest B; [reflexivity|].
  simpl in B. apply andb_true_iff in B. destruct B as [S B].
  simpl. rewrite S. apply IH. exact B.
Qed.

Lemma blank_rev : forall l, blank (rev l) = true <-> blank l = true.
Proof.
  intros l. unfold blank. rewrite !forallb_forall.
  split; intros H c I; apply H; [apply in_rev in I|apply in_rev]; exact I.
Qed.

Lemma strip_list :
  forall line,
    list_ascii_of_string (strip line)
    = rev (lstrip (rev (lstrip (list_ascii_of_string line)))).
Proof.
  intros line. unfold strip. apply list_ascii_of_string_of_list_ascii.
Qed.

Lemma strip_to_one :
  forall line c,
    strip line = String c EmptyString <->
    exists l r,
      list_ascii_of_string line = (l ++ c :: r)%list
      /\ blank l = true /\ blank r = true /\ isspace c = false.
Proof.
  intros line c. split.
  - intros H.
    assert (L : list_ascii_of_string (strip line) = [c]) by (rewrite H; reflexivity).
    rewrite strip_list in L.
    assert (L' : lstrip (rev (lstrip (list_ascii_of_string line))) = [c]).
    { rewrite <- (rev_involutive (lstrip _)), L. reflexivity. }
    destruct (lstrip_split (rev (lstrip (list_ascii_of_string line))))
      as [pre2 [E2 B2]].
    rewrite L' in E2.
    assert (S : isspace c = false).
    { destruct (isspace c) eqn:S; [|reflexivity].
      rewrite E2, lstrip_blank_app in L' by exact B2.
      simpl in L'. rewrite S in L'. discriminate L'. }
    destruct (lstrip_split (list_ascii_of_string line)) as [pre1 [E1 B1]].
    assert (E3 : lstrip (list_ascii_of_string line) = c :: rev pre2).
    { rewrite <- (rev_involutive (lstrip _)), E2, rev_app_distr. reflexivity. }
    exists pre1, (rev pre2). rewrite <- E3.
    split; [exact E1|]. split; [exact B1|]. split; [|exact S].
    apply blank_rev. exact B2.
  - intros [l [r [E [Bl [Br S]]]]].
    unfold strip. rewrite E, lstrip_blank_app by exact Bl.
    simpl lstrip. rewrite S. simpl rev.
    rewrite lstrip_blank_app by (apply blank_rev; exact Br).
    simpl. rewrite S. reflexivity.
Qed.

(** X13.  A line ends the response exactly when it is a single closing
    brace or bracket with nothing but whitespace around it.  A response
    written on one line, such as [[1, 2]], is no end marker: the loop goes
    on reading until the timeout. *)
Theorem end_marker_lines :
  forall line,
    is_end_marker line = true <->
    exists l c r,
      list_ascii_of_string line = (l ++ c :: r)%list
      /\ blank l = true /\ blank r = true
      /\ (c = "}"%char \/ c = "]"%char).
Proof.
  intros line. unfold is_end_marker. rewrite orb_true_iff, !String.eqb_eq.
  split.
  - intros [H|H]; apply strip_to_one in H;
      destruct H as [l [r [E [Bl [Br _]]]]]; exists l; eexists; exists r;
      (split; [exact E|]); (split; [exact Bl|]); (split; [exact Br|]);
      [left|right]; reflexivity.
  - intros [l [c [r [E [Bl [Br [C|C]]]]]]]; subst c; [left|right];
      apply strip_to_one; exists l, r; repeat split; assumption || reflexivity.
Qed.

End FramingFacts.


(** ** Further properties of the agent loop *)

Module LoopMore.
Import Py PyFacts AgentLoop Worlds Coverage.
Local Open Scope py_scope.

(** *** Requests to the engine *)

Lemma forge_request_run :
  forall w endpoint d r,
    forge_request w endpoint d r
    = if sendable d then
        match forge w (trace r ++ [forge_call endpoint d]) with
        | Responded v => (Ok v, after (forge_call endpoint d) r)
        | Failed e =>
            if is_URLError e
            then (Ok JNull, say msg_forge_failed (after (forge_call endpoint d) r))
            else (Raise e, after (forge_call endpoint d) r)
        end
      else (Raise AttributeError, r).
Proof.
  intros w endpoint d r.
  unfold forge_request, mbind, emit, try_except, write, read, lift, print, ret,
    raise, after, say.
  destruct (sendable d); cbn [trace printed keyboard]; [|reflexivity].
  destruct (forge w _) as [v|e]; simpl; [reflexivity|].
  destruct (is_URLError e); reflexivity.
Qed.

(** X14.  [forge_request] handles URLError and nothing else.  Data that
    is neither None, a dict nor a str raises AttributeError before
    anything is sent.  Otherwise exactly one request is made: a response
    is returned as it is, a URLError gives None after the line "Forge
    request failed", and any other exception leaves the function.  So it
    never raises URLError. *)
Theorem forge_request_outcomes :
  forall w endpoint d r,
    (sendable d = false ->
     forge_request w endpoint d r = (Raise AttributeError, r))
    /\ (sendable d = true ->
        let r1 := after (forge_call endpoint d) r in
        forge_request w endpoint d r
        = match forge w (trace r1) with
          | Responded v => (Ok v, r1)
          | Failed e =>
              if is_URLError e then (Ok JNull, say msg_forge_failed r1)
              else (Raise e, r1)
          end)
    /\ fst (forge_request w endpoint d r) <> Raise URLError.
Proof.
  intros w endpoint d r. rewrite forge_request_run.
  destruct (sendable d).
  - split; [discriminate|]. split; [intros _; reflexivity|].
    destruct (forge w _) as [v|e]; [discriminate|].
    destruct e; simpl; discriminate.
  - split; [reflexivity|]. split; [discriminate|]. simpl. discriminate.
Qed.

Lemma forge_request_outcomes_witness :
  forge_request (constant_world (Failed URLError) (Failed URLError))
    "/api/reset" (value (JList [JInt 1])) fresh_run
  = (Raise AttributeError, fresh_run)
  /\ forge_request (constant_world (Failed URLError) (Failed URLError))
       "/api/reset" (value (JDict [])) fresh_run
     = (Ok JNull,
        say msg_forge_failed
          (after (forge_call "/api/reset" (value (JDict []))) fresh_run)).
Proof.
  split.
  - exact (proj1 (forge_request_outcomes
                    (constant_world (Failed URLError) (Failed URLError))
                    "/api/reset" (value (JList [JInt 1])) fresh_run) eq_refl).
  - exact (proj1 (proj2 (forge_request_outcomes
                           (constant_world (Failed URLError) (Failed URLError))
                           "/api/reset" (value (JDict [])) fresh_run)) eq_refl).
Defined.

(** *** How often the peers are contacted *)

Lemma step_calls_app :
  forall t u, step_calls (t ++ u) = (step_calls t + step_calls u)%nat.
Proof.
  intros t u. unfold step_calls. rewrite filter_app, length_app. reflexivity.
Qed.

Lemma policy_calls_app :
  forall t u, policy_calls (t ++ u) = (policy_calls t + policy_calls u)%nat.
Proof.
  intros t u. unfold policy_calls. rewrite filter_app, length_app. reflexivity.
Qed.

Lemma policy_request_run :
  forall w game_state r x r',
    policy_request w game_state r = (x, r') ->
    keyboard r' = keyboard r
    /\ ((exists e, structured_payload w game_state = Raise e /\ r' = r)
        \/ (exists payload,
              structured_payload w game_state = Ok payload
              /\ trace r' = (trace r ++ [policy_call payload])%list))
    /\ (printed r' = printed r
        \/ exists m, printed r' = (printed r ++ [m])%list
                     /\ is_fallback m = true /\ x = Ok (JInt 0)).
Proof.
  intros w game_state r x r' H.
  destruct (structured_payload w game_state) as [payload|e] eqn:P.
  - rewrite (LoopFacts.policy_request_unfold w game_state payload r P) in H.
    assert (G : keyboard r' = keyboard r
                /\ trace r' = (trace r ++ [policy_call payload])%list
                /\ (printed r' = printed r
                    \/ exists m, printed r' = (printed r ++ [m])%list
                                 /\ is_fallback m = true /\ x = Ok (JInt 0))).
    { revert H. unfold after.
      repeat case_match; intros H; injection H as <- <-;
        cbn [trace printed keyboard];
        (split; [reflexivity|]); (split; [reflexivity|]);
        first [ left; reflexivity
              | right; eexists; split; [reflexivity|]; split; reflexivity ]. }
    destruct G as [K [T Q]]. split; [exact K|]. split; [|exact Q].
    right. exists payload. split; [reflexivity|exact T].
  - unfold policy_request, mbind, lift in H. rewrite P in H.
    injection H as <- <-. split; [reflexivity|]. split; [|left; reflexivity].
    left. exists e. split; reflexivity.
Qed.

Lemma policy_request_counts :
  forall w game_state r x r',
    policy_request w game_state r = (x, r') ->
    step_calls (trace r') = step_calls (trace r)
    /\ (policy_calls (trace r) <= policy_calls (trace r')
        <= policy_calls (trace r) + 1)%nat.
Proof.
  intros w game_state r x r' H.
  destruct (policy_request_run _ _ _ _ _ H) as [_ [[[e [_ ->]]|[p [_ T]]] _]].
  - split; lia.
  - rewrite T, step_calls_app, policy_calls_app.
    change (step_calls [policy_call p]) with 0%nat.
    change (policy_calls [policy_call p]) with 1%nat.
    split; lia.
Qed.

Lemma counts_after_prompt :
  forall t,
    step_calls (t ++ [prompt]) = step_calls t
    /\ policy_calls (t ++ [prompt]) = policy_calls t.
Proof.
  intros t. rewrite step_calls_app, policy_calls_app.
  change (step_calls [prompt]) with 0%nat.
  change (policy_calls [prompt]) with 0%nat.
  split; lia.
Qed.

Lemma prompt_loop_counts :
  forall game_state count lines r x r',
    prompt_loop game_state count lines r = (x, r') ->
    step_calls (trace r') = step_calls (trace r)
    /\ policy_calls (trace r') = policy_calls (trace r)
    /\ (forall v, x = Ok v -> exists i, v = JInt i /\ 0 <= i < count)
    /\ (forall e, x = Raise e -> e = SystemExit).
Proof.
  intros game_state count lines.
  induction lines as [|line rest IH]; intros r x r';
    destruct (counts_after_prompt (trace r)) as [CS CP].
  - simpl. unfold mbind, emit, print, write, raise. intros H.
    injection H as <- <-. cbn [trace].
    split; [exact CS|]. split; [exact CP|].
    split; intros v H; [discriminate H|]. injection H as <-. reflexivity.
  - simpl. unfold take_line, mbind, emit, print, write, raise, ret.
    destruct line as [| |idx|s].
    + intros H. injection H as <- <-. cbn [trace].
      split; [exact CS|]. split; [exact CP|].
      split; intros v H; [discriminate H|]. injection H as <-. reflexivity.
    + intros H. apply IH in H. cbn [trace] in H.
      rewrite CS, CP in H. exact H.
    + destruct ((0 <=? idx) && (idx <? count)) eqn:V.
      * intros H. injection H as <- <-. cbn [trace].
        split; [exact CS|]. split; [exact CP|].
        split; intros v H; [|discriminate H].
        injection H as <-. exists idx. split; [reflexivity|].
        apply andb_true_iff in V. destruct V as [V1 V2].
        apply Z.leb_le in V1. apply Z.ltb_lt in V2. lia.
      * intros H. apply IH in H. cbn [trace] in H.
        rewrite CS, CP in H. exact H.
    + intros H. apply IH in H. cbn [trace] in H.
      rewrite CS, CP in H. exact H.
Qed.


Lemma local_debug_policy_counts :
  forall w game_state r x r',
    local_debug_policy w game_state r = (x, r') ->
    step_calls (trace r') = step_calls (trace r)
    /\ policy_calls (trace r') = policy_calls (trace r).
Proof.
  intros w game_state r x r'. unfold local_debug_policy, mbind, lift, read.
  destruct (debug_actions w game_state) as [actions|e].
  - intros H. apply prompt_loop_counts in H.
    destruct H as [S [P _]]. split; assumption.
  - intros H. injection H as <- <-. split; reflexivity.
Qed.

Lemma forge_request_counts :
  forall w endpoint d r x r',
    forge_request w endpoint d r = (x, r') ->
    policy_calls (trace r') = policy_calls (trace r)
    /\ (step_calls (trace r')
        <= step_calls (trace r)
           + (if is_step_call (forge_call endpoint d) then 1 else 0))%nat.
Proof.
  intros w endpoint d r x r'.
  rewrite forge_request_run.
  destruct (sendable d).
  - assert (C : policy_calls (trace (after (forge_call endpoint d) r))
                = policy_calls (trace r)
                /\ (step_calls (trace (after (forge_call endpoint d) r))
                    <= step_calls (trace r)
                       + (if is_step_call (forge_call endpoint d) then 1 else 0))%nat).
    { unfold after. cbn [trace]. rewrite step_calls_app, policy_calls_app.
      change (policy_calls [forge_call endpoint d]) with 0%nat.
      unfold step_calls at 2. cbn [filter].
      destruct (is_step_call (forge_call endpoint d)); simpl; lia. }
    destruct (forge w _) as [v|e]; [|destruct (is_URLError e)];
      intros H; injection H as <- <-; exact C.
  - intros H. injection H as <- <-. split; lia.
Qed.


Lemma forge_request_one_call :
  forall w endpoint d r x r',
    forge_request w endpoint d r = (x, r') ->
    policy_calls (trace r') = policy_calls (trace r)
    /\ (step_calls (trace r') <= step_calls (trace r) + 1)%nat.
Proof.
  intros w endpoint d r x r' H.
  destruct (forge_request_counts _ _ _ _ _ _ H) as [P S].
  split; [exact P|].
  destruct (is_step_call (forge_call endpoint d)); lia.
Qed.

(** One pass posts at most one step request and asks the policy at most
    once, and not at all in local debug mode. *)
Lemma iteration_calls :
  forall w l r x r',
    iteration w l r = (x, r') ->
    (step_calls (trace r') <= step_calls (trace r) + 1)%nat
    /\ (policy_calls (trace r) <= policy_calls (trace r')
        <= policy_calls (trace r) + (if LOCAL_DEBUG_MODE w then 0 else 1))%nat.
Proof.
  intros w l r x r'.
  unfold iteration, mbind, lift, ret, print, write.
  repeat case_match;
    intros H; injection H as <- <-;
    repeat match goal with
           | G : local_debug_policy _ _ _ = _ |- _ =>
               apply local_debug_policy_counts in G; cbn [trace] in G
           | G : policy_request _ _ _ = _ |- _ =>
               apply policy_request_counts in G; cbn [trace] in G
           | G : forge_request _ _ _ _ = _ |- _ =>
               apply forge_request_one_call in G; cbn [trace] in G
           end;
    cbn [trace]; split; lia.
Qed.

Lemma while_calls :
  forall w fuel l r x r',
    while w fuel l r = (x, r') ->
    (step_calls (trace r')
     <= step_calls (trace r) + Z.to_nat (max_steps - step l))%nat
    /\ (policy_calls (trace r) <= policy_calls (trace r')
        <= policy_calls (trace r)
           + (if LOCAL_DEBUG_MODE w then 0 else Z.to_nat (max_steps - step l)))%nat.
Proof.
  intros w fuel. induction fuel as [|fuel IH]; intros l r x r'; cbn [while].
  - unfold ret. intros H. injection H as <- <-.
    destruct (LOCAL_DEBUG_MODE w); split; lia.
  - unfold mbind, lift, ret.
    destruct (loop_test l) as [[|]|e] eqn:T;
      try (intros H; injection H as <- <-;
           destruct (LOCAL_DEBUG_MODE w); split; lia).
    pose proof (LoopFacts.loop_test_true _ T) as Hlt.
    destruct (iteration w l r) as [[[l1|l1]|e] r1] eqn:I;
      pose proof (iteration_calls _ _ _ _ _ I) as [S1 P1].
    + pose proof (LoopFacts.iteration_counts _ _ _ _ _ I) as Hc. simpl in Hc.
      intros H. destruct (IH _ _ _ _ H) as [S2 P2]. rewrite Hc in S2, P2.
      destruct (LOCAL_DEBUG_MODE w); split; lia.
    + intros H. injection H as <- <-.
      destruct (LOCAL_DEBUG_MODE w); split; lia.
    + intros H. injection H as <- <-.
      destruct (LOCAL_DEBUG_MODE w); split; lia.
Qed.

Lemma epilogue_trace :
  forall l r x r', epilogue l r = (x, r') -> trace r' = trace r.
Proof.
  intros l r x r'. unfold epilogue, mbind, lift, ret, print, write.
  repeat case_match; intros H; injection H as <- <-; reflexivity.
Qed.

(** X15.  Whatever the engine and the policy answer, one [run_game]
    posts at most 500 step requests and asks the policy at most 500
    times; in local debug mode it does not contact the policy at all. *)
Theorem run_game_contacts_bounded :
  forall w fuel scenario r x r',
    run_game w fuel scenario r = (x, r') ->
    (step_calls (trace r') <= step_calls (trace r) + 500)%nat
    /\ (policy_calls (trace r') <= policy_calls (trace r) + 500)%nat
    /\ (LOCAL_DEBUG_MODE w = true ->
        policy_calls (trace r') = policy_calls (trace r)).
Proof.
  intros w fuel scenario r x r'.
  unfold run_game.
  unfold mbind at 1. unfold print at 1, write.
  set (r0 := {| trace := trace r; printed := (printed r ++ [msg_starting])%list;
                keyboard := keyboard r |}).
  unfold mbind at 1.
  destruct (forge_request w "/api/reset" _ r0) as [[state_|e] r1] eqn:F;
    apply forge_request_counts in F; subst r0; cbn [trace] in F;
    change (is_step_call (forge_call "/api/reset" _)) with false in F;
    destruct F as [FP FS].
  2:{ intros H. injection H as <- <-.
      split; [lia|]. split; [lia|]. intros _. lia. }
  destruct (negb (truthy state_)).
  { unfold mbind, print, write, ret. intros H. injection H as <- <-.
    cbn [trace]. split; [lia|]. split; [lia|]. intros _. lia. }
  unfold mbind at 1.
  destruct (while w fuel _ r1) as [[[l'|]|e] r2] eqn:W;
    apply while_calls in W; cbn [step] in W;
    change (Z.to_nat (max_steps - 0)) with 500%nat in W;
    destruct W as [WS WP].
  - unfold mbind, ret.
    destruct (epilogue l' r2) as [[final|e] r3] eqn:E;
      apply epilogue_trace in E;
      intros H; injection H as <- <-; rewrite E;
      destruct (LOCAL_DEBUG_MODE w);
      (split; [lia|]); (split; [lia|]); intros D; try discriminate D; lia.
  - unfold ret. intros H. injection H as <- <-.
    destruct (LOCAL_DEBUG_MODE w);
      (split; [lia|]); (split; [lia|]); intros D; try discriminate D; lia.
  - intros H. injection H as <- <-.
    destruct (LOCAL_DEBUG_MODE w);
      (split; [lia|]); (split; [lia|]); intros D; try discriminate D; lia.
Qed.

Lemma run_game_contacts_bounded_witness :
  (step_calls
     (trace (snd (run_game
                    (constant_world (Responded (server_state 1 false two_actions))
                       (Responded (JInt 0)))
                    501 JNull fresh_run))) <= 500)%nat.
Proof.
  destruct (run_game
              (constant_world (Responded (server_state 1 false two_actions))
                 (Responded (JInt 0)))
              501 JNull fresh_run) as [x r'] eqn:E.
  exact (proj1 (run_game_contacts_bounded _ _ _ _ _ _ E)).
Defined.


(** *** How [run_game] starts *)

Lemma run_game_start :
  forall w fuel scenario r,
    run_game w fuel scenario r
    = mbind (forge_request w "/api/reset"
               (value (if truthy scenario then scenario else JDict [])))
        (fun state_ =>
           if negb (truthy state_) then
             mbind (print msg_failed_to_start) (fun _ => ret (Some JNull))
           else
             mbind (while w fuel (entering state_)) (fun left =>
               match left with
               | None => ret None
               | Some l => mbind (epilogue l) (fun final => ret (Some final))
               end))
        (say msg_starting r).
Proof.
  intros w fuel scenario r. reflexivity.
Qed.

(** X16.  When the reset request fails with URLError, or is answered
    with an empty value (null, an empty object), [run_game] returns None
    after the line "Failed to start game!", having made that one request
    and none to the policy.  Any other failure of the request leaves
    [run_game] as the exception it is, and a scenario that is neither
    empty, a dict nor a str raises AttributeError before anything is
    sent. *)
Theorem run_game_failed_start :
  forall w fuel scenario r,
    let options := if truthy scenario then scenario else JDict [] in
    let r1 := after (reset_call scenario) (say msg_starting r) in
    (sendable (value options) = true ->
     (forge w (trace r1) = Failed URLError
      \/ exists v, forge w (trace r1) = Responded v /\ truthy v = false) ->
     exists r',
       run_game w fuel scenario r = (Ok (Some JNull), r')
       /\ trace r' = (trace r ++ [reset_call scenario])%list
       /\ last (printed r') msg_starting = msg_failed_to_start)
    /\ (forall e,
          sendable (value options) = true ->
          forge w (trace r1) = Failed e -> is_URLError e = false ->
          run_game w fuel scenario r = (Raise e, r1))
    /\ (sendable (value options) = false ->
        run_game w fuel scenario r = (Raise AttributeError, say msg_starting r)).
Proof.
  intros w fuel scenario r options r1.
  assert (R : run_game w fuel scenario r
              = mbind (fun r0 =>
                         if sendable (value options) then
                           match forge w (trace r1) with
                           | Responded v => (Ok v, r1)
                           | Failed e =>
                               if is_URLError e
                               then (Ok JNull, say msg_forge_failed r1)
                               else (Raise e, r1)
                           end
                         else (Raise AttributeError, r0))
                  (fun state_ =>
                     if negb (truthy state_) then
                       mbind (print msg_failed_to_start) (fun _ => ret (Some JNull))
                     else
                       mbind (while w fuel (entering state_)) (fun left =>
                         match left with
                         | None => ret None
                         | Some l => mbind (epilogue l) (fun final => ret (Some final))
                         end))
                  (say msg_starting r)).
  { rewrite run_game_start. unfold mbind at 1 3.
    rewrite forge_request_run. reflexivity. }
  rewrite R. unfold mbind at 1.
  split; [|split].
  - intros S [F|[v [F T]]]; rewrite S, F; cbn [is_URLError].
    + eexists. split; [reflexivity|]. cbn [trace printed say].
      split; [reflexivity|]. apply last_last.
    + rewrite T. eexists. split; [reflexivity|]. cbn [trace printed].
      split; [reflexivity|]. apply last_last.
  - intros e S F U. rewrite S, F, U. reflexivity.
  - intros S. rewrite S. reflexivity.
Qed.

Lemma run_game_failed_start_witness :
  fst (run_game (constant_world (Failed URLError) (Responded (JInt 0)))
         501 JNull fresh_run) = Ok (Some JNull)
  /\ run_game (constant_world (Failed SocketTimeout) (Responded (JInt 0)))
       501 JNull fresh_run
     = (Raise SocketTimeout, after (reset_call JNull) (say msg_starting fresh_run))
  /\ fst (run_game (constant_world (Failed URLError) (Responded (JInt 0)))
            501 (JList [JInt 1]) fresh_run) = Raise AttributeError.
Proof.
  split; [|split].
  - destruct (proj1 (run_game_failed_start
                       (constant_world (Failed URLError) (Responded (JInt 0)))
                       501 JNull fresh_run) eq_refl (or_introl eq_refl))
      as [r' [E _]].
    rewrite E. reflexivity.
  - exact (proj1 (proj2 (run_game_failed_start
                           (constant_world (Failed SocketTimeout) (Responded (JInt 0)))
                           501 JNull fresh_run))
             SocketTimeout eq_refl eq_refl eq_refl).
  - rewrite (proj2 (proj2 (run_game_failed_start
                             (constant_world (Failed URLError) (Responded (JInt 0)))
                             501 (JList [JInt 1]) fresh_run)) eq_refl).
    reflexivity.
Defined.

Lemma get_field :
  forall kvs key default, get (JDict kvs) key default = Ok (field (JDict kvs) key default).
Proof.
  intros kvs key default. reflexivity.
Qed.

(** X17.  When the state that the reset returns already reports the
    game over, [run_game] makes no pass of its loop: no step request, no
    policy request, no log.  It prints the game-over report, with the
    winner (default "Unknown") and each player's name and life (defaults
    "Player 1", "Player 2" and "?"), and returns that state. *)
Theorem run_game_over_at_start :
  forall w fuel scenario r st over,
    let options := if truthy scenario then scenario else JDict [] in
    let r1 := after (reset_call scenario) (say msg_starting r) in
    let p1 := field st "player1" (JDict []) in
    let p2 := field st "player2" (JDict []) in
    sendable (value options) = true ->
    forge w (trace r1) = Responded st ->
    get st "game_over" JNull = Ok over ->
    truthy over = true ->
    isinstance_dict p1 = true ->
    isinstance_dict p2 = true ->
    run_game w (S fuel) scenario r
    = (Ok (Some st),
       say (msg_game_over (field st "winner" (JStr "Unknown"))
              (field p1 "name" (JStr "Player 1")) (field p1 "life" (JStr "?"))
              (field p2 "name" (JStr "Player 2")) (field p2 "life" (JStr "?")))
         r1).
Proof.
  intros w fuel scenario r st over options r1 p1 p2 S F G T D1 D2.
  rewrite run_game_start. fold options.
  unfold mbind at 1. rewrite forge_request_run, S.
  change (trace (say msg_starting r) ++ [forge_call "/api/reset" (value options)])%list
    with (trace r1).
  rewrite F.
  change (after (forge_call "/api/reset" (value options)) (say msg_starting r))
    with r1.
  destruct st as [| | | | | |kvs]; try discriminate G.
  destruct kvs as [|kv kvs']; [simpl in G; injection G as <-; discriminate T|].
  set (st := JDict (kv :: kvs')) in *.
  change (negb (truthy st)) with false. cbv iota.
  unfold mbind at 1. cbn [while].
  unfold mbind at 1. unfold lift at 1, loop_test, entering.
  cbn [state step]. rewrite G. cbn [bind]. rewrite T. cbn [negb andb].
  unfold ret at 1.
  unfold epilogue, mbind, lift, ret, print, write. cbn [state step game_log].
  change (max_steps <=? 0) with false. cbv iota.
  change (truthy st) with true. cbv iota.
  rewrite G, T.
  unfold st at 1 2 3. rewrite !get_field. fold st. fold p1. fold p2.
  destruct p1 as [| | | | | |kvs1]; try discriminate D1.
  destruct p2 as [| | | | | |kvs2]; try discriminate D2.
  rewrite !get_field. reflexivity.
Qed.

Lemma run_game_over_at_start_witness :
  exists r',
    run_game (constant_world (Responded (server_state 9 true two_actions))
                (Responded (JInt 0)))
      501 JNull fresh_run
    = (Ok (Some (server_state 9 true two_actions)), r')
    /\ step_calls (trace r') = 0%nat
    /\ last (printed r') msg_starting
       = msg_game_over (JStr "Unknown") (JStr "Agent") (JInt 20)
           (JStr "AI") (JInt 20).
Proof.
  eexists. split.
  - exact (run_game_over_at_start
             (constant_world (Responded (server_state 9 true two_actions))
                (Responded (JInt 0)))
             500 JNull fresh_run (server_state 9 true two_actions) (JBool true)
             eq_refl eq_refl eq_refl eq_refl eq_refl eq_refl).
  - split; reflexivity.
Defined.


(** *** The payload sent to the policy *)

Lemma map_result_nth :
  forall (A B : Type) (f : A -> result B) xs ys,
    map_result f xs = Ok ys ->
    List.length ys = List.length xs
    /\ forall i x, nth_error xs i = Some x ->
         exists y, nth_error ys i = Some y /\ f x = Ok y.
Proof.
  intros A B f xs. induction xs as [|x0 xs IH]; intros ys H.
  - simpl in H. injection H as <-. split; [reflexivity|].
    intros [|i] x N; discriminate N.
  - simpl in H. EnvMore.bind_inv H. injection H as <-.
    destruct (IH _ E0) as [L N]. split; [simpl; rewrite L; reflexivity|].
    intros [|i] x Nx; simpl in Nx.
    + injection Nx as <-. exists v. split; [reflexivity|exact E].
    + apply N. exact Nx.
Qed.

Lemma enumerate_nth :
  forall (A : Type) (xs : list A) k i x,
    nth_error xs i = Some x ->
    nth_error (enumerate k xs) i = Some (k + Z.of_nat i, x).
Proof.
  intros A xs. induction xs as [|x0 xs IH]; intros k [|i] x N;
    try discriminate N; simpl in *.
  - injection N as <-. rewrite Z.add_0_r. reflexivity.
  - rewrite (IH (k + 1) i x N). f_equal. f_equal. lia.
Qed.

Lemma enumerate_length :
  forall (A : Type) (xs : list A) k, List.length (enumerate k xs) = List.length xs.
Proof.
  intros A xs. induction xs as [|x0 xs IH]; intros k; simpl; [reflexivity|].
  rewrite IH. reflexivity.
Qed.

Lemma action_descriptor_fields :
  forall i action d,
    action_descriptor (i, action) = Ok d ->
    isinstance_dict action = true
    /\ get d "index" JNull = Ok (JInt i)
    /\ get d "type" JNull = Ok (field action "type" (JStr "unknown"))
    /\ get d "card" JNull = Ok (field action "card_name" (JStr "")).
Proof.
  intros i action d. destruct action; try discriminate.
  simpl. intros H. injection H as <-. repeat split; reflexivity.
Qed.

Lemma hand_entry_total :
  forall w card, exists h,
    hand_entry w card = Ok h
    /\ (forall s, card = JStr s -> h = card)
    /\ (forall kvs, card = JDict kvs -> h = field card "name" (JStr (str w card))).
Proof.
  intros w card. destruct card; simpl; eexists;
    (split; [reflexivity|]); split; intros x H; try discriminate H; reflexivity.
Qed.

(** X18.  In the payload that [policy_request] builds, the action
    descriptors stand in the order in which the state offers the actions
    and carry the indices 0, 1, 2, ... of that order, with each action's
    type and card name (defaults "unknown" and the empty string); the hand
    has one entry per card of the state's hand, a card given as a string
    kept as it is and a card given as an object replaced by its name. *)
Theorem payload_shape :
  forall w game_state payload,
    structured_payload w game_state = Ok payload ->
    exists actions items descriptors raw_hand cards hand,
      offered game_state = Ok actions /\ iter actions = Ok items
      /\ payload_actions payload = Ok (JList descriptors)
      /\ List.length descriptors = List.length items
      /\ (forall i a, nth_error items i = Some a ->
            exists d, nth_error descriptors i = Some d
              /\ get d "index" JNull = Ok (JInt (Z.of_nat i))
              /\ get d "type" JNull = Ok (field a "type" (JStr "unknown"))
              /\ get d "card" JNull = Ok (field a "card_name" (JStr "")))
      /\ get game_state "hand" (JList []) = Ok raw_hand /\ iter raw_hand = Ok cards
      /\ payload_hand payload = Ok (JList hand)
      /\ List.length hand = List.length cards
      /\ (forall i c, nth_error cards i = Some c ->
            exists h, nth_error hand i = Some h
              /\ (forall s, c = JStr s -> h = c)
              /\ (forall kvs, c = JDict kvs ->
                    h = field c "name" (JStr (str w c)))).
Proof.
  intros w game_state payload H. unfold structured_payload in H.
  EnvMore.bind_inv H. injection H as <-.
  match goal with
  | Hh : get game_state "hand" _ = Ok ?raw, Hc : iter ?raw = Ok ?cards,
    Hm : map_result (hand_entry w) ?cards = Ok ?hand,
    Hp : get game_state "possible_actions" _ = Ok ?possible,
    Ha : get ?possible "actions" _ = Ok ?actions,
    Hi : iter ?actions = Ok ?items,
    Hd : map_result action_descriptor _ = Ok ?ds |- _ =>
      exists actions, items, ds, raw, cards, hand;
      destruct (map_result_nth _ _ _ _ _ Hd) as [Ld Nd];
      destruct (map_result_nth _ _ _ _ _ Hm) as [Lh Nh];
      rewrite enumerate_length in Ld;
      split; [unfold offered; rewrite Hp; exact Ha|];
      split; [exact Hi|]; split; [reflexivity|]; split; [exact Ld|];
      split; [|split; [exact Hh|split; [exact Hc|split; [reflexivity|
              split; [exact Lh|]]]]]
  end.
  - intros i a N.
    destruct (Nd i _ (enumerate_nth _ _ 0 i a N)) as [d [Nd' Ed]].
    exists d. split; [exact Nd'|].
    apply action_descriptor_fields in Ed. simpl in Ed.
    destruct Ed as [_ Ed]. exact Ed.
  - intros i c N. destruct (Nh i c N) as [h [Nh' Eh]].
    exists h. split; [exact Nh'|].
    destruct (hand_entry_total w c) as [h' [Eh' F]].
    rewrite Eh in Eh'. injection Eh' as <-. exact F.
Qed.

Lemma payload_shape_witness :
  exists payload descriptors hand,
    structured_payload (constant_world (Failed URLError) (Failed URLError))
      (server_state 1 false two_actions) = Ok payload
    /\ payload_actions payload = Ok (JList descriptors)
    /\ List.length descriptors = 2%nat
    /\ payload_hand payload = Ok (JList hand)
    /\ List.length hand = 2%nat.
Proof.
  eassert (P : structured_payload (constant_world (Failed URLError) (Failed URLError))
                 (server_state 1 false two_actions) = Ok _)
    by (vm_compute; reflexivity).
  destruct (payload_shape _ _ _ P)
    as [actions [items [ds [raw [cards [hand
         [O [I [PA [Ld [_ [G [C [PH [Lh _]]]]]]]]]]]]]]].
  injection O as <-. injection I as <-. injection G as <-. injection C as <-.
  eexists. exists ds, hand. split; [exact P|].
  split; [exact PA|]. split; [exact Ld|]. split; [exact PH|exact Lh].
Defined.


(** *** What [policy_request] prints and raises *)

(** X19.  [policy_request] reads nothing from the keyboard and posts
    nothing to the engine.  It prints a fallback warning only when it
    returns index 0 in place of an answer; an object answer that has
    neither [action_index] nor [index] gives 0 without any warning.  When
    the payload cannot be built it raises before contacting the policy,
    and an exception of the request other than URLError, a timeout,
    ValueError and TypeError leaves it without a warning. *)
Theorem policy_request_warnings :
  forall w game_state r x r',
    policy_request w game_state r = (x, r') ->
    keyboard r' = keyboard r
    /\ step_calls (trace r') = step_calls (trace r)
    /\ (printed r' = printed r
        \/ exists m, printed r' = (printed r ++ [m])%list
                     /\ is_fallback m = true /\ x = Ok (JInt 0))
    /\ (forall payload kvs,
          structured_payload w game_state = Ok payload ->
          policy w (trace r ++ [policy_call payload]) = Responded (JDict kvs) ->
          lookup "action_index" kvs = None -> lookup "index" kvs = None ->
          x = Ok (JInt 0) /\ printed r' = printed r)
    /\ (forall e, structured_payload w game_state = Raise e ->
          x = Raise e /\ r' = r)
    /\ (forall payload e,
          structured_payload w game_state = Ok payload ->
          policy w (trace r ++ [policy_call payload]) = Failed e ->
          handled e = false ->
          x = Raise e /\ printed r' = printed r).
Proof.
  intros w game_state r x r' H.
  destruct (policy_request_run _ _ _ _ _ H) as [K [_ Q]].
  destruct (policy_request_counts _ _ _ _ _ H) as [S _].
  split; [exact K|]. split; [exact S|]. split; [exact Q|].
  split; [|split].
  - intros payload kvs P A N1 N2.
    rewrite (LoopFacts.policy_request_unfold w game_state payload r P), A in H.
    unfold carried_index in H. rewrite N1, N2 in H. cbn [is_None] in H.
    injection H as <- <-. split; reflexivity.
  - intros e P. unfold policy_request, mbind, lift in H. rewrite P in H.
    injection H as <- <-. split; reflexivity.
  - intros payload e P F U.
    rewrite (LoopFacts.policy_request_unfold w game_state payload r P), F, U in H.
    injection H as <- <-. split; reflexivity.
Qed.

Lemma policy_request_warnings_witness :
  exists r',
    policy_request
      (constant_world (Failed URLError) (Responded (JDict [("choice", JInt 1)])))
      (server_state 1 false two_actions) fresh_run
    = (Ok (JInt 0), r')
    /\ printed r' = [].
Proof.
  destruct (policy_request
              (constant_world (Failed URLError)
                 (Responded (JDict [("choice", JInt 1)])))
              (server_state 1 false two_actions) fresh_run) as [x r'] eqn:E.
  eassert (P : structured_payload
                 (constant_world (Failed URLError)
                    (Responded (JDict [("choice", JInt 1)])))
                 (server_state 1 false two_actions) = Ok _)
    by (vm_compute; reflexivity).
  destruct (proj1 (proj2 (proj2 (proj2 (policy_request_warnings _ _ _ _ _ E))))
              _ [("choice", JInt 1)] P eq_refl eq_refl eq_refl) as [X Q].
  exists r'. rewrite X. split; [reflexivity|exact Q].
Defined.


(** *** The index that a pass plays *)

(** X20.  The index the decision source returns is compared with 0 as
    it is.  When it is not a number (a string such as "1" inside an object
    answer, a list, an object), the comparison raises TypeError, which
    leaves the pass and [run_game]: nothing is logged and no step request
    is posted. *)
Theorem non_numeric_index_raises :
  forall w l r actions n chosen r1,
    offered (state l) = Ok actions ->
    len actions = Ok n ->
    n <> 0 ->
    decide w (state l) (with_banner l r) = (Ok chosen, r1) ->
    as_num chosen = None ->
    iteration w l r = (Raise TypeError, r1).
Proof.
  intros w l r actions n chosen r1 O L NZ C N.
  pose proof (LoopFacts.offered_dict _ _ O) as D.
  rewrite (LoopFacts.iteration_prefix w l r actions n D O L).
  apply Z.eqb_neq in NZ. rewrite NZ, C.
  unfold mbind, lift, lt. rewrite N. reflexivity.
Qed.

Lemma non_numeric_index_raises_witness :
  exists r1,
    iteration
      (constant_world (Responded (server_state 1 false two_actions))
         (Responded (JDict [("action_index", JStr "1")])))
      (entering (server_state 1 false two_actions)) fresh_run
    = (Raise TypeError, r1)
    /\ step_calls (trace r1) = 0%nat.
Proof.
  eassert (C : decide
                 (constant_world (Responded (server_state 1 false two_actions))
                    (Responded (JDict [("action_index", JStr "1")])))
                 (state (entering (server_state 1 false two_actions)))
                 (with_banner (entering (server_state 1 false two_actions))
                    fresh_run)
               = (Ok (JStr "1"), _)) by (vm_compute; reflexivity).
  eexists. split.
  - apply (non_numeric_index_raises _
             (entering (server_state 1 false two_actions)) fresh_run
             two_actions 2 (JStr "1") _ eq_refl eq_refl).
    + discriminate.
    + exact C.
    + reflexivity.
  - reflexivity.
Defined.

Lemma getitem_at :
  forall items i a,
    0 <= i -> nth_error items (Z.to_nat i) = Some a ->
    getitem (JList items) (JInt i) = Ok a
    /\ i < Z.of_nat (List.length items).
Proof.
  intros items i a P N.
  assert (B : (Z.to_nat i < List.length items)%nat).
  { apply nth_error_Some. rewrite N. discriminate. }
  assert (L : i < Z.of_nat (List.length items)) by lia.
  split; [|exact L].
  unfold getitem, as_index, seq_pos.
  replace (0 <=? i) with true by (symmetry; apply Z.leb_le; exact P).
  replace (i <? Z.of_nat (List.length items)) with true
    by (symmetry; apply Z.ltb_lt; exact L).
  cbn [andb]. rewrite N. reflexivity.
Qed.

(** X21.  When the decision source returns an integer from 0 to below
    the number of actions, the pass logs the action at that position
    ("Pass priority" for a pass_priority action) and posts [play_action]
    with that very index.  A state in answer continues the loop; an empty
    answer, or a URLError, ends it with the line "ERROR: Failed to get
    state after action!" in the log; any other failure of the request
    leaves the pass as the exception it is. *)
Theorem valid_index_is_played :
  forall w l r items i a r1,
    offered (state l) = Ok (JList items) ->
    decide w (state l) (with_banner l r) = (Ok (JInt i), r1) ->
    0 <= i ->
    nth_error items (Z.to_nat i) = Some a ->
    isinstance_dict a = true ->
    let entry := entry_for (phase_of (state l)) a in
    let r2 := after (forge_call "/api/step" (play_action (JInt i)))
                (say (msg_entry entry) r1) in
    iteration w l r =
    match forge w (trace r2) with
    | Responded state_ =>
        if truthy state_ then
          (Ok (next {| state := state_; turn := turn_after l; step := step l + 1;
                       game_log := log_after l ++ [entry] |}), r2)
        else
          (Ok (break {| state := state_; turn := turn_after l; step := step l + 1;
                        game_log := log_after l ++ [entry; step_failed] |}),
           say msg_failed_after_action r2)
    | Failed e =>
        if is_URLError e then
          (Ok (break {| state := JNull; turn := turn_after l; step := step l + 1;
                        game_log := log_after l ++ [entry; step_failed] |}),
           say msg_failed_after_action (say msg_forge_failed r2))
        else (Raise e, r2)
    end%list.
Proof.
  intros w l r items i a r1 O C P N A entry r2.
  pose proof (LoopFacts.offered_dict _ _ O) as D.
  destruct (getitem_at items i a P N) as [G B].
  assert (L : len (JList items) = Ok (Z.of_nat (List.length items))) by reflexivity.
  rewrite (LoopFacts.iteration_prefix w l r _ _ D O L).
  replace (Z.of_nat (List.length items) =? 0) with false
    by (symmetry; apply Z.eqb_neq; lia).
  rewrite C.
  unfold mbind at 1. unfold lift at 1, lt. cbn [as_num].
  replace (Qlt_bool (inject_Z i) (inject_Z 0)) with false.
  2:{ symmetry. unfold Qlt_bool. apply negb_false_iff. apply Qle_bool_iff.
      rewrite <- Zle_Qle. exact P. }
  unfold mbind at 1. unfold lift at 1, ge, le. cbn [as_num].
  replace (Qle_bool (inject_Z (Z.of_nat (List.length items))) (inject_Z i))
    with false.
  2:{ symmetry. destruct (Qle_bool _ _) eqn:E; [|reflexivity].
      apply Qle_bool_iff in E. rewrite <- Zle_Qle in E. lia. }
  unfold mbind at 1. unfold ret at 1.
  unfold mbind at 1. unfold lift at 1. rewrite G.
  destruct a as [| | | | | |kvs]; try discriminate A.
  unfold mbind, print, write, lift, ret. cbn [get].
  rewrite (LoopFacts.forge_request_step w (JInt i)).
  unfold entry, entry_for in *. cbn [get] in *.
  set (e1 := if eqb _ _ then _ else _) in *.
  unfold after, say in *. cbn [trace printed keyboard] in *.
  subst r2. cbn [trace].
  destruct (forge w _) as [state_|e]; [|destruct (is_URLError e)];
    try reflexivity.
  destruct (truthy state_); reflexivity.
Qed.

Lemma valid_index_is_played_witness :
  exists l' r',
    iteration
      (constant_world (Responded (server_state 2 false two_actions))
         (Responded (JInt 1)))
      (entering (server_state 1 false two_actions)) fresh_run
    = (Ok (next l'), r')
    /\ last (trace r') prompt = forge_call "/api/step" (play_action (JInt 1))
    /\ last (game_log l') step_failed = pass_line (JStr "MAIN1").
Proof.
  eassert (C : decide
                 (constant_world (Responded (server_state 2 false two_actions))
                    (Responded (JInt 1)))
                 (state (entering (server_state 1 false two_actions)))
                 (with_banner (entering (server_state 1 false two_actions))
                    fresh_run)
               = (Ok (JInt 1), _)) by (vm_compute; reflexivity).
  eexists. eexists. split.
  - rewrite (valid_index_is_played _
               (entering (server_state 1 false two_actions)) fresh_run
               [JDict [("type", JStr "play_land"); ("card_name", JStr "Forest")];
                JDict [("type", JStr "pass_priority")]]
               1 (JDict [("type", JStr "pass_priority")]) _
               eq_refl C ltac:(lia) eq_refl eq_refl).
    reflexivity.
  - split; reflexivity.
Defined.

(** *** The operator as the policy *)

Lemma debug_actions_length :
  forall w game_state ds,
    debug_actions w game_state = Ok ds ->
    exists actions items,
      offered game_state = Ok actions /\ iter actions = Ok items
      /\ List.length ds = List.length items.
Proof.
  intros w game_state ds H. unfold debug_actions in H.
  EnvMore.bind_inv H.
  match goal with
  | Hp : get game_state "possible_actions" _ = Ok ?possible,
    Ha : get ?possible "actions" _ = Ok ?actions,
    Hi : iter ?actions = Ok ?items |- _ =>
      exists actions, items;
      split; [unfold offered; rewrite Hp; exact Ha|]; split; [exact Hi|]
  end.
  destruct (map_result_nth _ _ _ _ _ H) as [Ld _].
  rewrite enumerate_length in Ld. exact Ld.
Qed.

(** X22.  In local debug mode the choice comes from the keyboard alone:
    neither the policy nor the engine is contacted.  What
    [local_debug_policy] returns is always an integer from 0 to below the
    number of actions the state offers, whatever is typed before it; and
    it raises only SystemExit (on q or at the end of the input), or the
    exception with which the payload could not be built. *)
Theorem local_debug_choice_in_range :
  forall w game_state r x r',
    local_debug_policy w game_state r = (x, r') ->
    step_calls (trace r') = step_calls (trace r)
    /\ policy_calls (trace r') = policy_calls (trace r)
    /\ (forall v, x = Ok v ->
          exists i actions items,
            v = JInt i /\ offered game_state = Ok actions
            /\ iter actions = Ok items
            /\ 0 <= i < Z.of_nat (List.length items))
    /\ (forall e, x = Raise e ->
          e = SystemExit \/ debug_actions w game_state = Raise e).
Proof.
  intros w game_state r x r' H.
  destruct (local_debug_policy_counts _ _ _ _ _ H) as [S P].
  split; [exact S|]. split; [exact P|].
  unfold local_debug_policy, mbind, lift, read in H.
  destruct (debug_actions w game_state) as [ds|e0] eqn:A.
  - apply prompt_loop_counts in H. destruct H as [_ [_ [V R]]].
    destruct (debug_actions_length _ _ _ A) as [actions [items [O [I L]]]].
    split.
    + intros v X. destruct (V v X) as [i [-> B]].
      exists i, actions, items. rewrite <- L. repeat split; try assumption; lia.
    + intros e X. left. exact (R e X).
  - injection H as <- <-. split; [discriminate|].
    intros e X. injection X as <-. right. reflexivity.
Qed.

Lemma local_debug_choice_in_range_witness :
  exists i,
    fst (local_debug_policy
           (constant_world (Failed URLError) (Failed URLError))
           (server_state 1 false two_actions)
           {| trace := []; printed := [];
              keyboard := [typed_other "x"; typed_number 7; typed_j;
                           typed_number 1; typed_q] |})
    = Ok (JInt i)
    /\ 0 <= i < 2.
Proof.
  destruct (local_debug_policy
              (constant_world (Failed URLError) (Failed URLError))
              (server_state 1 false two_actions)
              {| trace := []; printed := [];
                 keyboard := [typed_other "x"; typed_number 7; typed_j;
                              typed_number 1; typed_q] |}) as [x r'] eqn:E.
  destruct (local_debug_choice_in_range _ _ _ _ _ E) as [_ [_ [V _]]].
  assert (X : x = Ok (JInt 1)).
  { vm_compute in E. injection E as <- _. reflexivity. }
  destruct (V _ X) as [i [actions [items [Ei [O [I B]]]]]].
  injection O as <-. injection I as <-.
  exists i. split; [rewrite X, Ei; reflexivity|exact B].
Defined.

End LoopMore.


(** ** [render] *)

Module RenderFacts.
Import Py ForgeEnv Rendering.
Local Open Scope py_scope.

Lemma for_each_lines :
  forall (A : Type) (body : A -> Out unit) (k : nat) xs,
    (forall x, In x xs -> forall out, exists ls,
        body x out = (Ok tt, (out ++ ls)%list) /\ List.length ls = k) ->
    forall out, exists ls,
      for_each body xs out = (Ok tt, (out ++ ls)%list)
      /\ List.length ls = (k * List.length xs)%nat.
Proof.
  intros A body k xs. induction xs as [|x xs IH]; intros H out.
  - exists []. simpl. rewrite app_nil_r. split; [reflexivity|lia].
  - destruct (H x (or_introl eq_refl) out) as [l1 [E1 L1]].
    destruct (IH (fun y I => H y (or_intror I)) (out ++ l1)%list) as [l2 [E2 L2]].
    exists (l1 ++ l2)%list. split.
    + cbn [for_each]. unfold mbind. rewrite E1, E2, app_assoc. reflexivity.
    + rewrite length_app, L1, L2. simpl. lia.
Qed.

Lemma for_each_raises :
  forall (A : Type) (body : A -> Out unit) e pre x rest,
    (forall y, In y pre -> forall out, exists ls,
        body y out = (Ok tt, (out ++ ls)%list)) ->
    (forall out, exists ls, body x out = (Raise e, (out ++ ls)%list)) ->
    forall out, exists ls,
      for_each body (pre ++ x :: rest) out = (Raise e, (out ++ ls)%list).
Proof.
  intros A body e pre x rest. induction pre as [|y pre IH]; intros Hp Hx out.
  - destruct (Hx out) as [ls E]. exists ls.
    cbn [app for_each]. unfold mbind. rewrite E. reflexivity.
  - destruct (Hp y (or_introl eq_refl) out) as [l1 E1].
    destruct (IH (fun z I => Hp z (or_intror I)) Hx (out ++ l1)%list) as [l2 E2].
    exists (l1 ++ l2)%list.
    cbn [app for_each]. unfold mbind. rewrite E1, E2, app_assoc. reflexivity.
Qed.

(** Runs the prints of a body over what has been printed. *)
Ltac run_prints :=
  unfold mbind, lift, print, write, ret; cbn [bind].

Lemma render_player_complete :
  forall player out,
    complete_player player = true ->
    exists ls,
      render_player player out = (Ok tt, (out ++ ls)%list)
      /\ List.length ls = 5%nat.
Proof.
  intros player out C. unfold complete_player, has_key, sized in C.
  repeat (apply andb_true_iff in C; destruct C as [C ?]).
  unfold render_player. run_prints.
  destruct (getitem player (JStr "name")) as [name|]; [|discriminate].
  destruct (getitem player (JStr "id")) as [id|]; [|discriminate].
  destruct (getitem player (JStr "life")) as [life|]; [|discriminate].
  destruct (getitem player (JStr "libraryCount")) as [library|]; [|discriminate].
  destruct (get player "hand" (JList [])) as [hand|]; [|discriminate].
  destruct (get player "battlefield" (JList [])) as [battlefield|]; [|discriminate].
  cbn [bind] in *.
  destruct (len hand) as [n|]; [|discriminate].
  destruct (len battlefield) as [m|]; [|discriminate].
  exists [player_line name id; life_line life; hand_line n; library_line library;
          battlefield_line m].
  rewrite <- !app_assoc. split; reflexivity.
Qed.

Lemma render_player_incomplete :
  forall kvs out,
    sized "hand" (JDict kvs) = true ->
    has_key "name" (JDict kvs) && has_key "id" (JDict kvs)
    && has_key "life" (JDict kvs) && has_key "libraryCount" (JDict kvs) = false ->
    exists ls, render_player (JDict kvs) out = (Raise KeyError, (out ++ ls)%list).
Proof.
  intros kvs out S K. unfold has_key, sized in *. unfold render_player.
  run_prints. cbn [getitem get bind] in *.
  destruct (lookup "name" kvs) as [name|].
  2:{ exists []. rewrite app_nil_r. reflexivity. }
  destruct (lookup "id" kvs) as [id|].
  2:{ exists []. rewrite app_nil_r. reflexivity. }
  destruct (lookup "life" kvs) as [life|].
  2:{ eexists. reflexivity. }
  destruct (len _) as [n|]; [|discriminate S].
  destruct (lookup "libraryCount" kvs) as [library|]; [discriminate K|].
  eexists. rewrite <- !app_assoc. reflexivity.
Qed.

Lemma render_action_line :
  forall i action out,
    isinstance_dict action = true ->
    exists ls,
      render_action (i, action) out = (Ok tt, (out ++ ls)%list)
      /\ List.length ls = 1%nat.
Proof.
  intros i action out D. destruct action; try discriminate D.
  unfold render_action. cbn [get]. run_prints.
  eexists. split; reflexivity.
Qed.

Lemma enumerate_dicts :
  forall acts k ia,
    forallb isinstance_dict acts = true ->
    In ia (AgentLoop.enumerate k acts) -> isinstance_dict (snd ia) = true.
Proof.
  intros acts. induction acts as [|a acts IH]; intros k ia F I; [contradiction|].
  simpl in F. apply andb_true_iff in F. destruct F as [Fa F].
  destruct I as [<-|I]; [exact Fa|]. exact (IH _ _ F I).
Qed.

Lemma enumerate_count :
  forall (A : Type) (xs : list A) k,
    List.length (AgentLoop.enumerate k xs) = List.length xs.
Proof.
  intros A xs. induction xs as [|x xs IH]; intros k; simpl; [reflexivity|].
  rewrite IH. reflexivity.
Qed.

(** X23.  [render] prints only in the modes "human" and "ansi" and only
    when there is a state: otherwise it returns without a line.  For a
    state whose players all have the fields it reads, and actions that are
    objects, it prints the four header lines, five lines for each player,
    the actions header, one line for each action and the closing rule. *)
Theorem render_output :
  forall self out,
    (shown_mode (render_mode self) = false \/ truthy (current_state self) = false ->
     render self out = (Ok tt, out))
    /\ (forall ps acts,
          shown_mode (render_mode self) = true ->
          truthy (current_state self) = true ->
          get (current_state self) "players" (JList []) = Ok (JList ps) ->
          forallb complete_player ps = true ->
          current_actions self = JList acts ->
          forallb isinstance_dict acts = true ->
          exists ls,
            render self out = (Ok tt, (out ++ ls)%list)
            /\ List.length ls
               = (6 + 5 * List.length ps + List.length acts)%nat).
Proof.
  intros self out. split.
  - unfold render, shown_mode. intros [M|T].
    + rewrite M. reflexivity.
    + rewrite T. destruct (_ || _); reflexivity.
  - intros ps acts M T G C A D.
    unfold render. unfold shown_mode in M. rewrite M, T, A.
    destruct (current_state self) as [| | | | | |kvs]; try discriminate G.
    cbn [get] in *. injection G as G.
    unfold mbind at 1. unfold print at 1, write.
    unfold mbind at 1. unfold lift at 1.
    unfold mbind at 1. unfold lift at 1.
    unfold mbind at 1. unfold print at 1, write.
    unfold mbind at 1. unfold lift at 1.
    unfold mbind at 1. unfold print at 1, write.
    unfold mbind at 1. unfold lift at 1.
    unfold mbind at 1. unfold print at 1, write.
    unfold mbind at 1. unfold lift at 1. rewrite G.
    unfold mbind at 1. unfold lift at 1. cbn [iter].
    set (out4 := ((((_ ++ _) ++ _) ++ _) ++ _)%list).
    destruct (for_each_lines _ render_player 5 ps
                (fun p I o =>
                   render_player_complete p o
                     (proj1 (forallb_forall complete_player ps) C p I)) out4)
      as [l1 [E1 L1]].
    unfold mbind at 1. rewrite E1.
    unfold mbind at 1. unfold print at 1, write.
    unfold mbind at 1. unfold lift at 1.
    destruct (for_each_lines _ render_action 1 (AgentLoop.enumerate 0 acts)
                (fun ia I o =>
                   match ia as x
                     return In x (AgentLoop.enumerate 0 acts) ->
                            exists ls, render_action x o = (Ok tt, (o ++ ls)%list)
                                       /\ List.length ls = 1%nat
                   with
                   | (i, a) => fun I' =>
                       render_action_line i a o (enumerate_dicts acts 0 (i, a) D I')
                   end I)
                ((out4 ++ l1) ++ [actions_header])%list)
      as [l2 [E2 L2]].
    unfold mbind at 1. rewrite E2. unfold print, write.
    subst out4.
    exists ([rule_above; turn_line
               match lookup "turn" kvs with Some v => v | None => JInt 0 end
               match lookup "phase" kvs with Some v => v | None => JStr "Unknown" end;
             active_line
               match lookup "activePlayerId" kvs with Some v => v | None => JInt 0 end;
             stack_line
               match lookup "stack_size" kvs with Some v => v | None => JInt 0 end]
            ++ l1 ++ [actions_header] ++ l2 ++ [rule_below])%list.
    split.
    + f_equal. rewrite <- !app_assoc. reflexivity.
    + rewrite !length_app, L1, L2, enumerate_count. simpl. lia.
Qed.

Lemma render_output_witness :
  render (showing JNull (Scenarios.two_players 1 20 20) Scenarios.some_actions) []
  = (Ok tt, [])
  /\ exists ls,
       render (showing (JStr "ansi")
                 (JDict [("turn", JInt 2);
                         ("players", JList [full_player "Agent" 20;
                                            full_player "AI" 17])])
                 Scenarios.some_actions) []
       = (Ok tt, ls)
       /\ List.length ls = 18%nat.
Proof.
  split.
  - exact (proj1 (render_output
                    (showing JNull (Scenarios.two_players 1 20 20)
                       Scenarios.some_actions) [])
             (or_introl eq_refl)).
  - destruct (proj2 (render_output
                       (showing (JStr "ansi")
                          (JDict [("turn", JInt 2);
                                  ("players", JList [full_player "Agent" 20;
                                                     full_player "AI" 17])])
                          Scenarios.some_actions) [])
                [full_player "Agent" 20; full_player "AI" 17]
                [JDict [("type", JStr "play_land"); ("card_name", JStr "Forest")];
                 JDict [("type", JStr "pass_priority")]]
                eq_refl eq_refl eq_refl eq_refl eq_refl eq_refl) as [ls [E L]].
    exists ls. split; [exact E|exact L].
Defined.

(** X24.  [render] indexes the name, id, life and libraryCount of every
    listed player: when a player object lacks one of them (and the
    players before it are complete), [render] raises KeyError, keeping
    what was printed before it. *)
Theorem render_requires_player_fields :
  forall self out pre kvs rest,
    shown_mode (render_mode self) = true ->
    truthy (current_state self) = true ->
    get (current_state self) "players" (JList [])
    = Ok (JList (pre ++ JDict kvs :: rest)) ->
    forallb complete_player pre = true ->
    sized "hand" (JDict kvs) = true ->
    has_key "name" (JDict kvs) && has_key "id" (JDict kvs)
    && has_key "life" (JDict kvs) && has_key "libraryCount" (JDict kvs) = false ->
    exists ls,
      render self out = (Raise KeyError, (out ++ ls)%list).
Proof.
  intros self out pre kvs rest M T G C S K.
  unfold render. unfold shown_mode in M. rewrite M, T.
  destruct (current_state self) as [| | | | | |skvs]; try discriminate G.
  cbn [get] in *. injection G as G.
  unfold mbind at 1. unfold print at 1, write.
  unfold mbind at 1. unfold lift at 1.
  unfold mbind at 1. unfold lift at 1.
  unfold mbind at 1. unfold print at 1, write.
  unfold mbind at 1. unfold lift at 1.
  unfold mbind at 1. unfold print at 1, write.
  unfold mbind at 1. unfold lift at 1.
  unfold mbind at 1. unfold print at 1, write.
  unfold mbind at 1. unfold lift at 1. rewrite G.
  unfold mbind at 1. unfold lift at 1. cbn [iter].
  set (out4 := ((((_ ++ _) ++ _) ++ _) ++ _)%list).
  destruct (for_each_raises _ render_player KeyError pre (JDict kvs) rest
              (fun p I o =>
                 match render_player_complete p o
                         (proj1 (forallb_forall complete_player pre) C p I) with
                 | ex_intro _ ls (conj E _) => ex_intro _ ls E
                 end)
              (fun o => render_player_incomplete kvs o S K) out4) as [l1 E1].
  unfold mbind at 1. rewrite E1. subst out4.
  eexists. f_equal. rewrite <- !app_assoc. reflexivity.
Qed.

Lemma render_requires_player_fields_witness :
  (exists ls,
     render (showing (JStr "human") (Scenarios.two_players 1 20 20)
               Scenarios.some_actions) []
     = (Raise KeyError, ls))
  /\ exists obs,
       fst (_get_observation
              (showing (JStr "human") (Scenarios.two_players 1 20 20)
                 Scenarios.some_actions)) = Ok obs.
Proof.
  split.
  - destruct (render_requires_player_fields
                (showing (JStr "human") (Scenarios.two_players 1 20 20)
                   Scenarios.some_actions) []
                [] [("id", JInt 0); ("life", JInt 20)]
                [JDict [("id", JInt 1); ("life", JInt 20)]]
                eq_refl eq_refl eq_refl eq_refl eq_refl eq_refl) as [ls E].
    exists ls. exact E.
  - eexists. vm_compute. reflexivity.
Defined.

End RenderFacts.


(** ** What [run_game] returns, and [main] *)

Module EntryFacts.
Import Py PyFacts AgentLoop Worlds Coverage Entry.
Local Open Scope py_scope.

Lemma get_is_dict :
  forall st key default v, get st key default = Ok v -> isinstance_dict st = true.
Proof.
  intros st key default v. destruct st; simpl; try discriminate. reflexivity.
Qed.

(** A pass that comes back has read a dict state; it goes on with a state
    that is not empty, and leaves the loop with the state it had or with
    an empty one. *)
Lemma iteration_state :
  forall w l r c r',
    iteration w l r = (Ok c, r') ->
    isinstance_dict (state l) = true
    /\ match c with
       | next l' => truthy (state l') = true
       | break l' => state l' = state l \/ truthy (state l') = false
       end.
Proof.
  intros w l r c r'.
  unfold iteration, mbind, lift, ret, print, write.
  repeat case_match; try discriminate;
    intros H; injection H as <- _;
    (split;
     [ match goal with
       | G : get (state l) "turn" _ = Ok _ |- _ => exact (get_is_dict _ _ _ _ G)
       end
     | cbn [state];
       first [ left; reflexivity
             | right; apply negb_true_iff; assumption
             | apply negb_false_iff; assumption ] ]).
Qed.

Lemma while_state :
  forall w fuel l r l' r',
    while w fuel l r = (Ok (Some l'), r') ->
    truthy (state l') = false \/ isinstance_dict (state l') = true.
Proof.
  intros w fuel. induction fuel as [|fuel IH]; intros l r l' r'; cbn [while].
  - unfold ret. discriminate.
  - unfold mbind, lift, ret.
    destruct (loop_test l) as [[|]|e] eqn:T; try discriminate.
    + destruct (iteration w l r) as [[[l1|l1]|e] r1] eqn:I; try discriminate.
      * intros H. exact (IH _ _ _ _ H).
      * destruct (iteration_state _ _ _ _ _ I) as [D [E|F]];
          intros H; injection H as <- _.
        -- right. rewrite E. exact D.
        -- left. exact F.
    + intros H. injection H as <- _. right.
      unfold loop_test in T.
      destruct (get (state l) "game_over" JNull) as [over|] eqn:G;
        [|discriminate T].
      exact (get_is_dict _ _ _ _ G).
Qed.

Lemma epilogue_value :
  forall l r v r', epilogue l r = (Ok v, r') -> v = state l.
Proof.
  intros l r v r'. unfold epilogue, mbind, lift, ret, print, write.
  repeat case_match; try discriminate; intros H; injection H as <- _; reflexivity.
Qed.

Lemma run_game_value :
  forall w fuel scenario r v r',
    run_game w fuel scenario r = (Ok (Some v), r') ->
    truthy v = false \/ isinstance_dict v = true.
Proof.
  intros w fuel scenario r v r'. rewrite LoopMore.run_game_start.
  unfold mbind at 1.
  destruct (forge_request w "/api/reset" _ _) as [[state_|e] r1]; [|discriminate].
  destruct (negb (truthy state_)).
  - unfold mbind, print, write, ret. intros H. injection H as <- _.
    left. reflexivity.
  - unfold mbind at 1.
    destruct (while w fuel (entering state_) r1) as [[[l'|]|e] r2] eqn:W;
      try discriminate.
    unfold mbind, ret.
    destruct (epilogue l' r2) as [[final|e] r3] eqn:E; [|discriminate].
    intros H. injection H as <- _.
    rewrite (epilogue_value _ _ _ _ E).
    exact (while_state _ _ _ _ _ _ W).
Qed.

(** X25.  What [run_game] returns is either empty (None after a failed
    start or a failed step, an empty answer of the engine) or a dict: a
    state that is neither never leaves it as a result.  Along the loop,
    a pass that goes on to the next one has read a dict state and
    received a state that is not empty. *)
Theorem run_game_result_shape :
  (forall w fuel scenario r v r',
     run_game w fuel scenario r = (Ok (Some v), r') ->
     truthy v = false \/ isinstance_dict v = true)
  /\ (forall w l r l' r',
        iteration w l r = (Ok (next l'), r') ->
        isinstance_dict (state l) = true /\ truthy (state l') = true).
Proof.
  split.
  - intros w fuel scenario r v r' H. exact (run_game_value _ _ _ _ _ _ H).
  - intros w l r l' r' H.
    destruct (iteration_state _ _ _ _ _ H) as [D T]. split; assumption.
Qed.

Lemma run_game_result_shape_witness :
  truthy (server_state 1 false two_actions) = false
  \/ isinstance_dict (server_state 1 false two_actions) = true.
Proof.
  eassert (E : run_game
                 (constant_world (Responded (server_state 1 false two_actions))
                    (Responded (JInt 0)))
                 501 JNull fresh_run
               = (Ok (Some (server_state 1 false two_actions)), _))
    by (vm_compute; reflexivity).
  exact (proj1 run_game_result_shape _ _ _ _ _ _ E).
Defined.

(** X26.  When the command line does not parse, [main] ends with the
    SystemExit of the parser before anything is requested.  Otherwise it
    runs the game in the mode of the flag, with no scenario or with the
    puzzle file as the scenario, which is always something
    [forge_request] can send; past the parser it adds no failure of its
    own: whenever it raises, [run_game] has raised that exception; and it
    shows the final summary exactly when [run_game] returns a state that
    is not empty. *)
Theorem main_adds_no_failure :
  forall w fuel r,
    (forall e, main w (Raise e) fuel r = (Raise e, r))
    /\ (forall args,
          sendable (value (if truthy (scenario_of args) then scenario_of args
                           else JDict [])) = true
          /\ (forall e r',
                main w (Ok args) fuel r = (Raise e, r') ->
                run_game (with_mode w (local_debug args)) fuel (scenario_of args) r
                = (Raise e, r'))
          /\ (forall v r',
                run_game (with_mode w (local_debug args)) fuel (scenario_of args) r
                = (Ok (Some v), r') ->
                main w (Ok args) fuel r
                = (Ok (Some (if truthy v
                             then Some (field v "turn" JNull,
                                        field v "game_over" JNull)
                             else None)), r'))).
Proof.
  intros w fuel r. split; [intros e; reflexivity|].
  intros args. split; [|split].
  - unfold scenario_of. destruct (truthy (puzzle args)); reflexivity.
  - intros e r'. unfold main, mbind, lift.
    destruct (run_game _ fuel _ r) as [[[v|]|e0] r1] eqn:R.
    + destruct (run_game_value _ _ _ _ _ _ R) as [F|D].
      * rewrite F. unfold ret. discriminate.
      * destruct v; try discriminate D.
        destruct (truthy _); unfold ret; simpl; discriminate.
    + unfold ret. discriminate.
    + intros H. injection H as <- <-. reflexivity.
  - intros v r' R. unfold main, mbind, lift. rewrite R.
    destruct (run_game_value _ _ _ _ _ _ R) as [F|D].
    + rewrite F. reflexivity.
    + destruct v; try discriminate D.
      destruct (truthy _); reflexivity.
Qed.

Lemma main_adds_no_failure_witness :
  fst (main (constant_world (Responded (server_state 4 true two_actions))
               (Responded (JInt 0)))
         (Ok {| local_debug := false; puzzle := JStr "p.pzl" |}) 501 fresh_run)
  = Ok (Some (Some (JInt 4, JBool true)))
  /\ main (constant_world (Responded (server_state 4 true two_actions))
             (Responded (JInt 0)))
       (Raise SystemExit) 501 fresh_run
     = (Raise SystemExit, fresh_run).
Proof.
  eassert (R : run_game
                 (with_mode
                    (constant_world (Responded (server_state 4 true two_actions))
                       (Responded (JInt 0))) false)
                 501 (scenario_of {| local_debug := false; puzzle := JStr "p.pzl" |})
                 fresh_run
               = (Ok (Some (server_state 4 true two_actions)), _))
    by (vm_compute; reflexivity).
  split.
  - rewrite (proj2 (proj2 (proj2 (main_adds_no_failure
                             (constant_world
                                (Responded (server_state 4 true two_actions))
                                (Responded (JInt 0)))
                             501 fresh_run)
                           {| local_debug := false; puzzle := JStr "p.pzl" |}))
               _ _ R).
    reflexivity.
  - exact (proj1 (main_adds_no_failure
                    (constant_world (Responded (server_state 4 true two_actions))
                       (Responded (JInt 0)))
                    501 fresh_run) SystemExit).
Defined.

End EntryFacts.

(** ** The random agent of the examples *)

Module ExampleFacts.
Import Py ForgeEnv Scenarios Examples.
Local Open Scope py_scope.

Lemma lt_ints :
  forall a n, lt (JInt a) (JInt n) = Ok (a <? n).
Proof.
  intros a n. unfold lt. cbn [as_num]. unfold Qlt_bool. f_equal.
  destruct (a <? n) eqn:C.
  - apply negb_true_iff. destruct (Qle_bool _ _) eqn:E; [|reflexivity].
    apply Qle_bool_iff in E. rewrite <- Zle_Qle in E.
    apply Z.ltb_lt in C. lia.
  - apply negb_false_iff. apply Qle_bool_iff. rewrite <- Zle_Qle.
    apply Z.ltb_ge in C. exact C.
Qed.

Lemma choose_in_range :
  forall sample n, 0 < n -> 0 <= choose sample n < n.
Proof.
  intros sample n P. unfold choose.
  replace (0 <? n) with true by (symmetry; apply Z.ltb_lt; exact P).
  replace (Z.max n 1) with n by lia.
  apply Z.mod_pos_bound. exact P.
Qed.

(** X27.  The random agent of the example never leaves the offered
    range: when the info of the last reset or step lists n > 0 actions,
    the index it passes to [step] is from 0 to below n, whatever the
    action space has drawn, and [step] writes [play_action] with it; when
    no action is listed it passes 0, for which [step] writes
    [pass_priority]. *)
Theorem random_agent_plays_offered :
  forall sample info_ self p n,
    process self = Some p ->
    actions info_ = current_actions self ->
    len (current_actions self) = Ok n ->
    (0 < n -> 0 <= choose sample n < n)
    /\ exists suffix,
         sent (snd (random_agent_step sample info_ self))
         = (stdin p ++ (if 0 <? n then play_action (JInt (choose sample n))
                        else pass_priority) :: suffix)%list
         /\ forallb is_query suffix = true.
Proof.
  intros sample info_ self p n Hp Hi Hn.
  split; [apply choose_in_range|].
  unfold random_agent_step, mbind, lift. rewrite Hi, Hn.
  assert (L : lt (JInt (choose sample n)) (JInt n) = Ok (0 <? n)).
  { rewrite lt_ints. f_equal. destruct (0 <? n) eqn:C.
    - apply Z.ltb_lt in C. apply Z.ltb_lt. apply choose_in_range. exact C.
    - unfold choose. rewrite C. apply Z.ltb_ge in C. apply Z.ltb_ge.
      pose proof (EnvMore.len_nonneg _ _ Hn). lia. }
  exact (EnvFacts.step_sent _ self p n (0 <? n) Hp Hn L).
Qed.

Lemma random_agent_plays_offered_witness :
  exists suffix,
    sent (snd (random_agent_step 137
                 {| state := stuck_state; actions := some_actions;
                    action_taken := None |}
                 (stuck_env [])))
    = play_action (JInt 1) :: suffix.
Proof.
  destruct (proj2 (random_agent_plays_offered 137
                     {| state := stuck_state; actions := some_actions;
                        action_taken := None |}
                     (stuck_env []) _ 2 eq_refl eq_refl eq_refl))
    as [suffix [E _]].
  exists suffix. exact E.
Defined.

End ExampleFacts.
